(** * Gamechanger: the insolvency-filing extraction pipeline

    A shallow embedding of the three programs of the repository:

    - [Server]   : the [POST /api/extract] handler of [server.ts];
    - [PdfProxy] : the [ch-pdf-proxy] middleware of [vite.config.ts];
    - [Browser]  : [handleExtract] of [src/App.tsx].

    External services (the registry, the document store, the AI provider
    and the web search) are oracles collected in a [World]; every call the
    code makes is logged, in order, in a list of [Event]s, so that
    statements such as "no later call is made" are statements about that
    list. *)

From Stdlib Require Import String Ascii List ZArith NArith Bool Lia.
From Stdlib Require Import DecimalString.
Import ListNotations.
Local Open Scope string_scope.
Local Open Scope list_scope.
Set Warnings "-register-all".

(* ================================================================== *)
(** * JavaScript values *)
(* ================================================================== *)

(** The values [JSON.parse] can return, plus [undefined].  JSON numbers
    are kept as integers: the programs only ever test them for zero.  An
    array carries the named properties that an assignment [a.k = v] may
    add to it. *)
Inductive JsVal : Type :=
| JUndefined
| JNull
| JBool (b : bool)
| JNum (n : Z)
| JStr (s : string)
| JArr (elems : list JsVal) (named : list (string * JsVal))
| JObj (props : list (string * JsVal)).

(** What a JavaScript computation leaves behind: a value or a thrown
    error, of which only [message] is ever read. *)
Inductive Res (A : Type) : Type :=
| Ok (a : A)
| Thrown (message : string).
Arguments Ok {A} a.
Arguments Thrown {A} message.

Module Js.

(** [!!v] *)
Definition truthy (v : JsVal) : bool :=
  match v with
  | JUndefined | JNull => false
  | JBool b => b
  | JNum n => negb (n =? 0)%Z
  | JStr s => negb (s =? "")
  | JArr _ _ | JObj _ => true
  end.

(** [a || b] *)
Definition or (a b : JsVal) : JsVal := if truthy a then a else b.

Fixpoint lookup (k : string) (ps : list (string * JsVal)) : JsVal :=
  match ps with
  | [] => JUndefined
  | (k', v) :: rest => if k' =? k then v else lookup k rest
  end.

(** Own-property update: the first binding of [k] is replaced in
    place, a new key is appended (insertion order). *)
Fixpoint update (k : string) (v : JsVal) (ps : list (string * JsVal))
  : list (string * JsVal) :=
  match ps with
  | [] => [(k, v)]
  | (k', v') :: rest =>
      if k' =? k then (k', v) :: rest else (k', v') :: update k v rest
  end.

(** [o.k] for a key [k] that is neither an index nor a built-in
    property name. *)
Definition get (o : JsVal) (k : string) : Res JsVal :=
  match o with
  | JUndefined =>
      Thrown ("Cannot read properties of undefined (reading '" ++ k ++ "')")
  | JNull =>
      Thrown ("Cannot read properties of null (reading '" ++ k ++ "')")
  | JObj ps => Ok (lookup k ps)
  | JArr _ ps => Ok (lookup k ps)
  | JBool _ | JNum _ | JStr _ => Ok JUndefined
  end.

(** [o.k = v] in strict mode (both [server.ts] and [App.tsx] are ES
    modules): the updated object, or the [TypeError]. *)
Definition set (o : JsVal) (k : string) (v : JsVal) : Res JsVal :=
  match o with
  | JObj ps => Ok (JObj (update k v ps))
  | JArr es ps => Ok (JArr es (update k v ps))
  | JUndefined =>
      Thrown ("Cannot set properties of undefined (setting '" ++ k ++ "')")
  | JNull =>
      Thrown ("Cannot set properties of null (setting '" ++ k ++ "')")
  | JBool _ | JNum _ | JStr _ =>
      Thrown ("Cannot create property '" ++ k ++ "'")
  end.

(** What [JSON.stringify] keeps of the properties of an object: a
    property whose value is [undefined] is dropped. *)
Definition kept (f : JsVal -> JsVal)
  : list (string * JsVal) -> list (string * JsVal) :=
  fix go (l : list (string * JsVal)) : list (string * JsVal) :=
    match l with
    | [] => []
    | (k, x) :: rest =>
        match x with
        | JUndefined => go rest
        | _ => (k, f x) :: go rest
        end
    end.

(** What [JSON.stringify] keeps of a value, read back: an [undefined]
    array element becomes [null], the named properties of an array are
    ignored. *)
Fixpoint wire (v : JsVal) : JsVal :=
  match v with
  | JArr es _ =>
      JArr (map (fun e => match e with
                          | JUndefined => JNull
                          | _ => wire e
                          end) es) []
  | JObj ps => JObj (kept wire ps)
  | _ => v
  end.

(** [k in o], for the objects the programs build. *)
Definition has (o : JsVal) (k : string) : bool :=
  match o with
  | JObj ps => existsb (fun p => fst p =? k) ps
  | _ => false
  end.

Definition is_string (v : JsVal) : bool :=
  match v with JStr _ => true | _ => false end.

(** A string property that may be missing, as the value the code
    reads. *)
Definition str (o : option string) : JsVal :=
  match o with
  | Some s => JStr s
  | None => JUndefined
  end.

End Js.

(** A string-or-missing value used as a condition: [if (s)]. *)
Definition nonempty (o : option string) : option string :=
  match o with
  | Some s => if s =? "" then None else Some s
  | None => None
  end.

(* ================================================================== *)
(** * Strings: [includes], [trim], base64 *)
(* ================================================================== *)

(** [hay.includes(needle)] *)
Fixpoint includes (needle hay : string) : bool :=
  String.prefix needle hay
  || match hay with
     | EmptyString => false
     | String _ rest => includes needle rest
     end.

(** Strings are kept as their UTF-8 bytes, which is what
    [Buffer.from(s)] reads; a character outside ASCII takes two or
    three of them here. *)

(** The ASCII white space of [trim]: U+0009 to U+000D and U+0020. *)
Definition is_space (c : ascii) : bool :=
  let n := nat_of_ascii c in
  ((9 <=? n) && (n <=? 13))%nat || (n =? 32)%nat.

(** U+00A0, the white space of [trim] that takes two bytes. *)
Definition space2 (a b : ascii) : bool :=
  ((nat_of_ascii a =? 194) && (nat_of_ascii b =? 160))%nat.

(** The white space and line terminators of [trim] that take three
    bytes: U+1680, U+2000 to U+200A, U+2028, U+2029, U+202F, U+205F,
    U+3000 and U+FEFF. *)
Definition space3 (a b c : ascii) : bool :=
  let x := nat_of_ascii a in
  let y := nat_of_ascii b in
  let z := nat_of_ascii c in
  (((x =? 225) && (y =? 154) && (z =? 128))
   || ((x =? 226) && (y =? 128)
       && (((128 <=? z) && (z <=? 138))
           || (z =? 168) || (z =? 169) || (z =? 175)))
   || ((x =? 226) && (y =? 129) && (z =? 159))
   || ((x =? 227) && (y =? 128) && (z =? 128))
   || ((x =? 239) && (y =? 187) && (z =? 191)))%nat.

Definition reverse (s : string) : string :=
  string_of_list_ascii (rev (list_ascii_of_string s)).

(** Drops the white space [s] starts with; with [backwards], [s] is a
    string read from its end, and so is each character. *)
Fixpoint dropSpaces (backwards : bool) (s : string) : string :=
  match s with
  | EmptyString => s
  | String a rest =>
      if is_space a then dropSpaces backwards rest
      else
        match rest with
        | EmptyString => s
        | String b rest2 =>
            if (if backwards then space2 b a else space2 a b)
            then dropSpaces backwards rest2
            else
              match rest2 with
              | EmptyString => s
              | String c rest3 =>
                  if (if backwards then space3 c b a else space3 a b c)
                  then dropSpaces backwards rest3
                  else s
              end
        end
  end.

Definition trimStart (s : string) : string := dropSpaces false s.

Definition trimEnd (s : string) : string :=
  reverse (dropSpaces true (reverse s)).

(** [s.trim()] *)
Definition trim (s : string) : string := trimEnd (trimStart s).

Module Base64.

Definition alphabet : string :=
  "ABCDEFGHIJKLMNOPQRSTUVWXYZabcdefghijklmnopqrstuvwxyz0123456789+/".

Definition digit (n : N) : ascii :=
  match String.get (N.to_nat n) alphabet with
  | Some c => c
  | None => "="%char
  end.

Definition pad : ascii := "="%char.

Fixpoint encode_bytes (bs : list N) : string :=
  match bs with
  | [] => EmptyString
  | a :: rest1 =>
      match rest1 with
      | [] =>
          String (digit (N.shiftr a 2))
            (String (digit (N.shiftl (N.land a 3) 4))
               (String pad (String pad EmptyString)))
      | b :: rest2 =>
          match rest2 with
          | [] =>
              String (digit (N.shiftr a 2))
                (String (digit (N.lor (N.shiftl (N.land a 3) 4) (N.shiftr b 4)))
                   (String (digit (N.shiftl (N.land b 15) 2))
                      (String pad EmptyString)))
          | c :: rest3 =>
              String (digit (N.shiftr a 2))
                (String (digit (N.lor (N.shiftl (N.land a 3) 4) (N.shiftr b 4)))
                   (String (digit (N.lor (N.shiftl (N.land b 15) 2) (N.shiftr c 6)))
                      (String (digit (N.land c 63)) (encode_bytes rest3))))
          end
      end
  end.

(** [Buffer.from(s).toString("base64")] *)
Definition encode (s : string) : string :=
  encode_bytes (map N_of_ascii (list_ascii_of_string s)).

(** The bytes [btoa] encodes: one for each character of [s], which must
    be a code point up to U+00FF.  In UTF-8 such a character is an
    ASCII byte, or a lead byte C2 or C3 and one continuation byte.
    Anything else is a code point above U+00FF, or not the UTF-8 of any
    string. *)
Fixpoint latin1 (s : string) : option (list N) :=
  match s with
  | EmptyString => Some []
  | String a rest =>
      let x := N_of_ascii a in
      if (x <? 128)%N then option_map (cons x) (latin1 rest)
      else
        match rest with
        | String b rest2 =>
            let y := N_of_ascii b in
            if ((x =? 194) || (x =? 195))%N && ((128 <=? y) && (y <? 192))%N
            then option_map (cons ((x - 192) * 64 + (y - 128))%N) (latin1 rest2)
            else None
        | EmptyString => None
        end
  end.

(** [btoa(s)]: [None] when it throws its [InvalidCharacterError]. *)
Definition btoa (s : string) : option string :=
  option_map encode_bytes (latin1 s).

(** Every character of [s] is ASCII. *)
Definition isAscii (s : string) : bool :=
  forallb (fun c => (N_of_ascii c <? 128)%N) (list_ascii_of_string s).

End Base64.

(** Every character of [s] is a visible ASCII character (U+0021 to
    U+007E): a header value that [fetch] sends as it is. *)
Definition isVisible (s : string) : bool :=
  forallb (fun c => ((33 <=? N_of_ascii c) && (N_of_ascii c <=? 126))%N)
          (list_ascii_of_string s).

(** Every character of [s] is an ASCII letter or digit: a path segment
    that URL parsing leaves as it is. *)
Definition isAlphanumeric (s : string) : bool :=
  forallb (fun c =>
             let n := N_of_ascii c in
             (((48 <=? n) && (n <=? 57))
              || ((65 <=? n) && (n <=? 90))
              || ((97 <=? n) && (n <=? 122)))%N)
          (list_ascii_of_string s).

(* ================================================================== *)
(** * HTTP, registry data and the effect monad *)
(* ================================================================== *)

Inductive RedirectMode : Type := RedirectFollow | RedirectManual.

(** [fetch(url, { headers, redirect })] *)
Record Request : Type := {
  url : string;
  headers : list (string * string);
  redirect : RedirectMode
}.

(** What the code reads of a response: [status], [statusText],
    [headers.get('location')] and the body, through [json()] or
    [arrayBuffer()], which may reject. *)
Record Response (B : Type) : Type := {
  status : Z;
  statusText : string;
  location : option string;
  payload : Res B
}.
Arguments status {B} _.
Arguments statusText {B} _.
Arguments location {B} _.
Arguments payload {B} _.

(** [res.ok] *)
Definition ok {B} (r : Response B) : bool :=
  ((200 <=? status r) && (status r <=? 299))%Z.

(** A [fetch] promise either rejects (network error) or resolves. *)
Inductive Fetched (B : Type) : Type :=
| Rejected (message : string)
| Responded (r : Response B).
Arguments Rejected {B} message.
Arguments Responded {B} r.

Definition settle {B} (f : Fetched B) : Res (Response B) :=
  match f with
  | Rejected m => Thrown m
  | Responded r => Ok r
  end.

(** Registry JSON, typed by the registry's contract.  A field whose
    value the code uses may be missing, whether the code guards the
    read ([items || []], [description?.], [links?.document_metadata],
    [items?.find]) or not ([director.name], [company_name],
    [company_number]); [category] and [officer_role] are only compared
    with a constant, which a missing value never equals. *)
Record Links : Type := { document_metadata : option string }.

Record FilingItem : Type := {
  category : string;
  description : option string;
  links : option Links
}.

Record FilingData : Type := { items : option (list FilingItem) }.

Record Officer : Type := { name : option string; officer_role : string }.

Record OfficersData : Type := { officer_items : option (list Officer) }.

Record CompanyData : Type := {
  company_name : option string;
  company_number : option string
}.

(** [item.links?.document_metadata], used as a condition and as a URL. *)
Definition document_metadata_of (item : FilingItem) : option string :=
  nonempty (match links item with
            | Some l => document_metadata l
            | None => None
            end).

(** The text of an AI response, seen through
    [JSON.parse(response.text || "{}")]. *)
Inductive ResponseText : Type :=
| NoText                          (* [text] is undefined or empty *)
| Malformed (message : string)    (* [JSON.parse] throws *)
| Json (v : JsVal).               (* [JSON.parse] returns [v] *)

Definition parse_or_empty (t : ResponseText) : Res JsVal :=
  match t with
  | NoText => Ok (JObj [])
  | Malformed m => Thrown m
  | Json v => Ok v
  end.

(** [ai.models.generateContent({ model, contents, config })] *)
Record GenerateRequest : Type := {
  model : string;
  inlineData : option string;          (* base64 PDF part, if any *)
  text : string;
  responseSchema : list string         (* the STRING properties *)
}.

(** [results[0].url] may be missing too. *)
Record SearchHit : Type := { hit_url : option string }.
Record SearchResults : Type := { results : option (list SearchHit) }.

(** Effects: the calls made so far, in order, and a value or a thrown
    error.  [E] is the type of logged calls. *)
Module Eff.
Section Eff.
Context {E : Type}.

Definition M (A : Type) : Type := (list E * Res A)%type.

Definition ret {A} (a : A) : M A := ([], Ok a).
Definition throw {A} (message : string) : M A := ([], Thrown message).
Definition lift {A} (r : Res A) : M A := ([], r).
Definition call {A} (e : E) (r : Res A) : M A := ([e], r).

Definition bind {A B} (m : M A) (f : A -> M B) : M B :=
  match m with
  | (t, Ok a) => let '(t', r) := f a in (t ++ t', r)
  | (t, Thrown e) => (t, Thrown e)
  end.

(** [try { m } catch (e) { h e }] *)
Definition catch {A} (m : M A) (h : string -> M A) : M A :=
  match m with
  | (t, Thrown e) => let '(t', r) := h e in (t ++ t', r)
  | (t, Ok a) => (t, Ok a)
  end.
End Eff.
End Eff.

Declare Scope eff_scope.
Delimit Scope eff_scope with eff.
Notation "x <- m ;; k" := (Eff.bind m (fun x => k))
  (at level 61, m at next level, right associativity) : eff_scope.
Notation "' pat <- m ;; k" :=
  (Eff.bind m (fun x => match x with pat => k end))
  (at level 61, pat pattern, m at next level, right associativity) : eff_scope.

(* ================================================================== *)
(** * server.ts: [POST /api/extract] *)
(* ================================================================== *)

Module Server.

(** Where a document download or an AI call is made from: the
    statement-of-affairs pass, the [i]-th accounts candidate of the
    fallback loop, the ethnicity step. *)
Inductive Site : Type :=
| Primary
| Fallback (i : nat)
| Ethnicity.

Inductive Call : Type :=
| CompanyLookup
| FilingLookup
| OfficersLookup
| Download (s : Site).

(** The calls the handler makes to the outside. *)
Inductive Event : Type :=
| EvFetch (c : Call) (r : Request)
| EvGenerate (s : Site) (r : GenerateRequest)
| EvSearch (firm : JsVal).    (* search(`${firm} UK`) *)

(** The outside world: what each call answers.  A run reaches each call
    site at most once (the sites of the loop once per candidate), so an
    answer that depends on the site and on the request is as general as
    one that depends on everything that happened before. *)
Record World : Type := {
  fetchCompany : Request -> Fetched CompanyData;
  fetchFilingHistory : Request -> Fetched FilingData;
  fetchOfficers : Request -> Fetched OfficersData;
  fetchDocument : Site -> Request -> Fetched string;
  generateContent : Site -> GenerateRequest -> Res ResponseText;
  search : JsVal -> Res SearchResults
}.

(** [req.body] *)
Record Body : Type := {
  companyNumber : option string;
  chApiKey : option string
}.

(** [res.status(s).json(v)] *)
Record Reply : Type := { reply_status : Z; reply_json : JsVal }.

Definition M := @Eff.M Event.
Local Open Scope eff_scope.

Definition registry : string :=
  "https://api.company-information.service.gov.uk".

Definition authHeader (chApiKey : string) : string :=
  "Basic " ++ Base64.encode (chApiKey ++ ":").

Definition registryRequest (path authHeader : string) : Request :=
  {| url := registry ++ path;
     headers := [("Authorization", authHeader)];
     redirect := RedirectFollow |}.

Definition companyRequest (companyNumber authHeader : string) : Request :=
  registryRequest ("/company/" ++ companyNumber) authHeader.

Definition filingRequest (companyNumber authHeader : string) : Request :=
  registryRequest
    ("/company/" ++ companyNumber ++ "/filing-history?items_per_page=100")
    authHeader.

Definition officersRequest (companyNumber authHeader : string) : Request :=
  registryRequest ("/company/" ++ companyNumber ++ "/officers") authHeader.

(* ---------------------------------------------------------------- *)
(** ** 2. Document sorting (lines 52-55) *)

Definition isStatementOfAffairs (item : FilingItem) : bool :=
  (category item =? "insolvency")
  && match description item with
     | Some d => includes "statement-of-affairs" d
     | None => false
     end.

Definition isAccounts (item : FilingItem) : bool :=
  category item =? "accounts".

(** [filingData.items || []] *)
Definition itemsOf (filingData : FilingData) : list FilingItem :=
  match items filingData with
  | Some l => l
  | None => []
  end.

Definition soaItem (filingData : FilingData) : option FilingItem :=
  find isStatementOfAffairs (itemsOf filingData).

Definition accountItems (filingData : FilingData) : list FilingItem :=
  firstn 3 (filter isAccounts (itemsOf filingData)).

(** [soaItem && soaItem.links?.document_metadata] *)
Definition soaLink (soaItem : option FilingItem) : option string :=
  match soaItem with
  | Some item => document_metadata_of item
  | None => None
  end.

Section Handler.
Variable w : World.

(* -------------------------------------------------------------- *)
(** ** 1. Companies House fetch (lines 19-50) *)

Definition companyDetails (companyNumber authHeader : string)
  : M CompanyData :=
  let req := companyRequest companyNumber authHeader in
  companyRes <- Eff.call (EvFetch CompanyLookup req)
                         (settle (fetchCompany w req)) ;;
  if negb (ok companyRes) then
    Eff.throw ("Failed to fetch company details: " ++ statusText companyRes)
  else Eff.lift (payload companyRes).

Definition filingHistory (companyNumber authHeader : string)
  : M FilingData :=
  let req := filingRequest companyNumber authHeader in
  filingRes <- Eff.call (EvFetch FilingLookup req)
                        (settle (fetchFilingHistory w req)) ;;
  if negb (ok filingRes) then
    Eff.throw ("Failed to fetch filing history: " ++ statusText filingRes)
  else Eff.lift (payload filingRes).

Definition isDirector (o : Officer) : bool := officer_role o =? "director".

(** The value of [directorName] after the officers step: the string it
    was initialised with, or what [director.name] read, [None] being
    [undefined]. *)
Definition director (companyNumber authHeader : string)
  : M (option string) :=
  let req := officersRequest companyNumber authHeader in
  officersRes <- Eff.call (EvFetch OfficersLookup req)
                          (settle (fetchOfficers w req)) ;;
  if ok officersRes then
    officersData <- Eff.lift (payload officersRes) ;;
    match officer_items officersData with
    | Some l =>
        match find isDirector l with
        | Some d => Eff.ret (name d)
        | None => Eff.ret (Some "")
        end
    | None => Eff.ret (Some "")
    end
  else Eff.ret (Some "").

Definition lookups (companyNumber authHeader : string)
  : M (CompanyData * FilingData * option string) :=
  companyData <- companyDetails companyNumber authHeader ;;
  filingData <- filingHistory companyNumber authHeader ;;
  directorName <- director companyNumber authHeader ;;
  Eff.ret (companyData, filingData, directorName).

(* -------------------------------------------------------------- *)
(** ** [downloadPdf] (lines 57-69) *)

Definition pdfRequest (authHeader documentMetadataUrl : string) : Request :=
  {| url := documentMetadataUrl;
     headers := [("Authorization", authHeader);
                 ("Accept", "application/pdf")];
     redirect := RedirectFollow |}.

Definition downloadPdf (authHeader : string) (s : Site)
           (documentMetadataUrl : string) : M string :=
  let req := pdfRequest authHeader documentMetadataUrl in
  res <- Eff.call (EvFetch (Download s) req)
                  (settle (fetchDocument w s req)) ;;
  if negb (ok res) then
    Eff.throw ("Failed to download PDF: " ++ statusText res)
  else
    buffer <- Eff.lift (payload res) ;;
    Eff.ret (Base64.encode buffer).

Definition generate (s : Site) (r : GenerateRequest) : M ResponseText :=
  Eff.call (EvGenerate s r) (generateContent w s r).

(* -------------------------------------------------------------- *)
(** ** 3. PDF processing and AI extraction (lines 71-114) *)

Definition soaFields : list string :=
  ["totalAssets"; "odla"; "totalDeficiency"; "bblCbils";
   "hmrcPreferential"; "hmrcUnsecured"; "tradeCreditors";
   "accountantFirmName"].

Definition soaRequest (soaPdfBase64 : string) : GenerateRequest :=
  {| model := "gemini-3.1-pro-preview";
     inlineData := Some soaPdfBase64;
     text := "Extract Total Assets (estimated to realise), ODLA, Total Deficiency, BBL/CBILS, HMRC Preferential, HMRC Unsecured, Trade Creditors, and the Accountant Firm Name. Return as JSON.";
     responseSchema := soaFields |}.

(** The value of [extractedData] after the primary pass. *)
Definition primaryPass (authHeader : string) (soaItem : option FilingItem)
  : M JsVal :=
  match soaLink soaItem with
  | Some link =>
      Eff.catch
        (soaPdfBase64 <- downloadPdf authHeader Primary link ;;
         response <- generate Primary (soaRequest soaPdfBase64) ;;
         Eff.lift (parse_or_empty response))
        (fun _ => Eff.ret (JObj []))
  | None => Eff.ret (JObj [])
  end.

(* -------------------------------------------------------------- *)
(** ** 4. Fallback logic (lines 116-157) *)

Definition accRequest (accPdfBase64 : string) : GenerateRequest :=
  {| model := "gemini-2.5-flash";
     inlineData := Some accPdfBase64;
     text := "Extract the Accountant Firm Name from this document. Return as JSON.";
     responseSchema := ["accountantFirmName"] |}.

(** The [try] block of one iteration, up to the test of line 148:
    the firm name read from the candidate's document. *)
Definition extractFirmName (authHeader : string) (i : nat) (link : string)
  : M JsVal :=
  accPdfBase64 <- downloadPdf authHeader (Fallback i) link ;;
  accResponse <- generate (Fallback i) (accRequest accPdfBase64) ;;
  accData <- Eff.lift (parse_or_empty accResponse) ;;
  Eff.lift (Js.get accData "accountantFirmName").

(** One iteration on a candidate that has a link: [Some] is the
    updated [extractedData] at the [break], [None] falls through to
    the next candidate. *)
Definition tryCandidate (authHeader : string) (i : nat) (link : string)
           (extractedData : JsVal) : M (option JsVal) :=
  Eff.catch
    (firmName <- extractFirmName authHeader i link ;;
     if Js.truthy firmName then
       updated <- Eff.lift (Js.set extractedData "accountantFirmName"
                                   firmName) ;;
       Eff.ret (Some updated)
     else Eff.ret None)
    (fun _ => Eff.ret None).

(** [for (const accItem of accountItems)], [i] being the position of
    the head of the list in [accountItems]. *)
Fixpoint fallbackLoop (authHeader : string) (i : nat)
         (accountItems : list FilingItem) (extractedData : JsVal)
  : list Event * JsVal :=
  match accountItems with
  | [] => ([], extractedData)
  | accItem :: rest =>
      match document_metadata_of accItem with
      | Some link =>
          match tryCandidate authHeader i link extractedData with
          | (t, Ok (Some updated)) => (t, updated)
          | (t, _) =>
              let '(t', final) :=
                fallbackLoop authHeader (S i) rest extractedData in
              (t ++ t', final)
          end
      | None => fallbackLoop authHeader (S i) rest extractedData
      end
  end.

Definition fallbackPass (authHeader : string)
           (accountItems : list FilingItem) (extractedData : JsVal)
  : M JsVal :=
  firmName <- Eff.lift (Js.get extractedData "accountantFirmName") ;;
  if negb (Js.truthy firmName) && (0 <? length accountItems)%nat then
    let '(t, final) := fallbackLoop authHeader 0 accountItems extractedData in
    (t, Ok final)
  else Eff.ret extractedData.

(* -------------------------------------------------------------- *)
(** ** 5. Ethnicity AI (lines 159-178) *)

Definition ethnicityRequest (directorName : string) : GenerateRequest :=
  {| model := "gemini-2.5-flash";
     inlineData := None;
     text := "Guess the broad ethnicity based on onomastics for the name: "
               ++ directorName
               ++ ". Return as JSON with a single property 'ethnicity'.";
     responseSchema := ["ethnicity"] |}.

(** The value of [ethnicity] after the step. *)
Definition ethnicityStep (directorName : option string) : M JsVal :=
  match nonempty directorName with
  | None => Eff.ret (JStr "")
  | Some directorName =>
      Eff.catch
        (ethResponse <- generate Ethnicity (ethnicityRequest directorName) ;;
         parsed <- Eff.lift (parse_or_empty ethResponse) ;;
         Eff.lift (Js.get parsed "ethnicity"))
        (fun _ => Eff.ret (JStr ""))
  end.

(* -------------------------------------------------------------- *)
(** ** 6. Web search (lines 180-191) *)

(** The value of [accountantUrl] after the step, [None] being
    [undefined]. *)
Definition webSearch (extractedData : JsVal) : M (option string) :=
  firmName <- Eff.lift (Js.get extractedData "accountantFirmName") ;;
  if Js.truthy firmName then
    Eff.catch
      (searchResults <- Eff.call (EvSearch firmName) (search w firmName) ;;
       match results searchResults with
       | Some (first :: _) => Eff.ret (hit_url first)
       | _ => Eff.ret (Some "")
       end)
      (fun _ => Eff.ret (Some ""))
  else Eff.ret (Some "").

(* -------------------------------------------------------------- *)
(** ** 7. Return combined data (lines 193-208) *)

(** [extractedData.k || ""] *)
Definition orEmpty (extractedData : JsVal) (k : string) : M JsVal :=
  v <- Eff.lift (Js.get extractedData k) ;;
  Eff.ret (Js.or v (JStr "")).

(** The object literal handed to [res.json]. *)
Definition combined (companyData : CompanyData)
           (directorName : option string)
           (ethnicity : JsVal) (extractedData : JsVal)
           (accountantUrl : option string) : M JsVal :=
  totalAssets <- orEmpty extractedData "totalAssets" ;;
  odla <- orEmpty extractedData "odla" ;;
  totalDeficiency <- orEmpty extractedData "totalDeficiency" ;;
  bblCbils <- orEmpty extractedData "bblCbils" ;;
  hmrcPreferential <- orEmpty extractedData "hmrcPreferential" ;;
  hmrcUnsecured <- orEmpty extractedData "hmrcUnsecured" ;;
  tradeCreditors <- orEmpty extractedData "tradeCreditors" ;;
  accountantFirmName <- orEmpty extractedData "accountantFirmName" ;;
  Eff.ret (JObj [("companyName", Js.str (company_name companyData));
                 ("companyNumber", Js.str (company_number companyData));
                 ("directorName", Js.str directorName);
                 ("ethnicity", ethnicity);
                 ("totalAssets", totalAssets);
                 ("odla", odla);
                 ("totalDeficiency", totalDeficiency);
                 ("bblCbils", bblCbils);
                 ("hmrcPreferential", hmrcPreferential);
                 ("hmrcUnsecured", hmrcUnsecured);
                 ("tradeCreditors", tradeCreditors);
                 ("accountantFirmName", accountantFirmName);
                 ("accountantUrl", Js.str accountantUrl)]).

(* -------------------------------------------------------------- *)
(** ** The handler *)

(** Steps 4 to 7, from the [extractedData] the primary pass left. *)
Definition afterPrimary (authHeader : string) (companyData : CompanyData)
           (filingData : FilingData) (directorName : option string)
           (extractedData : JsVal) : M JsVal :=
  extractedData <- fallbackPass authHeader (accountItems filingData)
                                extractedData ;;
  ethnicity <- ethnicityStep directorName ;;
  accountantUrl <- webSearch extractedData ;;
  combined companyData directorName ethnicity extractedData accountantUrl.

(** Steps 2 to 7, once the registry has answered. *)
Definition afterLookups (authHeader : string) (companyData : CompanyData)
           (filingData : FilingData) (directorName : option string)
  : M JsVal :=
  extractedData <- primaryPass authHeader (soaItem filingData) ;;
  afterPrimary authHeader companyData filingData directorName extractedData.

(** The body of the outer [try]: the object handed to [res.json]. *)
Definition pipeline (companyNumber chApiKey : string) : M JsVal :=
  '(companyData, filingData, directorName) <-
    lookups companyNumber (authHeader chApiKey) ;;
  afterLookups (authHeader chApiKey) companyData filingData directorName.

Definition badRequest : Reply :=
  {| reply_status := 400;
     reply_json :=
       JObj [("error",
              JStr "Company Number and Companies House API Key are required.")] |}.

Definition serverError (message : string) : Reply :=
  {| reply_status := 500;
     reply_json := JObj [("error", JStr message)] |}.

(** [res.json(row)]: status 200, the row as serialised. *)
Definition success (row : JsVal) : Reply :=
  {| reply_status := 200; reply_json := Js.wire row |}.

(** [app.post("/api/extract", ...)]: the calls made and the reply. *)
Definition extract (body : Body) : list Event * Reply :=
  match nonempty (companyNumber body), nonempty (chApiKey body) with
  | Some companyNumber, Some chApiKey =>
      match pipeline companyNumber chApiKey with
      | (t, Ok row) => (t, success row)
      | (t, Thrown message) => (t, serverError message)
      end
  | _, _ => ([], badRequest)
  end.
End Handler.

(** What the extraction of the [i]-th accounts candidate yields: its
    non-empty firm name, or nothing (no link, download or AI failure,
    malformed answer, missing or empty field). *)
Definition yield (w : World) (authHeader : string) (i : nat)
           (item : FilingItem) : option JsVal :=
  match document_metadata_of item with
  | Some link =>
      match snd (extractFirmName w authHeader i link) with
      | Ok v => if Js.truthy v then Some v else None
      | Thrown _ => None
      end
  | None => None
  end.

Definition firmName : string := "accountantFirmName".

(** What an iteration stores in [extractedData] before it breaks. *)
Definition stored (w : World) (auth : string) (i : nat) (link : string)
           (extractedData : JsVal) : option JsVal :=
  match snd (extractFirmName w auth i link) with
  | Ok v =>
      if Js.truthy v then
        match Js.set extractedData firmName v with
        | Ok updated => Some updated
        | Thrown _ => None
        end
      else None
  | Thrown _ => None
  end.

(** The positions, counted from [i], of the candidates that have a
    document link. *)
Fixpoint linked (i : nat) (candidates : list FilingItem) : list nat :=
  match candidates with
  | [] => []
  | item :: rest =>
      match document_metadata_of item with
      | Some _ => i :: linked (S i) rest
      | None => linked (S i) rest
      end
  end.

(** The seven fields only the statement-of-affairs pass can fill. *)
Definition soaOnlyFields : list string :=
  ["totalAssets"; "odla"; "totalDeficiency"; "bblCbils";
   "hmrcPreferential"; "hmrcUnsecured"; "tradeCreditors"].

(** A reply that carries an AggregatedRow. *)
Definition isRow (r : Reply) : bool := (reply_status r =? 200)%Z.

(** The field [k] of a reply, [undefined] when the key is absent. *)
Definition field (r : Reply) (k : string) : JsVal :=
  match reply_json r with
  | JObj ps => Js.lookup k ps
  | _ => JUndefined
  end.

(** Projections of a call log. *)
Definition isPrimaryEvent (e : Event) : bool :=
  match e with
  | EvFetch (Download Primary) _ | EvGenerate Primary _ => true
  | _ => false
  end.

(** The fallback candidates whose document was requested, in order. *)
Fixpoint downloads (t : list Event) : list nat :=
  match t with
  | EvFetch (Download (Fallback i)) _ :: rest => i :: downloads rest
  | _ :: rest => downloads rest
  | [] => []
  end.

(** The fallback candidates submitted to the AI, in order. *)
Fixpoint extractions (t : list Event) : list nat :=
  match t with
  | EvGenerate (Fallback i) _ :: rest => i :: extractions rest
  | _ :: rest => extractions rest
  | [] => []
  end.

(** A value that keeps to a response schema of STRING properties: an
    object whose properties are all strings. *)
Definition conforms (v : JsVal) : bool :=
  match v with
  | JObj ps => forallb (fun p => Js.is_string (snd p)) ps
  | _ => false
  end.

(** A world whose AI provider keeps to the response schema. *)
Definition schematic (w : World) : Prop :=
  forall s r v, generateContent w s r = Ok (Json v) -> conforms v = true.

(** A log without any call of the primary pass. *)
Definition quiet (t : list Event) : Prop :=
  forallb (fun e => negb (isPrimaryEvent e)) t = true.

(** A property as the final object literal reads it: [o.k || ""]. *)
Definition read (extractedData : JsVal) (k : string) : JsVal :=
  match Js.get extractedData k with
  | Ok v => Js.or v (JStr "")
  | Thrown _ => JStr ""
  end.

(** The object literal of lines 194-208. *)
Definition rowOf (companyData : CompanyData) (directorName : option string)
           (ethnicity extractedData : JsVal) (accountantUrl : option string)
  : JsVal :=
  JObj [("companyName", Js.str (company_name companyData));
        ("companyNumber", Js.str (company_number companyData));
        ("directorName", Js.str directorName);
        ("ethnicity", ethnicity);
        ("totalAssets", read extractedData "totalAssets");
        ("odla", read extractedData "odla");
        ("totalDeficiency", read extractedData "totalDeficiency");
        ("bblCbils", read extractedData "bblCbils");
        ("hmrcPreferential", read extractedData "hmrcPreferential");
        ("hmrcUnsecured", read extractedData "hmrcUnsecured");
        ("tradeCreditors", read extractedData "tradeCreditors");
        ("accountantFirmName", read extractedData "accountantFirmName");
        ("accountantUrl", Js.str accountantUrl)].

End Server.

(* ================================================================== *)
(** * vite.config.ts: the [ch-pdf-proxy] middleware *)
(* ================================================================== *)

Module PdfProxy.

Inductive Call : Type :=
| MetadataLookup      (* fetch(targetUrl, { headers }) *)
| DocumentRequest     (* fetch(docUrlLocal, { headers, redirect: 'manual' }) *)
| StorageDownload.    (* fetch(s3Url) *)

Inductive Event : Type := EvFetch (c : Call) (r : Request).

(** The metadata JSON: [meta.links?.document]. *)
Record MetaLinks : Type := { document : option string }.
Record Meta : Type := { meta_links : option MetaLinks }.

Record World : Type := {
  fetchMetadata : Request -> Fetched Meta;
  fetchDocument : Request -> Fetched unit;
  fetchStorage : Request -> Fetched string
}.

(** [req.headers['x-target-url']], [req.headers['x-api-key']] *)
Record Headers : Type := {
  x_target_url : option string;
  x_api_key : option string
}.

(** [res.statusCode] and the JSON written by [res.end]. *)
Record Reply : Type := { statusCode : Z; written : JsVal }.

Definition M := @Eff.M Event.
Local Open Scope eff_scope.

Definition authorization (apiKey : string) : list (string * string) :=
  [("Authorization", ("Basic " ++ Base64.encode (trim apiKey ++ ":"))%string)].

(** [meta.links?.document], as the condition [!docUrlLocal] reads it. *)
Definition documentLink (meta : Meta) : option string :=
  nonempty (match meta_links meta with
            | Some l => document l
            | None => None
            end).

(** The third [then]: the URL the document is finally read from. *)
Definition s3Url {B} (docUrlLocal : string) (docRes : Response B) : string :=
  if ((300 <=? status docRes) && (status docRes <? 400))%Z then
    match nonempty (location docRes) with
    | Some l => l
    | None => docUrlLocal
    end
  else docUrlLocal.

(** The three requests of the promise chain. *)
Definition metaRequest (targetUrl apiKey : string) : Request :=
  {| url := targetUrl;
     headers := authorization apiKey;
     redirect := RedirectFollow |}.

Definition docRequest (docUrlLocal apiKey : string) : Request :=
  {| url := docUrlLocal;
     headers := authorization apiKey;
     redirect := RedirectManual |}.

Definition s3Request (s3Url : string) : Request :=
  {| url := s3Url; headers := []; redirect := RedirectFollow |}.

Section Middleware.
Variable w : World.

(** The promise chain: the base64 text of the document. *)
Definition chain (targetUrl apiKey : string) : M string :=
  let metaReq := metaRequest targetUrl apiKey in
  r <- Eff.call (EvFetch MetadataLookup metaReq)
                (settle (fetchMetadata w metaReq)) ;;
  meta <- Eff.lift (payload r) ;;
  match documentLink meta with
  | None => Eff.throw "No document link found in Companies House."
  | Some docUrlLocal =>
      let docReq := docRequest docUrlLocal apiKey in
      docRes <- Eff.call (EvFetch DocumentRequest docReq)
                         (settle (fetchDocument w docReq)) ;;
      let s3Req := s3Request (s3Url docUrlLocal docRes) in
      s3Res <- Eff.call (EvFetch StorageDownload s3Req)
                        (settle (fetchStorage w s3Req)) ;;
      buffer <- Eff.lift (payload s3Res) ;;
      Eff.ret (Base64.encode buffer)
  end.

(** [server.middlewares.use('/api/pdf', ...)] *)
Definition ch_pdf_proxy (h : Headers) : list Event * Reply :=
  match nonempty (x_target_url h), nonempty (x_api_key h) with
  | Some targetUrl, Some apiKey =>
      match chain targetUrl apiKey with
      | (t, Ok base64) =>
          (t, {| statusCode := 200;
                 written := JObj [("success", JBool true);
                                  ("base64", JStr base64)] |})
      | (t, Thrown message) =>
          (t, {| statusCode := 500;
                 written := JObj [("error", JStr message)] |})
      end
  | _, _ =>
      ([], {| statusCode := 400;
              written := JObj [("error", JStr "Missing headers")] |})
  end.
End Middleware.

(** The requests of a call log, in order. *)
Definition requests (t : list Event) : list Request :=
  map (fun e => match e with EvFetch _ r => r end) t.

(** [true] when the request carries an [Authorization] header. *)
Definition authorized (r : Request) : bool :=
  existsb (fun h => fst h =? "Authorization") (headers r).

End PdfProxy.

(* ================================================================== *)
(** * src/App.tsx: [handleExtract] *)
(* ================================================================== *)

Module Browser.

Inductive Call : Type := Details | History | Pdf.

Inductive Event : Type :=
| EvFetch (c : Call) (r : Request)
| EvGemini (geminiUrl : string) (geminiPrompt : string)
           (data : option string)      (* the POST to the AI endpoint *)
| EvStep (n : nat).                    (* setActiveStep(n) *)

(** What [/api/pdf] answers: [{ success, base64 }] or [{ error }]. *)
Record PdfData : Type := {
  success : bool;
  base64 : option string;
  error : option string
}.

(** What the code reads of the AI answer: [aiData.error?.message] and
    [JSON.parse(aiData.candidates[0].content.parts[0].text)], whose
    failures all end in the same [catch]. *)
Record AiData : Type := {
  error_message : option string;
  table : Res JsVal
}.

(** The outside of the page; [btoaError] is the message of the
    [InvalidCharacterError] its [btoa] throws. *)
Record World : Type := {
  fetchDetails : Request -> Fetched CompanyData;
  fetchHistory : Request -> Fetched FilingData;
  fetchPdf : Request -> Fetched PdfData;
  fetchGemini : string -> string -> option string -> Fetched AiData;
  btoaError : string
}.

(** The component state [handleExtract] reads and writes. *)
Record State : Type := {
  chApiKey : string;
  geminiApiKey : string;
  companyNumber : string;
  loading : bool;
  activeStep : nat;
  error_text : string;
  rows : list JsVal         (* [results] *)
}.

Definition M := @Eff.M Event.
Local Open Scope eff_scope.

Definition setError (s : State) (e : string) : State :=
  {| chApiKey := chApiKey s; geminiApiKey := geminiApiKey s;
     companyNumber := companyNumber s; loading := loading s;
     activeStep := activeStep s; error_text := e; rows := rows s |}.

Definition setLoading (s : State) (b : bool) : State :=
  {| chApiKey := chApiKey s; geminiApiKey := geminiApiKey s;
     companyNumber := companyNumber s; loading := b;
     activeStep := activeStep s; error_text := error_text s;
     rows := rows s |}.

Definition setActiveStep (s : State) (n : nat) : State :=
  {| chApiKey := chApiKey s; geminiApiKey := geminiApiKey s;
     companyNumber := companyNumber s; loading := loading s;
     activeStep := n; error_text := error_text s; rows := rows s |}.

Definition setResults (s : State) (l : list JsVal) : State :=
  {| chApiKey := chApiKey s; geminiApiKey := geminiApiKey s;
     companyNumber := companyNumber s; loading := loading s;
     activeStep := activeStep s; error_text := error_text s; rows := l |}.

(** The condition of line 64. *)
Definition matches (item : FilingItem) : bool :=
  (category item =? "statement-of-affairs")
  || match description item with
     | Some d => negb (d =? "") && includes "resolution" d
     | None => false
     end.

(** The loop of lines 62-68: the value of [soaMeta] as line 69 tests
    it. *)
Fixpoint soaMeta (history : list FilingItem) : option string :=
  match history with
  | [] => None
  | item :: rest =>
      if matches item then
        match document_metadata_of item with
        | Some link => Some link
        | None => soaMeta rest
        end
      else soaMeta rest
  end.

(** [`${v}`] for an optional string. *)
Definition shown (o : option string) : string :=
  match o with Some s => s | None => "undefined" end.

Definition indexKey (n : nat) : string :=
  NilEmpty.string_of_uint (Nat.to_uint n).

Fixpoint indexed {A} (f : A -> JsVal) (n : nat) (l : list A)
  : list (string * JsVal) :=
  match l with
  | [] => []
  | a :: rest => (indexKey n, f a) :: indexed f (S n) rest
  end.

(** The own enumerable properties copied by [...v]. *)
Definition spread (v : JsVal) : list (string * JsVal) :=
  match v with
  | JObj ps => ps
  | JArr es named => indexed (fun e => e) 0 es ++ named
  | JStr s =>
      indexed (fun c => JStr (String c EmptyString)) 0 (list_ascii_of_string s)
  | _ => []
  end.

(** [{ companyNumber, companyName: ..., ...extractedData }] *)
Definition resultRow (companyNumber : string) (details : CompanyData)
           (extractedData : JsVal) : JsVal :=
  JObj (fold_left (fun acc p => Js.update (fst p) (snd p) acc)
                  (spread extractedData)
                  [("companyNumber", JStr companyNumber);
                   ("companyName",
                    Js.or (Js.str (company_name details)) (JStr "N/A"))]).

Definition quoted (s : string) : string :=
  String (ascii_of_nat 34) (s ++ String (ascii_of_nat 34) EmptyString).

Definition newline : string := String (ascii_of_nat 10) "      ".

Definition geminiPrompt : string :=
  "Extract the liquidation data from this Statement of Affairs PDF. "
  ++ newline
  ++ "Find Total Assets (estimated to realise), ODLA (Overdrawn Director Loan Account), Total Deficiency, BBL/CBILS (Bank loans), HMRC Preferential, HMRC Unsecured, and Trade Creditors."
  ++ newline
  ++ "Also find the Accountant Name or Firm. If not found, return 'Not Found' or '0'."
  ++ newline
  ++ "Return JSON STRICTLY matching this structure:"
  ++ newline
  ++ "{" ++ quoted "total_assets" ++ ": " ++ quoted "..." ++ ", "
  ++ quoted "odla" ++ ": " ++ quoted "..." ++ ", "
  ++ quoted "total_deficiency" ++ ": " ++ quoted "..." ++ ", "
  ++ quoted "bbl_cbils" ++ ": " ++ quoted "..." ++ ", "
  ++ quoted "hmrc_preferential" ++ ": " ++ quoted "..." ++ ", "
  ++ quoted "hmrc_unsecured" ++ ": " ++ quoted "..." ++ ", "
  ++ quoted "trade_creditors" ++ ": " ++ quoted "..." ++ ", "
  ++ quoted "accountant_firm" ++ ": " ++ quoted "..." ++ "}".

(** The last [setActiveStep] of a call log. *)
Fixpoint lastStep (t : list Event) (current : nat) : nat :=
  match t with
  | [] => current
  | EvStep n :: rest => lastStep rest n
  | _ :: rest => lastStep rest current
  end.

Definition step (n : nat) : M unit := Eff.call (EvStep n) (Ok tt).

(** [{ 'Authorization': `Basic ${btoa(chApiKey.trim() + ':')}` }],
    [None] when [btoa] throws. *)
Definition authHeader (s : State) : option (list (string * string)) :=
  match Base64.btoa (trim (chApiKey s) ++ ":") with
  | Some encoded => Some [("Authorization", ("Basic " ++ encoded)%string)]
  | None => None
  end.

Definition detailsRequest (s : State) (authHeader : list (string * string))
  : Request :=
  {| url := "/api/ch/company/" ++ companyNumber s;
     headers := authHeader;
     redirect := RedirectFollow |}.

Definition historyRequest (s : State) (authHeader : list (string * string))
  : Request :=
  {| url := "/api/ch/company/" ++ companyNumber s ++ "/filing-history";
     headers := authHeader;
     redirect := RedirectFollow |}.

(** [history.items || []] *)
Definition historyItems (history : FilingData) : list FilingItem :=
  match items history with
  | Some l => l
  | None => []
  end.

Section Component.
Variable w : World.

(** Line 47 and the body of the [try]: the row to prepend to
    [results]. *)
Definition extraction (s : State) : M JsVal :=
  _ <- step 1 ;;
  match authHeader s with
  | None => Eff.throw (btoaError w)
  | Some authHeader =>
  let detailsReq := detailsRequest s authHeader in
  detailsRes <- Eff.call (EvFetch Details detailsReq)
                         (settle (fetchDetails w detailsReq)) ;;
  if negb (ok detailsRes) then
    Eff.throw "Could not find this Company Number in Companies House."
  else
    details <- Eff.lift (payload detailsRes) ;;
    _ <- step 2 ;;
    let historyReq := historyRequest s authHeader in
    historyRes <- Eff.call (EvFetch History historyReq)
                           (settle (fetchHistory w historyReq)) ;;
    history <- Eff.lift (payload historyRes) ;;
    match soaMeta (historyItems history) with
    | None =>
        Eff.throw "No Statement of Affairs found in the filing history."
    | Some link =>
        let pdfReq := {| url := "/api/pdf";
                         headers := [("x-target-url", link);
                                     ("x-api-key", trim (chApiKey s))];
                         redirect := RedirectFollow |} in
        _ <- step 3 ;;
        pdfRes <- Eff.call (EvFetch Pdf pdfReq)
                           (settle (fetchPdf w pdfReq)) ;;
        pdfData <- Eff.lift (payload pdfRes) ;;
        if negb (success pdfData) then
          Eff.throw ("PDF Download failed: " ++ shown (error pdfData))
        else
          let geminiUrl :=
            ("https://generativelanguage.googleapis.com/v1beta/models/gemini-1.5-pro:generateContent?key="
               ++ trim (geminiApiKey s))%string in
          _ <- step 4 ;;
          aiResponse <-
            Eff.call (EvGemini geminiUrl geminiPrompt (base64 pdfData))
                     (settle (fetchGemini w geminiUrl geminiPrompt
                                          (base64 pdfData))) ;;
          aiData <- Eff.lift (payload aiResponse) ;;
          if negb (ok aiResponse) then
            Eff.throw ("Gemini Error: " ++ shown (error_message aiData))
          else
            _ <- step 5 ;;
            match table aiData with
            | Ok extractedData =>
                Eff.ret (resultRow (companyNumber s) details extractedData)
            | Thrown _ =>
                Eff.throw
                  "Gemini successfully read the document but failed to output a clean table."
            end
    end
  end.

(** [handleExtract]: the calls made and the state it leaves. *)
Definition handleExtract (s : State) : list Event * State :=
  if (chApiKey s =? "") || (geminiApiKey s =? "") then
    ([], setError s "Please set both API Keys in the sidebar.")
  else if companyNumber s =? "" then
    ([], setError s "Please enter a valid Company Number.")
  else
    let s1 := setError (setLoading s true) "" in
    match extraction s1 with
    | (t, Ok row) =>
        (t ++ [EvStep 6],
         setLoading (setActiveStep (setResults s1 (row :: rows s)) 6) false)
    | (t, Thrown message) =>
        (t, setLoading
              (setError (setActiveStep s1 (lastStep t (activeStep s)))
                        ("Extraction Failed: " ++ message)%string)
              false)
    end.
End Component.

End Browser.

(* ================================================================== *)
(** * Concrete worlds *)
(* ================================================================== *)

Module Scenario.

Definition okResponse {B} (b : B) : Response B :=
  {| status := 200; statusText := "OK"; location := None; payload := Ok b |}.

Definition answered {B} (b : B) : Fetched B := Responded (okResponse b).

Definition refused {B} (code : Z) (reason : string) : Fetched B :=
  Responded {| status := code; statusText := reason; location := None;
               payload := Thrown "Unexpected end of JSON input" |}.

Definition filing (c d : string) (l : option string) : FilingItem :=
  {| category := c; description := Some d;
     links := Some {| document_metadata := l |} |}.

Definition acme : CompanyData :=
  {| company_name := Some "ACME LTD"; company_number := Some "11969947" |}.

Definition request : Server.Body :=
  {| Server.companyNumber := Some "11969947";
     Server.chApiKey := Some "secret" |}.

Definition statementOfAffairs : FilingItem :=
  filing "insolvency" "liquidation-voluntary-statement-of-affairs"
         (Some "https://reg/doc/1").

Definition accounts (n : string) : FilingItem :=
  filing "accounts" "accounts-with-accounts-type-micro-entity"
         (Some ("https://reg/acc/" ++ n)%string).

Definition unlinked (c d : string) : FilingItem :=
  {| category := c; description := Some d; links := None |}.


(** Four accounts filings around an insolvency filing. *)
Definition fourAccounts : FilingData :=
  {| items := Some [accounts "1"; accounts "2"; statementOfAffairs;
                    accounts "3"; accounts "4"] |}.

(** The first end-to-end scenario of the specification. *)
Definition acmeWorld : Server.World :=
  {| Server.fetchCompany := fun _ => answered acme;
     Server.fetchFilingHistory := fun _ =>
       answered {| items := Some [statementOfAffairs] |};
     Server.fetchOfficers := fun _ => refused 404 "Not Found";
     Server.fetchDocument := fun _ _ => answered "B";
     Server.generateContent := fun _ _ =>
       Ok (Json (JObj [("totalAssets", JStr "100000");
                       ("accountantFirmName", JStr "Smith & Co")]));
     Server.search := fun _ =>
       Ok {| results := Some [ {| hit_url := Some "https://smithco.example" |} ] |} |}.

(** What the AI answers on the accounts candidates of [jonesWorld]:
    nothing usable on the first, a firm name on the second and on the
    third. *)
Definition jonesAnswers (s : Server.Site) : Res ResponseText :=
  match s with
  | Server.Fallback 0 => Ok (Json (JObj [("accountantFirmName", JStr "")]))
  | Server.Fallback 1 => Ok (Json (JObj [("accountantFirmName", JStr "Jones LLP")]))
  | Server.Fallback _ => Ok (Json (JObj [("accountantFirmName", JStr "Third & Co")]))
  | _ => Ok NoText
  end.

Definition jonesHistory : list FilingItem :=
  [accounts "1"; accounts "2"; accounts "3"].

(** The second end-to-end scenario: no insolvency filing, accounts
    candidates only. *)
Definition jonesWorld : Server.World :=
  {| Server.fetchCompany := fun _ => answered acme;
     Server.fetchFilingHistory := fun _ =>
       answered {| items := Some jonesHistory |};
     Server.fetchOfficers := fun _ => refused 404 "Not Found";
     Server.fetchDocument := fun _ _ => answered "PDF";
     Server.generateContent := fun s _ => jonesAnswers s;
     Server.search := fun _ => Thrown "search unavailable" |}.

(** A world in which every accounts candidate fails in its own way. *)
Definition failingWorld : Server.World :=
  {| Server.fetchCompany := fun _ => answered acme;
     Server.fetchFilingHistory := fun _ =>
       answered {| items := Some jonesHistory |};
     Server.fetchOfficers := fun _ => refused 404 "Not Found";
     Server.fetchDocument := fun s _ =>
       match s with
       | Server.Fallback 0 => Rejected "fetch failed"
       | _ => answered "PDF"
       end;
     Server.generateContent := fun s _ =>
       match s with
       | Server.Fallback 1 => Ok (Malformed "Unexpected token")
       | _ => Ok (Json (JObj []))
       end;
     Server.search := fun _ => Thrown "search unavailable" |}.

(** The registry refuses the company profile. *)
Definition unknownCompanyWorld : Server.World :=
  {| Server.fetchCompany := fun _ => refused 404 "Not Found";
     Server.fetchFilingHistory := Server.fetchFilingHistory acmeWorld;
     Server.fetchOfficers := Server.fetchOfficers acmeWorld;
     Server.fetchDocument := Server.fetchDocument acmeWorld;
     Server.generateContent := Server.generateContent acmeWorld;
     Server.search := Server.search acmeWorld |}.

(** The registry refuses the filing history. *)
Definition noHistoryWorld : Server.World :=
  {| Server.fetchCompany := fun _ => answered acme;
     Server.fetchFilingHistory := fun _ => refused 500 "Internal Server Error";
     Server.fetchOfficers := Server.fetchOfficers acmeWorld;
     Server.fetchDocument := Server.fetchDocument acmeWorld;
     Server.generateContent := Server.generateContent acmeWorld;
     Server.search := Server.search acmeWorld |}.

(** A director is on file and the AI answers the ethnicity question
    with an object that has no [ethnicity] property. *)
Definition directorWorld : Server.World :=
  {| Server.fetchCompany := fun _ => answered acme;
     Server.fetchFilingHistory := fun _ => answered {| items := Some [] |};
     Server.fetchOfficers := fun _ =>
       answered {| officer_items :=
                     Some [ {| name := Some "DOE, Jane"; officer_role := "director" |} ] |};
     Server.fetchDocument := fun _ _ => Rejected "fetch failed";
     Server.generateContent := fun _ _ => Ok (Json (JObj []));
     Server.search := fun _ => Thrown "search unavailable" |}.

(** The insolvency filing carries no document link. *)
Definition unlinkedWorld : Server.World :=
  {| Server.fetchCompany := fun _ => answered acme;
     Server.fetchFilingHistory := fun _ =>
       answered {| items :=
                     Some [unlinked "insolvency" "liquidation-voluntary-statement-of-affairs";
                           unlinked "accounts" "accounts-with-accounts-type-dormant";
                           accounts "2"] |};
     Server.fetchOfficers := fun _ => refused 404 "Not Found";
     Server.fetchDocument := fun _ _ => answered "PDF";
     Server.generateContent := fun s _ => jonesAnswers s;
     Server.search := fun _ => Thrown "search unavailable" |}.

(** The headers the browser sends to [/api/pdf]. *)
Definition proxyHeaders : PdfProxy.Headers :=
  {| PdfProxy.x_target_url := Some "https://reg/doc/1";
     PdfProxy.x_api_key := Some "secret" |}.

Definition documentMeta : PdfProxy.Meta :=
  {| PdfProxy.meta_links :=
       Some {| PdfProxy.document := Some "https://reg/doc/1/content" |} |}.

(** The document endpoint answers 302 with the given [Location]. *)
Definition redirecting (l : option string) : PdfProxy.World :=
  {| PdfProxy.fetchMetadata := fun _ => answered documentMeta;
     PdfProxy.fetchDocument := fun _ =>
       Responded {| status := 302; statusText := "Found"; location := l;
                    payload := Ok tt |};
     PdfProxy.fetchStorage := fun _ => answered "PDF" |}.

Definition browserState : Browser.State :=
  {| Browser.chApiKey := "secret";
     Browser.geminiApiKey := "gemini";
     Browser.companyNumber := "11969947";
     Browser.loading := false;
     Browser.activeStep := 0;
     Browser.error_text := "";
     Browser.rows := [] |}.

(** The registry answers the browser with a history of accounts
    filings only. *)
Definition browserWorld : Browser.World :=
  {| Browser.fetchDetails := fun _ => answered acme;
     Browser.fetchHistory := fun _ =>
       answered {| items := Some jonesHistory |};
     Browser.fetchPdf := fun _ =>
       answered {| Browser.success := true;
                   Browser.base64 := Some "UERG";
                   Browser.error := None |};
     Browser.fetchGemini := fun _ _ _ =>
       answered {| Browser.error_message := None;
                   Browser.table :=
                     Ok (JObj [("total_assets", JStr "100000")]) |};
     Browser.btoaError := "Invalid character" |}.

End Scenario.

(* ================================================================== *)
(** * server.ts: what a call log and a reply show *)
(* ================================================================== *)

Module ServerLog.
Import Server.

(** The requests of the [fetch] calls of a log, in order. *)
Fixpoint fetched (t : list Event) : list Request :=
  match t with
  | EvFetch _ r :: rest => r :: fetched rest
  | _ :: rest => fetched rest
  | [] => []
  end.

(** The AI calls of the ethnicity step. *)
Fixpoint ethnicityCalls (t : list Event) : list GenerateRequest :=
  match t with
  | EvGenerate Ethnicity r :: rest => r :: ethnicityCalls rest
  | _ :: rest => ethnicityCalls rest
  | [] => []
  end.

(** The firm names that were searched for. *)
Fixpoint searches (t : list Event) : list JsVal :=
  match t with
  | EvSearch firm :: rest => firm :: searches rest
  | _ :: rest => searches rest
  | [] => []
  end.

(** The three registry lookups, in the order of lines 22-42. *)
Definition registryLookups (companyNumber authHeader : string) : list Event :=
  [EvFetch CompanyLookup (companyRequest companyNumber authHeader);
   EvFetch FilingLookup (filingRequest companyNumber authHeader);
   EvFetch OfficersLookup (officersRequest companyNumber authHeader)].

(** A registry lookup, as opposed to a document download. *)
Definition isLookup (e : Event) : bool :=
  match e with
  | EvFetch CompanyLookup _ | EvFetch FilingLookup _
  | EvFetch OfficersLookup _ => true
  | _ => false
  end.

(** What lines 184-187 leave in [accountantUrl], given the outcome of
    the search; [None] is [undefined]. *)
Definition urlOf (outcome : Res SearchResults) : option string :=
  match outcome with
  | Ok r =>
      match results r with
      | Some (first :: _) => hit_url first
      | _ => Some ""
      end
  | Thrown _ => Some ""
  end.

(** The keys of the object literal of lines 194-208, in order. *)
Definition rowKeys : list string :=
  ["companyName"; "companyNumber"; "directorName"; "ethnicity";
   "totalAssets"; "odla"; "totalDeficiency"; "bblCbils";
   "hmrcPreferential"; "hmrcUnsecured"; "tradeCreditors";
   "accountantFirmName"; "accountantUrl"].

(** The keys of the literal whose value is written as it is, without
    [|| ""]: [res.json] drops such a key when the value is
    [undefined]. *)
Definition unguardedKeys : list string :=
  ["companyName"; "companyNumber"; "directorName"; "ethnicity";
   "accountantUrl"].

(** [keys] without those of [missing], in the same order. *)
Definition without (missing keys : list string) : list string :=
  filter (fun k => negb (existsb (String.eqb k) missing)) keys.

(** The keys of the JSON a reply carries. *)
Definition keysOf (r : Reply) : list string :=
  match reply_json r with
  | JObj ps => map fst ps
  | _ => []
  end.

End ServerLog.

(* ================================================================== *)
(** * vite.config.ts: the replies of the middleware *)
(* ================================================================== *)

Module ProxyLog.
Import PdfProxy.

(** Lines 17-19. *)
Definition missingHeaders : Reply :=
  {| statusCode := 400;
     written := JObj [("error", JStr "Missing headers")] |}.

(** Lines 48-50. *)
Definition failed (message : string) : Reply :=
  {| statusCode := 500; written := JObj [("error", JStr message)] |}.

(** Lines 44-45; [res.statusCode] keeps its default. *)
Definition delivered (base64 : string) : Reply :=
  {| statusCode := 200;
     written := JObj [("success", JBool true); ("base64", JStr base64)] |}.

(** The metadata step went through: the request was answered, whatever
    the status, the body is JSON and names a document. *)
Definition named (w : World) (targetUrl apiKey link : string) : Prop :=
  exists r meta,
    fetchMetadata w (metaRequest targetUrl apiKey) = Responded r
    /\ payload r = Ok meta
    /\ documentLink meta = Some link.

End ProxyLog.

(* ================================================================== *)
(** * src/App.tsx: what a call log shows, and the saved keys *)
(* ================================================================== *)

Module BrowserLog.
Import Browser.

(** The endpoints [handleExtract] calls. *)
Inductive Endpoint : Type :=
| ToDetails | ToHistory | ToPdf | ToGemini.

(** The outside calls of a log, in order. *)
Fixpoint outside (t : list Event) : list Endpoint :=
  match t with
  | EvFetch Details _ :: rest => ToDetails :: outside rest
  | EvFetch History _ :: rest => ToHistory :: outside rest
  | EvFetch Pdf _ :: rest => ToPdf :: outside rest
  | EvGemini _ _ _ :: rest => ToGemini :: outside rest
  | EvStep _ :: rest => outside rest
  | [] => []
  end.

(** The progress steps announced, in order. *)
Fixpoint steps (t : list Event) : list nat :=
  match t with
  | EvStep n :: rest => n :: steps rest
  | _ :: rest => steps rest
  | [] => []
  end.

(** The request of line 73. *)
Definition pdfRequest (s : State) (soaMeta : string) : Request :=
  {| url := "/api/pdf";
     headers := [("x-target-url", soaMeta);
                 ("x-api-key", trim (chApiKey s))];
     redirect := RedirectFollow |}.

(** The URL of line 84. *)
Definition geminiUrl (s : State) : string :=
  "https://generativelanguage.googleapis.com/v1beta/models/gemini-1.5-pro:generateContent?key="
  ++ trim (geminiApiKey s).

(** The state of lines 4-11 before anything happened. *)
Definition initial : State :=
  {| chApiKey := ""; geminiApiKey := ""; companyNumber := "";
     loading := false; activeStep := 0; error_text := ""; rows := [] |}.

Definition setChApiKey (s : State) (k : string) : State :=
  {| chApiKey := k; geminiApiKey := geminiApiKey s;
     companyNumber := companyNumber s; loading := loading s;
     activeStep := activeStep s; error_text := error_text s;
     rows := rows s |}.

Definition setGeminiApiKey (s : State) (k : string) : State :=
  {| chApiKey := chApiKey s; geminiApiKey := k;
     companyNumber := companyNumber s; loading := loading s;
     activeStep := activeStep s; error_text := error_text s;
     rows := rows s |}.

(** [localStorage]: [getItem] and [setItem]. *)
Definition Storage : Type := string -> option string.

Definition getItem (store : Storage) (k : string) : option string := store k.

Definition setItem (store : Storage) (k v : string) : Storage :=
  fun k' => if k' =? k then Some v else store k'.

(** The effect of lines 22-27, run once on mount. *)
Definition loadApiKeys (store : Storage) (s : State) : State :=
  let s1 := match nonempty (getItem store "CH_API_KEY") with
            | Some savedChKey => setChApiKey s savedChKey
            | None => s
            end in
  match nonempty (getItem store "GEMINI_API_KEY") with
  | Some savedGemKey => setGeminiApiKey s1 savedGemKey
  | None => s1
  end.

(** [saveApiKeys], lines 29-33, on the storage. *)
Definition saveApiKeys (s : State) (store : Storage) : Storage :=
  setItem (setItem store "CH_API_KEY" (chApiKey s))
          "GEMINI_API_KEY" (geminiApiKey s).

End BrowserLog.

(* ================================================================== *)
(** * vite.config.ts: the dev server between the page and the registry *)
(* ================================================================== *)

Module DevServer.

(** [server.proxy['/api/ch'].target] *)
Definition target : string :=
  "https://api.company-information.service.gov.uk".

Fixpoint stripPrefix (p s : string) : option string :=
  match p with
  | EmptyString => Some s
  | String a p' =>
      match s with
      | String b s' => if Ascii.eqb a b then stripPrefix p' s' else None
      | EmptyString => None
      end
  end.

(** [rewrite: (path) => path.replace(/^\/api\/ch/, '')] *)
Definition rewrite (path : string) : string :=
  match stripPrefix "/api/ch" path with
  | Some rest => rest
  | None => path
  end.

(** Where the dev server sends a request for [path] on: to the target,
    when [path] starts with the context [/api/ch]. *)
Definition upstream (path : string) : option string :=
  if String.prefix "/api/ch" path then Some (target ++ rewrite path)%string
  else None.

(** [req.headers[name]] on the side of the middleware. *)
Fixpoint header (name : string) (hs : list (string * string))
  : option string :=
  match hs with
  | [] => None
  | (k, v) :: rest => if k =? name then Some v else header name rest
  end.

Definition proxyHeaders (r : Request) : PdfProxy.Headers :=
  {| PdfProxy.x_target_url := header "x-target-url" (headers r);
     PdfProxy.x_api_key := header "x-api-key" (headers r) |}.

Definition text (v : JsVal) : option string :=
  match v with JStr s => Some s | _ => None end.

(** [await pdfRes.json()] of what the middleware wrote, as lines 80 and
    94 read it. *)
Definition pdfData (reply : PdfProxy.Reply) : Res Browser.PdfData :=
  match Js.get (PdfProxy.written reply) "success",
        Js.get (PdfProxy.written reply) "base64",
        Js.get (PdfProxy.written reply) "error" with
  | Ok success, Ok base64, Ok error =>
      Ok {| Browser.success := Js.truthy success;
            Browser.base64 := text base64;
            Browser.error := text error |}
  | Thrown m, _, _ | _, Thrown m, _ | _, _, Thrown m => Thrown m
  end.

(** [/api/pdf] as the dev server answers it. *)
Definition servePdf (pw : PdfProxy.World) (r : Request)
  : Fetched Browser.PdfData :=
  let reply := snd (PdfProxy.ch_pdf_proxy pw (proxyHeaders r)) in
  Responded {| status := PdfProxy.statusCode reply;
               statusText := "";
               location := None;
               payload := pdfData reply |}.

(** The page served by the dev server: a request to [/api/pdf] whose
    header values [fetch] sends as they are goes to the middleware; the
    rest is as [bw] has it. *)
Definition page (pw : PdfProxy.World) (bw : Browser.World) : Browser.World :=
  {| Browser.fetchDetails := Browser.fetchDetails bw;
     Browser.fetchHistory := Browser.fetchHistory bw;
     Browser.fetchPdf := fun r =>
       if forallb (fun h => isVisible (snd h)) (headers r)
       then servePdf pw r
       else Browser.fetchPdf bw r;
     Browser.fetchGemini := Browser.fetchGemini bw;
     Browser.btoaError := Browser.btoaError bw |}.

End DevServer.

(* ================================================================== *)
(** * Further concrete worlds *)
(* ================================================================== *)

Module Cases.
Import Scenario.

(** The registry answers, the officers request is rejected. *)
Definition officersDownWorld : Server.World :=
  {| Server.fetchCompany := fun _ => answered acme;
     Server.fetchFilingHistory := fun _ => answered {| items := Some jonesHistory |};
     Server.fetchOfficers := fun _ => Rejected "fetch failed";
     Server.fetchDocument := fun _ _ => answered "PDF";
     Server.generateContent := fun s _ => jonesAnswers s;
     Server.search := fun _ => Thrown "search unavailable" |}.

(** The officers on file: a secretary, then two directors. *)
Definition board : list Officer :=
  [ {| name := Some "ROE, Richard"; officer_role := "secretary" |};
    {| name := Some "DOE, Jane"; officer_role := "director" |};
    {| name := Some "POE, Peter"; officer_role := "director" |} ].

Definition boardWorld : Server.World :=
  {| Server.fetchCompany := fun _ => answered acme;
     Server.fetchFilingHistory := fun _ => answered {| items := Some [] |};
     Server.fetchOfficers := fun _ => answered {| officer_items := Some board |};
     Server.fetchDocument := fun _ _ => Rejected "fetch failed";
     Server.generateContent := fun _ _ =>
       Ok (Json (JObj [("ethnicity", JStr "unknown")]));
     Server.search := fun _ => Thrown "search unavailable" |}.

(** The AI answers the statement of affairs with the JSON text [null]. *)
Definition nullWorld : Server.World :=
  {| Server.fetchCompany := fun _ => answered acme;
     Server.fetchFilingHistory := fun _ =>
       answered {| items := Some (statementOfAffairs :: jonesHistory) |};
     Server.fetchOfficers := fun _ => refused 404 "Not Found";
     Server.fetchDocument := fun _ _ => answered "PDF";
     Server.generateContent := fun _ _ => Ok (Json JNull);
     Server.search := fun _ => Thrown "search unavailable" |}.


(** The statement of affairs names the accountant; accounts are on file
    too. *)
Definition namedWorld : Server.World :=
  {| Server.fetchCompany := fun _ => answered acme;
     Server.fetchFilingHistory := fun _ =>
       answered {| items := Some (statementOfAffairs :: jonesHistory) |};
     Server.fetchOfficers := fun _ => refused 404 "Not Found";
     Server.fetchDocument := fun _ _ => answered "PDF";
     Server.generateContent := fun _ _ =>
       Ok (Json (JObj [("accountantFirmName", JStr "Smith & Co")]));
     Server.search := fun _ =>
       Ok {| results := Some [ {| hit_url := Some "https://smithco.example" |};
                               {| hit_url := Some "https://other.example" |} ] |} |}.

(** Every answer of the chain has an error status, and a body. *)
Definition errorStatusWorld : PdfProxy.World :=
  {| PdfProxy.fetchMetadata := fun _ =>
       Responded {| status := 404; statusText := "Not Found";
                    location := None; payload := Ok documentMeta |};
     PdfProxy.fetchDocument := fun _ =>
       Responded {| status := 401; statusText := "Unauthorized";
                    location := None; payload := Ok tt |};
     PdfProxy.fetchStorage := fun _ =>
       Responded {| status := 403; statusText := "Forbidden";
                    location := None; payload := Ok "AccessDenied" |} |}.

(** The metadata names no document. *)
Definition noLinkWorld : PdfProxy.World :=
  {| PdfProxy.fetchMetadata := fun _ =>
       answered {| PdfProxy.meta_links :=
                     Some {| PdfProxy.document := None |} |};
     PdfProxy.fetchDocument := fun _ => Rejected "fetch failed";
     PdfProxy.fetchStorage := fun _ => Rejected "fetch failed" |}.

(** The storage host cannot be reached. *)
Definition storageDownWorld : PdfProxy.World :=
  {| PdfProxy.fetchMetadata := fun _ => answered documentMeta;
     PdfProxy.fetchDocument := fun _ =>
       Responded {| status := 302; statusText := "Found";
                    location := Some "https://s3/abc"; payload := Ok tt |};
     PdfProxy.fetchStorage := fun _ => Rejected "fetch failed" |}.

(** A winding-up resolution with its document. *)
Definition resolution : FilingItem :=
  filing "resolution" "resolution-to-wind-up" (Some "https://reg/doc/1").

(** The page's registry: the profile is found; the filing history is
    answered with an error status and a body all the same. *)
Definition pageWorld : Browser.World :=
  {| Browser.fetchDetails := fun _ => answered acme;
     Browser.fetchHistory := fun _ =>
       Responded {| status := 416; statusText := "Range Not Satisfiable";
                    location := None;
                    payload := Ok {| items := Some (accounts "1"
                                                    :: resolution :: nil) |} |};
     Browser.fetchPdf := fun _ => Rejected "fetch failed";
     Browser.fetchGemini := fun _ _ _ => Rejected "fetch failed";
     Browser.btoaError := "Invalid character" |}.

End Cases.

(* ================================================================== *)
(** * Sanity checks of the string helpers *)
(* ================================================================== *)

Example base64_Man : Base64.encode "Man" = "TWFu".
Proof. reflexivity. Qed.

Example base64_Ma : Base64.encode "Ma" = "TWE=".
Proof. reflexivity. Qed.

Example base64_key : Base64.encode "secret:" = "c2VjcmV0Og==".
Proof. reflexivity. Qed.

Example includes_soa :
  includes "statement-of-affairs" "liquidation-statement-of-affairs-filed" = true.
Proof. reflexivity. Qed.

Example includes_none : includes "resolution" "accounts" = false.
Proof. reflexivity. Qed.

Example trim_key : trim "  k 1 " = "k 1".
Proof. reflexivity. Qed.

(** U+00A0 and U+FEFF in front, U+2003 and a line feed behind; U+00E9
    inside stays. *)
Example trim_unicode :
  trim (string_of_list_ascii
          (map ascii_of_nat [194; 160; 239; 187; 191; 107; 195; 169; 49;
                             226; 128; 131; 10]))
  = string_of_list_ascii (map ascii_of_nat [107; 195; 169; 49]).
Proof. reflexivity. Qed.

(** A key of U+00A0 and a space trims to nothing. *)
Example trim_spaces_only :
  trim (string_of_list_ascii (map ascii_of_nat [194; 160; 32])) = "".
Proof. reflexivity. Qed.

Example btoa_key : Base64.btoa "secret:" = Some "c2VjcmV0Og==".
Proof. reflexivity. Qed.

(* ================================================================== *)
(** * Lists and objects *)
(* ================================================================== *)

Section ListFacts.
Context {A : Type}.
Variable p : A -> bool.

(** [l.find(p)] is the first element that satisfies [p]. *)
Lemma find_first (l : list A) (x : A) :
  find p l = Some x ->
  exists before after,
    l = before ++ x :: after
    /\ p x = true
    /\ (forall y, In y before -> p y = false).
Proof.
  induction l as [|a l IH]; simpl; [discriminate|].
  destruct (p a) eqn:Ha.
  - intros [= ->]. exists [], l. repeat split; auto. intros y [].
  - intros Hf. destruct (IH Hf) as (before & after & -> & Hx & Hb).
    exists (a :: before), after. repeat split; auto.
    intros y [<-|Hy]; auto.
Qed.


Lemma find_none_iff (l : list A) :
  find p l = None <-> (forall x, In x l -> p x = false).
Proof.
  split; [apply find_none|].
  induction l as [|a l IH]; simpl; auto.
  intros H. rewrite (H a (or_introl eq_refl)). apply IH. auto.
Qed.
End ListFacts.

Section ObjectFacts.


Lemma lookup_update_other k k' v ps :
  k' <> k -> Js.lookup k' (Js.update k v ps) = Js.lookup k' ps.
Proof.
  intros Hne. induction ps as [|[k0 v0] ps IH]; simpl.
  - destruct (k =? k') eqn:E; auto.
    apply String.eqb_eq in E. congruence.
  - destruct (k0 =? k) eqn:E; simpl.
    + apply String.eqb_eq in E. subst k0.
      destruct (k =? k') eqn:E'; auto.
      apply String.eqb_eq in E'. congruence.
    + now rewrite IH.
Qed.

(** An assignment [o.k = v] that succeeds leaves every other property
    as it was. *)
Lemma get_set_other o k v o' k' :
  Js.set o k v = Ok o' -> k' <> k -> Js.get o' k' = Js.get o k'.
Proof.
  destruct o; simpl; try discriminate; intros [= <-] Hne; simpl;
    now rewrite lookup_update_other.
Qed.


Lemma truthy_defined v : Js.truthy v = true -> v <> JUndefined.
Proof. now destruct v. Qed.

(** [v || ""] is never [undefined]. *)
Lemma or_empty_defined v : Js.or v (JStr "") <> JUndefined.
Proof.
  unfold Js.or. destruct (Js.truthy v) eqn:E; [|discriminate].
  now apply truthy_defined.
Qed.

(** [v || ""] is the empty string or a truthy [v]. *)
Lemma or_empty_cases v :
  (Js.truthy v = false /\ Js.or v (JStr "") = JStr "")
  \/ (Js.truthy v = true /\ Js.or v (JStr "") = v).
Proof. unfold Js.or. destruct (Js.truthy v); auto. Qed.

Lemma wire_truthy v : Js.truthy (Js.wire v) = Js.truthy v.
Proof. now destruct v. Qed.

Lemma wire_string v : Js.is_string (Js.wire v) = Js.is_string v.
Proof. now destruct v. Qed.

Lemma wire_defined v : v <> JUndefined -> Js.wire v <> JUndefined.
Proof. now destruct v. Qed.

Lemma kept_defined k v ps :
  v <> JUndefined ->
  Js.kept Js.wire ((k, v) :: ps) = (k, Js.wire v) :: Js.kept Js.wire ps.
Proof. now destruct v. Qed.

Lemma kept_undefined k ps :
  Js.kept Js.wire ((k, JUndefined) :: ps) = Js.kept Js.wire ps.
Proof. reflexivity. Qed.

End ObjectFacts.

(* ================================================================== *)
(** * server.ts: filing selection *)
(* ================================================================== *)

Module ServerProofs.
Import Server.

(** Every download logs exactly its own request. *)
Lemma downloadPdf_events w auth s link :
  fst (downloadPdf w auth s link) = [EvFetch (Download s) (pdfRequest auth link)].
Proof.
  unfold downloadPdf, Eff.bind, Eff.call, Eff.throw, Eff.lift, Eff.ret.
  destruct (settle _) as [res|m]; simpl; auto.
  destruct (ok res); simpl; auto.
  destruct (payload res); reflexivity.
Qed.



(** C6. The accounts candidates are the first three items of category
    "accounts", in filing-history order: never more than three, exactly
    three when the history has more than three such items, and all of
    them when it has three or fewer. *)
Theorem accountItems_first_three (filingData : FilingData) :
  let all := filter isAccounts (itemsOf filingData) in
  (length (accountItems filingData) <= 3)%nat
  /\ (exists rest, all = accountItems filingData ++ rest)
  /\ ((3 < length all)%nat -> length (accountItems filingData) = 3%nat)
  /\ ((length all <= 3)%nat -> accountItems filingData = all)
  /\ Forall (fun item => category item = "accounts"
                         /\ In item (itemsOf filingData))
            (accountItems filingData).
Proof.
  intros all. unfold accountItems. fold all.
  repeat split.
  - rewrite length_firstn. lia.
  - exists (skipn 3 all). symmetry. apply firstn_skipn.
  - intros H. rewrite length_firstn. lia.
  - intros H. now apply firstn_all2.
  - apply Forall_forall. intros item Hin.
    assert (Hall : In item all)
      by (rewrite <- (firstn_skipn 3 all); apply in_or_app; now left).
    apply filter_In in Hall. rename Hall into Hin'. clear Hin.
    rename Hin' into Hin. destruct Hin as [Hin Hacc].
    split; auto. now apply String.eqb_eq.
Qed.

Lemma accountItems_first_three_witness :
  length (accountItems Scenario.fourAccounts) = 3%nat
  /\ accountItems Scenario.fourAccounts
     = [Scenario.accounts "1"; Scenario.accounts "2"; Scenario.accounts "3"].
Proof.
  split; [|reflexivity].
  apply (proj1 (proj2 (proj2 (accountItems_first_three Scenario.fourAccounts)))).
  simpl. lia.
Defined.

(* ---------------------------------------------------------------- *)
(** ** Mandatory lookups *)

(** C2. When the company-profile lookup, or after it the
    filing-history lookup, answers with a non-2xx status, the handler
    replies with status 500 and the body [{error: message}], the message
    naming the failed lookup and its status text; that reply is no row;
    and the log holds the lookups made so far and nothing else: no
    officers lookup, no document download, no AI call, no search. *)
Theorem mandatory_lookup_failure_aborts
        (w : World) (body : Body) (number key : string) :
  nonempty (companyNumber body) = Some number ->
  nonempty (chApiKey body) = Some key ->
  let run := extract w body in
  (forall r,
      fetchCompany w (companyRequest number (authHeader key)) = Responded r ->
      ok r = false ->
      fst run
      = [EvFetch CompanyLookup (companyRequest number (authHeader key))]
      /\ reply_status (snd run) = 500%Z
      /\ reply_json (snd run)
         = JObj [("error",
                  JStr ("Failed to fetch company details: " ++ statusText r))]
      /\ isRow (snd run) = false)
  /\ (forall r companyData r',
        fetchCompany w (companyRequest number (authHeader key)) = Responded r ->
        ok r = true ->
        payload r = Ok companyData ->
        fetchFilingHistory w (filingRequest number (authHeader key))
        = Responded r' ->
        ok r' = false ->
        fst run
        = [EvFetch CompanyLookup (companyRequest number (authHeader key));
           EvFetch FilingLookup (filingRequest number (authHeader key))]
        /\ reply_status (snd run) = 500%Z
        /\ reply_json (snd run)
           = JObj [("error",
                    JStr ("Failed to fetch filing history: " ++ statusText r'))]
        /\ isRow (snd run) = false).
Proof.
  intros Hn Hk. cbv zeta. unfold extract. rewrite Hn, Hk.
  unfold pipeline, lookups, companyDetails, filingHistory.
  split.
  - intros r Hr Hok.
    unfold Eff.bind, Eff.call, Eff.throw. rewrite Hr. simpl.
    rewrite Hok. repeat split.
  - intros r companyData r' Hr Hok Hp Hr' Hok'.
    unfold Eff.bind, Eff.call, Eff.throw, Eff.lift. rewrite Hr. simpl.
    rewrite Hok, Hp. simpl. rewrite Hr'. simpl.
    rewrite Hok'. repeat split.
Qed.

Lemma mandatory_lookup_failure_aborts_witness :
  (let run := extract Scenario.unknownCompanyWorld Scenario.request in
   fst run
   = [EvFetch CompanyLookup (companyRequest "11969947" (authHeader "secret"))]
   /\ reply_status (snd run) = 500%Z
   /\ reply_json (snd run)
      = JObj [("error", JStr "Failed to fetch company details: Not Found")]
   /\ isRow (snd run) = false)
  /\ (let run := extract Scenario.noHistoryWorld Scenario.request in
      fst run
      = [EvFetch CompanyLookup (companyRequest "11969947" (authHeader "secret"));
         EvFetch FilingLookup (filingRequest "11969947" (authHeader "secret"))]
      /\ reply_status (snd run) = 500%Z
      /\ reply_json (snd run)
         = JObj [("error",
                  JStr "Failed to fetch filing history: Internal Server Error")]
      /\ isRow (snd run) = false).
Proof.
  split.
  - exact (proj1 (mandatory_lookup_failure_aborts
                    Scenario.unknownCompanyWorld Scenario.request
                    "11969947" "secret" eq_refl eq_refl)
                 _ eq_refl eq_refl).
  - exact (proj2 (mandatory_lookup_failure_aborts
                    Scenario.noHistoryWorld Scenario.request
                    "11969947" "secret" eq_refl eq_refl)
                 _ Scenario.acme _ eq_refl eq_refl eq_refl eq_refl eq_refl).
Defined.

(* ---------------------------------------------------------------- *)
(** ** The fallback loop *)

Lemma downloads_app t t' : downloads (t ++ t') = downloads t ++ downloads t'.
Proof.
  induction t as [|e t IH]; simpl; auto.
  destruct e as [[| | |[|i|]] r|s r|f]; simpl; now rewrite IH.
Qed.

Lemma extractions_app t t' :
  extractions (t ++ t') = extractions t ++ extractions t'.
Proof.
  induction t as [|e t IH]; simpl; auto.
  destruct e as [c r|[|i|] r|f]; simpl; now rewrite IH.
Qed.

(** The [try] block of an iteration downloads the candidate's
    document, then, if that worked, asks the AI once. *)
Lemma extractFirmName_events w auth i link :
  let run := extractFirmName w auth i link in
  (fst run = [EvFetch (Download (Fallback i)) (pdfRequest auth link)]
   /\ exists m, snd run = Thrown m)
  \/ exists pdf,
      fst run = [EvFetch (Download (Fallback i)) (pdfRequest auth link);
                 EvGenerate (Fallback i) (accRequest pdf)].
Proof.
  unfold extractFirmName.
  pose proof (downloadPdf_events w auth (Fallback i) link) as Hd.
  destruct (downloadPdf w auth (Fallback i) link) as [t [pdf|m]];
    simpl in Hd; subst t.
  - right. exists pdf.
    unfold Eff.bind, generate, Eff.call, Eff.lift.
    destruct (generateContent w (Fallback i) (accRequest pdf)) as [txt|m];
      simpl; [|reflexivity].
    destruct (parse_or_empty txt) as [accData|m]; simpl; [|reflexivity].
    destruct (Js.get accData "accountantFirmName"); reflexivity.
  - left. simpl. eauto.
Qed.

Lemma extractFirmName_downloads w auth i link :
  downloads (fst (extractFirmName w auth i link)) = [i].
Proof.
  destruct (extractFirmName_events w auth i link) as [[-> _]|[pdf ->]];
    reflexivity.
Qed.

Lemma extractFirmName_extractions w auth i link :
  incl (extractions (fst (extractFirmName w auth i link))) [i]
  /\ (forall v, snd (extractFirmName w auth i link) = Ok v ->
                extractions (fst (extractFirmName w auth i link)) = [i]).
Proof.
  destruct (extractFirmName_events w auth i link) as [[-> [m ->]]|[pdf ->]];
    simpl; split; try discriminate; auto using incl_refl, incl_nil_l.
Qed.

(** One iteration, in terms of what the [try] block read: the [catch]
    absorbs every failure, so the iteration itself never throws. *)
Lemma tryCandidate_run w auth i link extractedData :
  tryCandidate w auth i link extractedData
  = (fst (extractFirmName w auth i link),
     Ok (match snd (extractFirmName w auth i link) with
         | Ok v =>
             if Js.truthy v then
               match Js.set extractedData firmName v with
               | Ok updated => Some updated
               | Thrown _ => None
               end
             else None
         | Thrown _ => None
         end)).
Proof.
  unfold tryCandidate, Eff.catch, Eff.bind, Eff.lift, Eff.ret, firmName.
  destruct (extractFirmName w auth i link) as [t [v|m]]; simpl.
  - destruct (Js.truthy v); simpl; [|now rewrite app_nil_r].
    destruct (Js.set extractedData "accountantFirmName" v); simpl;
      now rewrite ?app_nil_r.
  - now rewrite app_nil_r.
Qed.

(** What [yield] means in terms of the outside world. *)
Lemma yield_some_iff w auth i item v :
  yield w auth i item = Some v
  <-> exists link r bytes txt accData,
      document_metadata_of item = Some link
      /\ fetchDocument w (Fallback i) (pdfRequest auth link) = Responded r
      /\ ok r = true
      /\ payload r = Ok bytes
      /\ generateContent w (Fallback i) (accRequest (Base64.encode bytes))
         = Ok txt
      /\ parse_or_empty txt = Ok accData
      /\ Js.get accData firmName = Ok v
      /\ Js.truthy v = true.
Proof.
  unfold yield, extractFirmName, downloadPdf, generate, firmName.
  unfold Eff.bind, Eff.call, Eff.throw, Eff.lift, Eff.ret.
  destruct (document_metadata_of item) as [link|].
  2:{ split; [discriminate|]. intros (? & ? & ? & ? & ? & [=] & _). }
  destruct (fetchDocument w (Fallback i) (pdfRequest auth link))
    as [m|r] eqn:Hf; simpl.
  { split; [discriminate|].
    intros (l & r & b & t & a & [= <-] & Hr & _). congruence. }
  destruct (ok r) eqn:Hok; simpl.
  2:{ split; [discriminate|].
      intros (l & r0 & b & t & a & [= <-] & Hr & Hok' & _).
      rewrite Hf in Hr. injection Hr as <-. congruence. }
  destruct (payload r) as [bytes|m] eqn:Hp; simpl.
  2:{ split; [discriminate|].
      intros (l & r0 & b & t & a & [= <-] & Hr & _ & Hp' & _).
      rewrite Hf in Hr. injection Hr as <-. congruence. }
  destruct (generateContent w (Fallback i) (accRequest (Base64.encode bytes)))
    as [txt|m] eqn:Hg; simpl.
  2:{ split; [discriminate|].
      intros (l & r0 & b & t & a & [= <-] & Hr & _ & Hp' & Hg' & _).
      rewrite Hf in Hr. injection Hr as <-.
      rewrite Hp in Hp'. injection Hp' as <-. congruence. }
  destruct (parse_or_empty txt) as [accData|m] eqn:Hparse; simpl.
  2:{ split; [discriminate|].
      intros (l & r0 & b & t & a & [= <-] & Hr & _ & Hp' & Hg' & Ht & _).
      rewrite Hf in Hr. injection Hr as <-.
      rewrite Hp in Hp'. injection Hp' as <-.
      rewrite Hg in Hg'. injection Hg' as <-. congruence. }
  destruct (Js.get accData "accountantFirmName") as [x|m] eqn:Hget; simpl.
  2:{ split; [discriminate|].
      intros (l & r0 & b & t & a & [= <-] & Hr & _ & Hp' & Hg' & Ht & Hx & _).
      rewrite Hf in Hr. injection Hr as <-.
      rewrite Hp in Hp'. injection Hp' as <-.
      rewrite Hg in Hg'. injection Hg' as <-.
      rewrite Hparse in Ht. injection Ht as <-. congruence. }
  split.
  - destruct (Js.truthy x) eqn:Htr; [|discriminate].
    intros [= <-]. exists link, r, bytes, txt, accData. repeat split; auto.
  - intros (l & r0 & b & t & a & [= <-] & Hr & _ & Hp' & Hg' & Ht & Hx & Htr).
    rewrite Hf in Hr. injection Hr as <-.
    rewrite Hp in Hp'. injection Hp' as <-.
    rewrite Hg in Hg'. injection Hg' as <-.
    rewrite Hparse in Ht. injection Ht as <-.
    rewrite Hget in Hx. injection Hx as <-.
    now rewrite Htr.
Qed.

Lemma stored_object w auth i item link props :
  document_metadata_of item = Some link ->
  stored w auth i link (JObj props)
  = option_map (fun v => JObj (Js.update firmName v props))
               (yield w auth i item).
Proof.
  intros Hl. unfold stored, yield. rewrite Hl.
  destruct (snd (extractFirmName w auth i link)) as [v|m]; auto.
  destruct (Js.truthy v); reflexivity.
Qed.


(** The loop on a candidate that has a link: it breaks with what was
    stored, or goes on with [extractedData] as it was. *)
Lemma fallbackLoop_linked w auth i item rest extractedData link :
  document_metadata_of item = Some link ->
  fallbackLoop w auth i (item :: rest) extractedData
  = match stored w auth i link extractedData with
    | Some updated => (fst (extractFirmName w auth i link), updated)
    | None =>
        (fst (extractFirmName w auth i link)
           ++ fst (fallbackLoop w auth (S i) rest extractedData),
         snd (fallbackLoop w auth (S i) rest extractedData))
    end.
Proof.
  intros Hl. simpl. rewrite Hl, tryCandidate_run. fold (stored w auth i link extractedData).
  destruct (stored w auth i link extractedData); auto.
  now destruct (fallbackLoop w auth (S i) rest extractedData).
Qed.

Lemma fallbackLoop_unlinked w auth i item rest extractedData :
  document_metadata_of item = None ->
  fallbackLoop w auth i (item :: rest) extractedData
  = fallbackLoop w auth (S i) rest extractedData.
Proof. intros Hl. simpl. now rewrite Hl. Qed.

Lemma linked_app i l l' :
  linked i (l ++ l') = linked i l ++ linked (i + length l) l'.
Proof.
  revert i. induction l as [|a l IH]; intros i; simpl.
  - now rewrite Nat.add_0_r.
  - rewrite IH, Nat.add_succ_r. simpl.
    now destruct (document_metadata_of a).
Qed.

Lemma linked_In i l j :
  In j (linked i l)
  <-> exists k item,
      j = (i + k)%nat /\ nth_error l k = Some item
      /\ document_metadata_of item <> None.
Proof.
  revert i. induction l as [|a l IH]; intros i; simpl.
  - split; [intros []|]. intros (k & item & _ & H & _). now destruct k.
  - assert (Hrest : In j (linked (S i) l)
                    <-> exists k item,
                        j = (i + S k)%nat /\ nth_error l k = Some item
                        /\ document_metadata_of item <> None).
    { rewrite IH. split; intros (k & item & -> & H); exists k, item;
        (split; [lia|exact H]). }
    destruct (document_metadata_of a) as [link|] eqn:Hl; simpl.
    + split.
      * intros [<-|H].
        -- exists 0%nat, a. rewrite Nat.add_0_r, Hl. repeat split; congruence.
        -- apply Hrest in H. destruct H as (k & item & -> & H).
           exists (S k), item. split; auto.
      * intros ([|k] & item & -> & Hn & Hd).
        -- left. lia.
        -- right. apply Hrest. exists k, item. auto.
    + rewrite Hrest. split.
      * intros (k & item & -> & H). exists (S k), item. split; auto.
      * intros ([|k] & item & -> & Hn & Hd).
        -- simpl in Hn. injection Hn as <-. congruence.
        -- exists k, item. auto.
Qed.

(** Only candidates that have a link are ever downloaded, and only
    downloaded candidates are ever submitted to the AI. *)
Lemma fallbackLoop_sites w auth l :
  forall i extractedData,
    incl (downloads (fst (fallbackLoop w auth i l extractedData)))
         (linked i l)
    /\ incl (extractions (fst (fallbackLoop w auth i l extractedData)))
            (downloads (fst (fallbackLoop w auth i l extractedData))).
Proof.
  induction l as [|a l IH]; intros i ed.
  - simpl. split; apply incl_refl.
  - destruct (document_metadata_of a) as [link|] eqn:Hl.
    + rewrite (fallbackLoop_linked _ _ _ _ _ _ _ Hl).
      simpl. rewrite Hl.
      destruct (IH (S i) ed) as [IHd IHe].
      destruct (extractFirmName_extractions w auth i link) as [Hx _].
      destruct (stored w auth i link ed) as [updated|]; simpl.
      * rewrite extractFirmName_downloads. split.
        -- intros j [<-|[]]. now left.
        -- exact Hx.
      * rewrite downloads_app, extractions_app, extractFirmName_downloads.
        split.
        -- intros j [<-|H]; [now left|right; now apply IHd].
        -- intros j H. apply in_app_or in H. destruct H as [H|H].
           ++ apply Hx in H. destruct H as [<-|[]]. now left.
           ++ right. now apply IHe.
    + rewrite (fallbackLoop_unlinked _ _ _ _ _ _ Hl).
      simpl. rewrite Hl. apply IH.
Qed.


(** The failures of one candidate: a download that is rejected or
    refused, a body that cannot be read, an AI call that fails, an answer
    that is not JSON, a firm name that is missing or empty.  Each of them
    makes the candidate yield nothing. *)
Lemma failures_yield_nothing w auth i item link :
  document_metadata_of item = Some link ->
  (exists m, fetchDocument w (Fallback i) (pdfRequest auth link) = Rejected m)
  \/ (exists r, fetchDocument w (Fallback i) (pdfRequest auth link) = Responded r
                /\ (ok r = false
                    \/ (exists m, payload r = Thrown m)
                    \/ exists bytes,
                        payload r = Ok bytes
                        /\ ((exists m, generateContent w (Fallback i)
                                         (accRequest (Base64.encode bytes))
                                       = Thrown m)
                            \/ (exists m, generateContent w (Fallback i)
                                            (accRequest (Base64.encode bytes))
                                          = Ok (Malformed m))
                            \/ exists txt accData,
                                generateContent w (Fallback i)
                                  (accRequest (Base64.encode bytes)) = Ok txt
                                /\ parse_or_empty txt = Ok accData
                                /\ (forall v, Js.get accData firmName = Ok v ->
                                              Js.truthy v = false)))) ->
  yield w auth i item = None.
Proof.
  intros Hl Hfail.
  destruct (yield w auth i item) as [v|] eqn:Hy; [exfalso|reflexivity].
  apply yield_some_iff in Hy.
  destruct Hy as (l & r & bytes & txt & accData
                  & Hl' & Hf & Hok & Hp & Hg & Ht & Hx & Htr).
  rewrite Hl in Hl'. injection Hl' as <-.
  destruct Hfail as [[m Hm]|(r' & Hr' & Hrest)]; [congruence|].
  rewrite Hf in Hr'. injection Hr' as <-.
  destruct Hrest as [Hno|[[m Hm]|(b & Hb & Hai)]]; [congruence|congruence|].
  rewrite Hp in Hb. injection Hb as <-.
  destruct Hai as [[m Hm]|[[m Hm]|(txt' & a' & Hg' & Ht' & Hfalsy)]];
    [congruence| |].
  - rewrite Hg in Hm. injection Hm as ->. discriminate Ht.
  - rewrite Hg in Hg'. injection Hg' as <-.
    rewrite Ht in Ht'. injection Ht' as <-.
    rewrite (Hfalsy v Hx) in Htr. discriminate.
Qed.

(** When every candidate has a link, the linked positions are all the
    positions. *)
Lemma linked_all i l :
  (forall item, In item l -> document_metadata_of item <> None) ->
  linked i l = seq i (length l).
Proof.
  revert i. induction l as [|a l IH]; intros i H; simpl; [reflexivity|].
  destruct (document_metadata_of a) eqn:Hl.
  - rewrite IH; auto. intros item Hin. apply H. now right.
  - exfalso. apply (H a); auto. now left.
Qed.






(** The loop never changes a property other than [accountantFirmName]. *)
Lemma fallbackLoop_frame w auth l :
  forall i extractedData k,
    k <> firmName ->
    Js.get (snd (fallbackLoop w auth i l extractedData)) k
    = Js.get extractedData k.
Proof.
  induction l as [|a l IH]; intros i ed k Hk; [reflexivity|].
  destruct (document_metadata_of a) as [link|] eqn:Hl.
  - rewrite (fallbackLoop_linked _ _ _ _ _ _ _ Hl).
    destruct (stored w auth i link ed) as [updated|] eqn:Hs; simpl; auto.
    unfold stored in Hs.
    destruct (snd (extractFirmName w auth i link)) as [v|m]; [|discriminate].
    destruct (Js.truthy v); [|discriminate].
    destruct (Js.set ed firmName v) as [u|m] eqn:Hset; [|discriminate].
    injection Hs as <-. now apply (get_set_other _ _ _ _ _ Hset).
  - rewrite (fallbackLoop_unlinked _ _ _ _ _ _ Hl). auto.
Qed.

(** C9. Whatever the record holds after the primary pass and whatever
    the fallback extractions return, the seven fields other than
    [accountantFirmName] read the same after the fallback loop, and
    after the whole fallback pass, as before it. *)
Theorem fallback_preserves_other_fields
        (w : World) (auth : string) (candidates : list FilingItem)
        (extractedData : JsVal) :
  Forall (fun k =>
            Js.get (snd (fallbackLoop w auth 0 candidates extractedData)) k
            = Js.get extractedData k)
         soaOnlyFields
  /\ (forall t after,
        fallbackPass w auth candidates extractedData = (t, Ok after) ->
        Forall (fun k => Js.get after k = Js.get extractedData k)
               soaOnlyFields).
Proof.
  assert (Hloop : Forall (fun k =>
            Js.get (snd (fallbackLoop w auth 0 candidates extractedData)) k
            = Js.get extractedData k) soaOnlyFields).
  { unfold soaOnlyFields.
    repeat constructor; apply fallbackLoop_frame; discriminate. }
  split; [exact Hloop|].
  intros t after. unfold fallbackPass, Eff.bind, Eff.lift, Eff.ret.
  destruct (Js.get extractedData "accountantFirmName") as [v|m];
    [|discriminate].
  destruct (negb (Js.truthy v) && (0 <? length candidates)%nat).
  - destruct (fallbackLoop w auth 0 candidates extractedData) as [t' final].
    simpl in *. intros [= _ <-]. exact Hloop.
  - simpl. intros [= _ <-]. apply Forall_forall. reflexivity.
Qed.

Lemma fallback_preserves_other_fields_witness :
  Forall (fun k =>
            Js.get (JObj [("totalAssets", JStr "100000");
                          ("accountantFirmName", JStr "Jones LLP")]) k
            = Js.get (JObj [("totalAssets", JStr "100000")]) k)
         soaOnlyFields.
Proof.
  apply (proj2 (fallback_preserves_other_fields
                  Scenario.jonesWorld "Basic c2VjcmV0Og=="
                  Scenario.jonesHistory
                  (JObj [("totalAssets", JStr "100000")]))
               (fst (fallbackPass Scenario.jonesWorld "Basic c2VjcmV0Og=="
                                  Scenario.jonesHistory
                                  (JObj [("totalAssets", JStr "100000")])))).
  reflexivity.
Defined.

(* ---------------------------------------------------------------- *)
(** ** Steps 4 to 7 *)

Lemma quiet_nil : quiet [].
Proof. reflexivity. Qed.

Lemma quiet_app t t' : quiet t -> quiet t' -> quiet (t ++ t').
Proof. unfold quiet. rewrite forallb_app. now intros -> ->. Qed.

Lemma quiet_app_inv t t' : quiet (t ++ t') -> quiet t /\ quiet t'.
Proof. unfold quiet. rewrite forallb_app. apply andb_prop. Qed.

Lemma extractFirmName_quiet w auth i link :
  quiet (fst (extractFirmName w auth i link)).
Proof.
  destruct (extractFirmName_events w auth i link) as [[-> _]|[pdf ->]];
    reflexivity.
Qed.

Lemma fallbackLoop_quiet w auth l :
  forall i extractedData, quiet (fst (fallbackLoop w auth i l extractedData)).
Proof.
  induction l as [|a l IH]; intros i ed; [reflexivity|].
  destruct (document_metadata_of a) as [link|] eqn:Hl.
  - rewrite (fallbackLoop_linked _ _ _ _ _ _ _ Hl).
    destruct (stored w auth i link ed); simpl.
    + apply extractFirmName_quiet.
    + apply quiet_app; [apply extractFirmName_quiet|apply IH].
  - rewrite (fallbackLoop_unlinked _ _ _ _ _ _ Hl). apply IH.
Qed.

(** On an object, the loop returns an object: the same one, or the
    same with the firm name some candidate yielded. *)
Lemma fallbackLoop_object w auth l :
  forall i props,
    snd (fallbackLoop w auth i l (JObj props)) = JObj props
    \/ exists v j,
        Js.truthy v = true
        /\ In j (extractions (fst (fallbackLoop w auth i l (JObj props))))
        /\ snd (fallbackLoop w auth i l (JObj props))
           = JObj (Js.update firmName v props).
Proof.
  induction l as [|a l IH]; intros i props; [now left|].
  destruct (document_metadata_of a) as [link|] eqn:Hl.
  - rewrite (fallbackLoop_linked _ _ _ _ _ _ _ Hl).
    rewrite (stored_object _ _ _ _ _ _ Hl).
    destruct (yield w auth i a) as [v|] eqn:Hy; simpl.
    + right. exists v, i.
      unfold yield in Hy. rewrite Hl in Hy.
      destruct (snd (extractFirmName w auth i link)) as [x|m] eqn:Hx;
        [|discriminate].
      destruct (Js.truthy x) eqn:Htr; [|discriminate].
      injection Hy as <-.
      destruct (extractFirmName_extractions w auth i link) as [_ He].
      rewrite (He x Hx). repeat split; auto. now left.
    + destruct (IH (S i) props) as [H|(v & j & Htr & Hin & H)]; [now left|].
      right. exists v, j. rewrite extractions_app.
      repeat split; auto. apply in_or_app. now right.
  - rewrite (fallbackLoop_unlinked _ _ _ _ _ _ Hl). apply IH.
Qed.

(** The fallback pass on an object never throws. *)
Lemma fallbackPass_object w auth l props :
  exists t props',
    fallbackPass w auth l (JObj props) = (t, Ok (JObj props'))
    /\ quiet t
    /\ (forall k, k <> firmName -> Js.lookup k props' = Js.lookup k props)
    /\ (props' = props
        \/ exists v j,
            Js.truthy v = true /\ In j (extractions t)
            /\ props' = Js.update firmName v props).
Proof.
  unfold fallbackPass, Eff.bind, Eff.lift, Eff.ret. simpl.
  destruct (negb (Js.truthy (Js.lookup "accountantFirmName" props))
            && (0 <? length l)%nat).
  - pose proof (fallbackLoop_quiet w auth l 0 (JObj props)) as Hq.
    pose proof (fallbackLoop_object w auth l 0 props) as Ho.
    destruct (fallbackLoop w auth 0 l (JObj props)) as [t final].
    simpl in *.
    destruct Ho as [->|(v & j & Htr & Hin & ->)].
    + exists t, props. repeat split; auto.
    + exists t, (Js.update firmName v props). repeat split; auto.
      * intros k Hk. now apply lookup_update_other.
      * right. exists v, j. auto.
  - exists [], props. repeat split; auto.
Qed.

(** The ethnicity step never throws and calls only the AI. *)
Lemma ethnicityStep_run w directorName :
  exists t ethnicity,
    ethnicityStep w directorName = (t, Ok ethnicity) /\ quiet t.
Proof.
  unfold ethnicityStep.
  destruct (nonempty directorName) as [d|]; [|exists [], (JStr ""); now split].
  unfold Eff.catch, Eff.bind, generate, Eff.call, Eff.lift, Eff.ret.
  destruct (generateContent w Ethnicity (ethnicityRequest d))
    as [txt|m]; simpl; [|eexists _, _; split; reflexivity].
  destruct (parse_or_empty txt) as [parsed|m]; simpl;
    [|eexists _, _; split; reflexivity].
  destruct (Js.get parsed "ethnicity") as [e|m]; simpl;
    eexists _, _; split; reflexivity.
Qed.

(** The web search on an object never throws. *)
Lemma webSearch_run w props :
  exists t accountantUrl,
    webSearch w (JObj props) = (t, Ok accountantUrl) /\ quiet t.
Proof.
  unfold webSearch, Eff.catch, Eff.bind, Eff.call, Eff.lift, Eff.ret. simpl.
  destruct (Js.truthy (Js.lookup "accountantFirmName" props));
    [|exists [], (Some ""); now split].
  destruct (search w (Js.lookup "accountantFirmName" props)) as [r|m]; simpl.
  - destruct (results r) as [[|first rest]|]; simpl;
      eexists _, _; split; reflexivity.
  - eexists _, _; split; reflexivity.
Qed.

Lemma combined_run c d eth extractedData url :
  combined c d eth extractedData url
  = match Js.get extractedData "totalAssets" with
    | Ok _ => ([], Ok (rowOf c d eth extractedData url))
    | Thrown m => ([], Thrown m)
    end.
Proof. destruct extractedData; reflexivity. Qed.

(** From an object, steps 4 to 7 always end in a row, without any
    call of the primary pass. *)
Lemma afterPrimary_object w auth c fd d props :
  exists t props' eth url,
    afterPrimary w auth c fd d (JObj props)
    = (t, Ok (rowOf c d eth (JObj props') url))
    /\ quiet t
    /\ (forall k, k <> firmName -> Js.lookup k props' = Js.lookup k props)
    /\ (props' = props
        \/ exists v j,
            Js.truthy v = true /\ In j (extractions t)
            /\ props' = Js.update firmName v props).
Proof.
  unfold afterPrimary.
  destruct (fallbackPass_object w auth (accountItems fd) props)
    as (t1 & props' & E1 & Q1 & Hframe & Hname).
  destruct (ethnicityStep_run w d) as (t2 & eth & E2 & Q2).
  destruct (webSearch_run w props') as (t3 & url & E3 & Q3).
  rewrite E1. unfold Eff.bind at 1. rewrite E2. unfold Eff.bind at 1.
  rewrite E3. unfold Eff.bind. rewrite combined_run. simpl.
  exists (t1 ++ t2 ++ t3 ++ []), props', eth, url.
  repeat split; auto.
  - repeat apply quiet_app; auto. reflexivity.
  - destruct Hname as [->|(v & j & Htr & Hin & ->)]; [now left|].
    right. exists v, j. repeat split; auto.
    rewrite extractions_app. apply in_or_app. now left.
Qed.

(** Whenever steps 4 to 7 end in a row, it is the object literal of
    lines 194-208. *)
Lemma afterPrimary_row w auth c fd d extractedData t row :
  afterPrimary w auth c fd d extractedData = (t, Ok row) ->
  exists eth final url, row = rowOf c d eth final url.
Proof.
  unfold afterPrimary, Eff.bind.
  destruct (fallbackPass w auth (accountItems fd) extractedData)
    as [t1 [final|m]]; [|discriminate].
  destruct (ethnicityStep w d) as [t2 [eth|m]]; [|discriminate].
  destruct (webSearch w final) as [t3 [url|m]]; [|discriminate].
  rewrite combined_run.
  destruct (Js.get final "totalAssets"); [|discriminate].
  intros [= _ <-]. eauto.
Qed.

(** The registry lookups make no call of the primary pass. *)
Lemma lookups_quiet w number auth : quiet (fst (lookups w number auth)).
Proof.
  unfold lookups, companyDetails, filingHistory, director.
  unfold Eff.bind, Eff.call, Eff.throw, Eff.lift, Eff.ret.
  destruct (settle (fetchCompany w _)) as [r1|m]; [|reflexivity]. simpl.
  destruct (ok r1); [|reflexivity]. simpl.
  destruct (payload r1) as [c|m]; [|reflexivity]. simpl.
  destruct (settle (fetchFilingHistory w _)) as [r2|m]; [|reflexivity]. simpl.
  destruct (ok r2); [|reflexivity]. simpl.
  destruct (payload r2) as [f|m]; [|reflexivity]. simpl.
  destruct (settle (fetchOfficers w _)) as [r3|m]; [|reflexivity]. simpl.
  destruct (ok r3); [|reflexivity]. simpl.
  destruct (payload r3) as [o|m]; [|reflexivity]. simpl.
  destruct (officer_items o) as [l|]; [|reflexivity].
  destruct (find isDirector l); reflexivity.
Qed.

(* ---------------------------------------------------------------- *)
(** ** The fields of a reply *)

Lemma lookup_kept_absent k ps :
  ~ In k (map fst ps) -> Js.lookup k (Js.kept Js.wire ps) = JUndefined.
Proof.
  induction ps as [|[k' v] ps IH]; simpl; auto.
  intros Hn.
  assert (Hk : (k' =? k) = false)
    by (apply String.eqb_neq; intros ->; apply Hn; now left).
  assert (Hrest : Js.lookup k (Js.kept Js.wire ps) = JUndefined)
    by (apply IH; intros H; apply Hn; now right).
  destruct v; simpl; rewrite ?Hk; exact Hrest.
Qed.

(** Serialising an object whose keys are distinct commutes with
    reading a property. *)
Lemma lookup_kept k ps :
  NoDup (map fst ps) ->
  Js.lookup k (Js.kept Js.wire ps) = Js.wire (Js.lookup k ps).
Proof.
  induction ps as [|[k' v] ps IH]; intros Hnd; [reflexivity|].
  inversion Hnd as [|? ? Hnotin Hnd']; subst.
  specialize (IH Hnd').
  destruct (k' =? k) eqn:Hk.
  - apply String.eqb_eq in Hk. subst k'.
    pose proof (lookup_kept_absent k ps Hnotin) as Habs.
    simpl. rewrite String.eqb_refl.
    destruct v; simpl; rewrite ?String.eqb_refl; auto.
  - simpl. rewrite Hk.
    destruct v; simpl; rewrite ?Hk; exact IH.
Qed.

Lemma field_success c d eth extractedData url k :
  field (success (rowOf c d eth extractedData url)) k
  = Js.wire (match rowOf c d eth extractedData url with
             | JObj ps => Js.lookup k ps
             | _ => JUndefined
             end).
Proof.
  unfold field, success, rowOf. cbn [reply_json Js.wire].
  apply lookup_kept. cbn [map fst].
  repeat (constructor; [cbn [In]; intuition discriminate|]).
  constructor.
Qed.

Lemma read_defined extractedData k : read extractedData k <> JUndefined.
Proof.
  unfold read. destruct (Js.get extractedData k); [|discriminate].
  apply or_empty_defined.
Qed.

(** The eight fields written [extractedData.k || ""] are present in
    every row. *)
Lemma row_fields_present c d eth extractedData url k :
  In k soaFields ->
  field (success (rowOf c d eth extractedData url)) k <> JUndefined.
Proof.
  intros Hin. rewrite field_success. apply wire_defined.
  unfold soaFields in Hin. cbn [In] in Hin.
  repeat (destruct Hin as [<-|Hin]; [cbn; apply read_defined|]).
  destruct Hin.
Qed.

(** The [ethnicity] of a row is whatever the ethnicity step left,
    [undefined] included. *)
Lemma row_ethnicity c d eth extractedData url :
  field (success (rowOf c d eth extractedData url)) "ethnicity" = Js.wire eth.
Proof. now rewrite field_success. Qed.

(* ---------------------------------------------------------------- *)
(** ** The primary pass skipped *)

(** When the primary pass has nothing to download, the handler goes
    on from an empty record and replies with a row. *)
Lemma skipped_primary_pass w body number key t0 c fd d :
  nonempty (companyNumber body) = Some number ->
  nonempty (chApiKey body) = Some key ->
  lookups w number (authHeader key) = (t0, Ok (c, fd, d)) ->
  soaLink (soaItem fd) = None ->
  exists t reply,
    extract w body = (t0 ++ t, reply)
    /\ afterLookups w (authHeader key) c fd d
       = afterPrimary w (authHeader key) c fd d (JObj [])
    /\ isRow reply = true
    /\ quiet (t0 ++ t)
    /\ Forall (fun k => field reply k = JStr "") soaOnlyFields
    /\ (field reply "accountantFirmName" = JStr ""
        \/ (Js.truthy (field reply "accountantFirmName") = true
            /\ exists j, In j (extractions t))).
Proof.
  intros Hn Hk Hlook Hlink.
  assert (Hafter : afterLookups w (authHeader key) c fd d
                   = afterPrimary w (authHeader key) c fd d (JObj [])).
  { unfold afterLookups, primaryPass. rewrite Hlink.
    unfold Eff.bind, Eff.ret.
    now destruct (afterPrimary w (authHeader key) c fd d (JObj [])). }
  destruct (afterPrimary_object w (authHeader key) c fd d [])
    as (t & props' & eth & url & Hrun & Hq & Hframe & Hname).
  exists t, (success (rowOf c d eth (JObj props') url)).
  split; [|split; [exact Hafter|split; [reflexivity|split]]].
  - unfold extract. rewrite Hn, Hk. unfold pipeline.
    rewrite Hlook. unfold Eff.bind. rewrite Hafter, Hrun. reflexivity.
  - apply quiet_app; auto.
    pose proof (lookups_quiet w number (authHeader key)) as H.
    now rewrite Hlook in H.
  - split.
    + unfold soaOnlyFields.
      repeat constructor; rewrite field_success; cbn;
        unfold read; cbn; rewrite Hframe by discriminate; reflexivity.
    + rewrite field_success. cbn. unfold read. cbn.
      destruct Hname as [->|(v & j & Htr & Hin & ->)]; [now left|].
      right. cbn. unfold Js.or. rewrite Htr, wire_truthy. eauto.
Qed.

(** Once the registry lookups have completed, a filing history without
    any insolvency/statement-of-affairs item is not an error for the
    server: the handler makes no call of the primary pass and replies 200
    with a row whose seven statement-of-affairs fields are empty and
    whose [accountantFirmName] is empty or the non-empty value a fallback
    extraction returned. *)
Lemma server_without_statement_of_affairs
      (w : World) (body : Body) (number key : string)
      (t0 : list Event) (c : CompanyData) (fd : FilingData)
      (d : option string) :
  nonempty (companyNumber body) = Some number ->
  nonempty (chApiKey body) = Some key ->
  lookups w number (authHeader key) = (t0, Ok (c, fd, d)) ->
  (forall item, In item (itemsOf fd) -> isStatementOfAffairs item = false) ->
  exists t reply,
    extract w body = (t0 ++ t, reply)
    /\ isRow reply = true
    /\ quiet (t0 ++ t)
    /\ Forall (fun k => field reply k = JStr "") soaOnlyFields
    /\ (field reply "accountantFirmName" = JStr ""
        \/ (Js.truthy (field reply "accountantFirmName") = true
            /\ exists j, In j (extractions t))).
Proof.
  intros Hn Hk Hlook Hnone.
  assert (Hlink : soaLink (soaItem fd) = None).
  { unfold soaItem. now rewrite (proj2 (find_none_iff _ _) Hnone). }
  destruct (skipped_primary_pass w body number key t0 c fd d Hn Hk Hlook Hlink)
    as (t & reply & H1 & _ & H2).
  exists t, reply. auto.
Qed.

(** C10. A candidate without a document link is passed over in
    silence.  An insolvency candidate without one makes the primary
    pass do nothing (no call, the record stays empty), and the handler
    goes on to a row.  In the fallback loop such a candidate costs no
    call: the loop behaves as on the remaining candidates, and the
    position of an unlinked candidate never shows among the downloads
    or the extractions, so it cannot be the one that succeeds. *)
Theorem unlinked_candidates_are_skipped (w : World) (auth : string) :
  (forall item,
      document_metadata_of item = None ->
      primaryPass w auth (Some item) = ([], Ok (JObj [])))
  /\ (forall body number key t0 c fd d item,
        nonempty (companyNumber body) = Some number ->
        nonempty (chApiKey body) = Some key ->
        lookups w number (authHeader key) = (t0, Ok (c, fd, d)) ->
        soaItem fd = Some item ->
        document_metadata_of item = None ->
        exists t reply,
          extract w body = (t0 ++ t, reply)
          /\ isRow reply = true /\ quiet (t0 ++ t))
  /\ (forall i item rest extractedData,
        document_metadata_of item = None ->
        fallbackLoop w auth i (item :: rest) extractedData
        = fallbackLoop w auth (S i) rest extractedData)
  /\ (forall candidates extractedData k item,
        nth_error candidates k = Some item ->
        document_metadata_of item = None ->
        let t := fst (fallbackLoop w auth 0 candidates extractedData) in
        ~ In k (downloads t) /\ ~ In k (extractions t)).
Proof.
  split; [|split; [|split]].
  - intros item Hl. unfold primaryPass. simpl. now rewrite Hl.
  - intros body number key t0 c fd d item Hn Hk Hlook Hsel Hl.
    assert (Hlink : soaLink (soaItem fd) = None)
      by (rewrite Hsel; exact Hl).
    destruct (skipped_primary_pass w body number key t0 c fd d
                                   Hn Hk Hlook Hlink)
      as (t & reply & H1 & _ & H2 & H3 & _).
    exists t, reply. auto.
  - intros i item rest ed Hl. now apply fallbackLoop_unlinked.
  - intros candidates ed k item Hk Hl t.
    destruct (fallbackLoop_sites w auth candidates 0 ed) as [Hd He].
    fold t in Hd, He.
    assert (Hnot : ~ In k (linked 0 candidates)).
    { intros Hin. apply linked_In in Hin.
      destruct Hin as (k' & item' & Heq & Hk' & Hl').
      simpl in Heq. subst k'. congruence. }
    split; intros Hin; apply Hnot; auto.
Qed.

Lemma unlinked_candidates_are_skipped_witness :
  primaryPass Scenario.unlinkedWorld (authHeader "secret")
              (Some (Scenario.unlinked "insolvency" "statement-of-affairs"))
  = ([], Ok (JObj []))
  /\ (exists t reply,
        extract Scenario.unlinkedWorld Scenario.request
        = (fst (lookups Scenario.unlinkedWorld "11969947" (authHeader "secret"))
             ++ t, reply)
        /\ isRow reply = true
        /\ quiet (fst (lookups Scenario.unlinkedWorld "11969947"
                               (authHeader "secret")) ++ t))
  /\ (let t := fst (fallbackLoop Scenario.unlinkedWorld (authHeader "secret") 0
                                 [Scenario.unlinked "accounts" "dormant";
                                  Scenario.accounts "2"] (JObj [])) in
      ~ In 0%nat (downloads t) /\ ~ In 0%nat (extractions t)).
Proof.
  pose proof (unlinked_candidates_are_skipped
                Scenario.unlinkedWorld (authHeader "secret"))
    as (H1 & H2 & _ & H4).
  split; [|split].
  - apply H1. reflexivity.
  - apply (H2 Scenario.request "11969947" "secret" _ Scenario.acme
              {| items := Some [Scenario.unlinked "insolvency" "liquidation-voluntary-statement-of-affairs";
                                Scenario.unlinked "accounts" "accounts-with-accounts-type-dormant";
                                Scenario.accounts "2"] |}
              (Some "")
              (Scenario.unlinked "insolvency" "liquidation-voluntary-statement-of-affairs"));
      reflexivity.
  - apply (H4 _ _ 0%nat (Scenario.unlinked "accounts" "dormant"));
      reflexivity.
Defined.

(* ---------------------------------------------------------------- *)
(** ** The end-to-end scenarios of the specification *)

Example acme_row :
  let reply := snd (extract Scenario.acmeWorld Scenario.request) in
  isRow reply = true
  /\ field reply "companyNumber" = JStr "11969947"
  /\ field reply "companyName" = JStr "ACME LTD"
  /\ field reply "totalAssets" = JStr "100000"
  /\ field reply "odla" = JStr ""
  /\ field reply "accountantFirmName" = JStr "Smith & Co"
  /\ field reply "accountantUrl" = JStr "https://smithco.example".
Proof. vm_compute. repeat split. Qed.

Example jones_row :
  let run := extract Scenario.jonesWorld Scenario.request in
  field (snd run) "accountantFirmName" = JStr "Jones LLP"
  /\ extractions (fst run) = [0; 1]%nat.
Proof. vm_compute. repeat split. Qed.

(* ---------------------------------------------------------------- *)
(** ** The shape of a row *)

(** Every row the handler sends is the object literal of lines
    194-208, serialised. *)
Lemma extract_row_shape w body t reply :
  extract w body = (t, reply) ->
  isRow reply = true ->
  exists c d eth final url, reply = success (rowOf c d eth final url).
Proof.
  unfold extract.
  destruct (nonempty (companyNumber body)) as [number|];
    [|intros [= _ <-]; discriminate].
  destruct (nonempty (chApiKey body)) as [key|];
    [|intros [= _ <-]; discriminate].
  destruct (pipeline w number key) as [t' [row|m]] eqn:Hp;
    [|intros [= _ <-]; discriminate].
  intros [= _ <-] _.
  unfold pipeline, Eff.bind in Hp.
  destruct (lookups w number (authHeader key)) as [t0 [[[c fd] d]|m]];
    [|discriminate].
  unfold afterLookups, Eff.bind in Hp.
  destruct (primaryPass w (authHeader key) (soaItem fd)) as [t1 [ed|m]];
    [|discriminate].
  destruct (afterPrimary w (authHeader key) c fd d ed) as [t2 [row'|m]] eqn:Ha;
    [|discriminate].
  injection Hp as _ <-.
  destruct (afterPrimary_row _ _ _ _ _ _ _ _ Ha) as (eth & final & url & ->).
  eauto 6.
Qed.

(** In every row, the eight fields written [extractedData.k || ""]
    are present. *)
Lemma row_never_lacks_defaulted_fields w body t reply k :
  extract w body = (t, reply) ->
  isRow reply = true ->
  In k soaFields ->
  field reply k <> JUndefined.
Proof.
  intros He Hr Hin.
  destruct (extract_row_shape w body t reply He Hr)
    as (c & d & eth & final & url & ->).
  now apply row_fields_present.
Qed.

(** *** Rows under a provider that keeps to the schema *)

Lemma lookup_conforms k ps :
  forallb (fun p => Js.is_string (snd p)) ps = true ->
  Js.lookup k ps = JUndefined \/ Js.is_string (Js.lookup k ps) = true.
Proof.
  induction ps as [|[k' v] ps IH]; simpl; [now left|].
  intros H. apply andb_prop in H. destruct H as [Hv Hps].
  destruct (k' =? k); auto.
Qed.

Lemma update_conforms k v ps :
  Js.is_string v = true ->
  forallb (fun p => Js.is_string (snd p)) ps = true ->
  forallb (fun p => Js.is_string (snd p)) (Js.update k v ps) = true.
Proof.
  intros Hv. induction ps as [|[k' v'] ps IH]; simpl.
  - now rewrite Hv.
  - intros H. apply andb_prop in H. destruct H as [Hv' Hps].
    destruct (k' =? k); simpl.
    + now rewrite Hv, Hps.
    + now rewrite Hv', IH.
Qed.

Lemma parsed_conforms w s r txt v :
  schematic w ->
  generateContent w s r = Ok txt ->
  parse_or_empty txt = Ok v ->
  conforms v = true.
Proof.
  intros Hw Hg. destruct txt as [|m|x]; simpl; intros [= <-]; auto.
  now apply (Hw s r).
Qed.

Lemma get_conforms v k x :
  conforms v = true ->
  Js.get v k = Ok x ->
  x = JUndefined \/ Js.is_string x = true.
Proof.
  destruct v; try discriminate. simpl. intros H [= <-].
  now apply lookup_conforms.
Qed.

Lemma extractFirmName_conforms w auth i link v :
  schematic w ->
  snd (extractFirmName w auth i link) = Ok v ->
  v = JUndefined \/ Js.is_string v = true.
Proof.
  intros Hw. unfold extractFirmName, Eff.bind, generate, Eff.call, Eff.lift.
  destruct (downloadPdf w auth (Fallback i) link) as [t [pdf|m]];
    [|discriminate].
  destruct (generateContent w (Fallback i) (accRequest pdf)) as [txt|m] eqn:Hg;
    [|discriminate]. simpl.
  destruct (parse_or_empty txt) as [accData|m] eqn:Hp; [|discriminate]. simpl.
  destruct (Js.get accData "accountantFirmName") as [x|m] eqn:Hx;
    [|discriminate]. simpl.
  intros [= <-].
  eapply get_conforms; [|exact Hx].
  eapply parsed_conforms; eauto.
Qed.

Lemma fallbackLoop_conforms w auth l :
  schematic w ->
  forall i extractedData,
    conforms extractedData = true ->
    conforms (snd (fallbackLoop w auth i l extractedData)) = true.
Proof.
  intros Hw. induction l as [|a l IH]; intros i ed Hed; [exact Hed|].
  destruct (document_metadata_of a) as [link|] eqn:Hl.
  - rewrite (fallbackLoop_linked _ _ _ _ _ _ _ Hl).
    destruct (stored w auth i link ed) as [updated|] eqn:Hs; simpl; auto.
    unfold stored in Hs.
    destruct (snd (extractFirmName w auth i link)) as [v|m] eqn:Hv;
      [|discriminate].
    destruct (Js.truthy v) eqn:Htr; [|discriminate].
    destruct (extractFirmName_conforms w auth i link v Hw Hv) as [->|Hstr];
      [discriminate|].
    destruct ed; try discriminate. simpl in Hs. injection Hs as <-.
    simpl. now apply update_conforms.
  - rewrite (fallbackLoop_unlinked _ _ _ _ _ _ Hl). auto.
Qed.

Lemma primaryPass_conforms w auth soa t extractedData :
  schematic w ->
  primaryPass w auth soa = (t, Ok extractedData) ->
  conforms extractedData = true.
Proof.
  intros Hw. unfold primaryPass.
  destruct (soaLink soa) as [link|]; [|intros [= _ <-]; reflexivity].
  unfold Eff.catch, Eff.bind, generate, Eff.call, Eff.lift, Eff.ret.
  destruct (downloadPdf w auth Primary link) as [t0 [pdf|m]];
    [|intros [= _ <-]; reflexivity].
  destruct (generateContent w Primary (soaRequest pdf)) as [txt|m] eqn:Hg;
    [|intros [= _ <-]; reflexivity]. simpl.
  destruct (parse_or_empty txt) as [v|m] eqn:Hp; simpl;
    [|intros [= _ <-]; reflexivity].
  intros [= _ <-]. eapply parsed_conforms; eauto.
Qed.

Lemma fallbackPass_conforms w auth l extractedData t final :
  schematic w ->
  conforms extractedData = true ->
  fallbackPass w auth l extractedData = (t, Ok final) ->
  conforms final = true.
Proof.
  intros Hw Hed. unfold fallbackPass, Eff.bind, Eff.lift, Eff.ret.
  destruct (Js.get extractedData "accountantFirmName") as [v|m];
    [|discriminate].
  destruct (negb (Js.truthy v) && (0 <? length l)%nat).
  - pose proof (fallbackLoop_conforms w auth l Hw 0 extractedData Hed) as H.
    destruct (fallbackLoop w auth 0 l extractedData) as [t' final'].
    simpl in *. now intros [= _ <-].
  - simpl. now intros [= _ <-].
Qed.

Lemma ethnicityStep_conforms w d t eth :
  schematic w ->
  ethnicityStep w d = (t, Ok eth) ->
  eth = JUndefined \/ Js.is_string eth = true.
Proof.
  intros Hw. unfold ethnicityStep.
  destruct (nonempty d) as [n|]; [|intros [= _ <-]; now right].
  unfold Eff.catch, Eff.bind, generate, Eff.call, Eff.lift, Eff.ret.
  destruct (generateContent w Ethnicity (ethnicityRequest n)) as [txt|m] eqn:Hg;
    simpl; [|intros [= _ <-]; now right].
  destruct (parse_or_empty txt) as [parsed|m] eqn:Hp; simpl;
    [|intros [= _ <-]; now right].
  destruct (Js.get parsed "ethnicity") as [e|m] eqn:He; simpl;
    [|intros [= _ <-]; now right].
  intros [= _ <-].
  eapply get_conforms; [|exact He]. eapply parsed_conforms; eauto.
Qed.

Lemma read_conforms extractedData k :
  conforms extractedData = true ->
  Js.is_string (read extractedData k) = true.
Proof.
  destruct extractedData; try discriminate. simpl. intros H.
  unfold read. simpl. unfold Js.or.
  destruct (lookup_conforms k props H) as [->|Hs]; [reflexivity|].
  now destruct (Js.truthy (Js.lookup k props)).
Qed.

(** With a provider that keeps to the schema, the fields of a row that
    come from the AI are strings: the eight fields of the extraction
    schema always, and [ethnicity] unless it is missing.  Nothing is
    said of the fields that come from the registry or from the search,
    which the schema does not constrain. *)
Lemma conforming_rows_hold_strings w body t reply :
  schematic w ->
  extract w body = (t, reply) ->
  isRow reply = true ->
  (forall k, In k soaFields -> Js.is_string (field reply k) = true)
  /\ (field reply "ethnicity" = JUndefined
      \/ Js.is_string (field reply "ethnicity") = true).
Proof.
  intros Hw. unfold extract.
  destruct (nonempty (companyNumber body)) as [number|];
    [|intros [= _ <-]; discriminate].
  destruct (nonempty (chApiKey body)) as [key|];
    [|intros [= _ <-]; discriminate].
  destruct (pipeline w number key) as [t' [row|m]] eqn:Hp;
    [|intros [= _ <-]; discriminate].
  intros [= _ <-] _.
  unfold pipeline, Eff.bind in Hp.
  destruct (lookups w number (authHeader key)) as [t0 [[[c fd] d]|m]];
    [|discriminate].
  unfold afterLookups, Eff.bind in Hp.
  destruct (primaryPass w (authHeader key) (soaItem fd)) as [t1 [ed|m]] eqn:H1;
    [|discriminate].
  pose proof (primaryPass_conforms _ _ _ _ _ Hw H1) as Hed.
  unfold afterPrimary, Eff.bind in Hp.
  destruct (fallbackPass w (authHeader key) (accountItems fd) ed)
    as [t2 [final|m]] eqn:H2; [|discriminate].
  pose proof (fallbackPass_conforms _ _ _ _ _ _ Hw Hed H2) as Hfinal.
  destruct (ethnicityStep w d) as [t3 [eth|m]] eqn:H3; [|discriminate].
  pose proof (ethnicityStep_conforms _ _ _ _ Hw H3) as Heth.
  destruct (webSearch w final) as [t4 [url|m]]; [|discriminate].
  rewrite combined_run in Hp.
  destruct (Js.get final "totalAssets"); [|discriminate].
  injection Hp as _ <-.
  split.
  - intros k Hin. rewrite field_success, wire_string.
    unfold soaFields in Hin. cbn [In] in Hin.
    repeat (destruct Hin as [<-|Hin]; [cbn; now apply read_conforms|]).
    destruct Hin.
  - rewrite row_ethnicity.
    destruct Heth as [->|Hs]; [now left|right; now rewrite wire_string].
Qed.

(** The world of the failing input below keeps to the schema: its AI
    answers are objects of string properties (none, here). *)
Lemma directorWorld_schematic : schematic Scenario.directorWorld.
Proof. intros s r v [= <-]. reflexivity. Qed.

(** C7 (failing input). A director is on file and the AI answers the
    ethnicity question with the object [{}]: the handler replies 200
    with a row that has no [ethnicity] key at all, where the
    specification promises the empty string. *)
Theorem ethnicity_missing_from_row :
  let reply := snd (extract Scenario.directorWorld Scenario.request) in
  isRow reply = true
  /\ field reply "directorName" = JStr "DOE, Jane"
  /\ Js.has (reply_json reply) "ethnicity" = false
  /\ field reply "ethnicity" = JUndefined
  /\ snd (ethnicityStep Scenario.directorWorld (Some "DOE, Jane"))
     = Ok JUndefined.
Proof. vm_compute. repeat split. Qed.

End ServerProofs.

(* ================================================================== *)
(** * vite.config.ts: redirects *)
(* ================================================================== *)

Module PdfProxyProofs.
Import PdfProxy.

(** The run of the middleware once the metadata names a document and
    the document endpoint has answered. *)
Lemma chain_after_document w targetUrl apiKey r meta docUrlLocal docRes :
  fetchMetadata w (metaRequest targetUrl apiKey) = Responded r ->
  payload r = Ok meta ->
  documentLink meta = Some docUrlLocal ->
  fetchDocument w (docRequest docUrlLocal apiKey) = Responded docRes ->
  chain w targetUrl apiKey
  = ([EvFetch MetadataLookup (metaRequest targetUrl apiKey);
      EvFetch DocumentRequest (docRequest docUrlLocal apiKey);
      EvFetch StorageDownload (s3Request (s3Url docUrlLocal docRes))],
     match settle (fetchStorage w (s3Request (s3Url docUrlLocal docRes))) with
     | Ok s3Res =>
         match payload s3Res with
         | Ok buffer => Ok (Base64.encode buffer)
         | Thrown m => Thrown m
         end
     | Thrown m => Thrown m
     end).
Proof.
  intros Hm Hp Hl Hd.
  unfold chain, Eff.bind, Eff.call, Eff.lift, Eff.ret, Eff.throw.
  rewrite Hm. simpl. rewrite Hp. simpl. rewrite Hl, Hd. simpl.
  destruct (settle (fetchStorage w _)) as [s3Res|m]; simpl; auto.
  destruct (payload s3Res); reflexivity.
Qed.

(** C3 (as amended). When the document endpoint, asked with
    [redirect: 'manual'], answers 3xx with a non-empty [Location] X,
    the next and last request of the middleware goes to exactly X and
    carries no header at all, hence no [Authorization]. *)
Theorem redirect_followed_without_credential
        (w : World) (h : Headers) (targetUrl apiKey : string)
        (r : Response Meta) (meta : Meta) (docUrlLocal : string)
        (docRes : Response unit) (X : string) :
  nonempty (x_target_url h) = Some targetUrl ->
  nonempty (x_api_key h) = Some apiKey ->
  fetchMetadata w (metaRequest targetUrl apiKey) = Responded r ->
  payload r = Ok meta ->
  documentLink meta = Some docUrlLocal ->
  fetchDocument w (docRequest docUrlLocal apiKey) = Responded docRes ->
  (300 <= status docRes < 400)%Z ->
  location docRes = Some X ->
  X <> "" ->
  exists last,
    requests (fst (ch_pdf_proxy w h))
    = [metaRequest targetUrl apiKey; docRequest docUrlLocal apiKey; last]
    /\ url last = X
    /\ headers last = []
    /\ authorized last = false.
Proof.
  intros Ht Hk Hm Hp Hl Hd Hs Hloc HX.
  exists (s3Request X).
  unfold ch_pdf_proxy. rewrite Ht, Hk.
  rewrite (chain_after_document w _ _ _ _ _ _ Hm Hp Hl Hd).
  assert (Hs3 : s3Url docUrlLocal docRes = X).
  { unfold s3Url.
    replace ((300 <=? status docRes) && (status docRes <? 400))%Z with true
      by (symmetry; apply andb_true_intro; split;
          [apply Z.leb_le|apply Z.ltb_lt]; lia).
    rewrite Hloc. simpl.
    destruct (X =? "") eqn:E; auto.
    apply String.eqb_eq in E. contradiction. }
  rewrite Hs3.
  destruct (settle (fetchStorage w (s3Request X))) as [s3Res|m]; simpl.
  - destruct (payload s3Res); simpl; auto.
  - auto.
Qed.

Lemma redirect_followed_without_credential_witness :
  exists last,
    requests (fst (ch_pdf_proxy (Scenario.redirecting (Some "https://s3/abc"))
                                Scenario.proxyHeaders))
    = [metaRequest "https://reg/doc/1" "secret";
       docRequest "https://reg/doc/1/content" "secret"; last]
    /\ url last = "https://s3/abc"
    /\ headers last = []
    /\ authorized last = false.
Proof.
  apply (redirect_followed_without_credential
           (Scenario.redirecting (Some "https://s3/abc")) Scenario.proxyHeaders
           "https://reg/doc/1" "secret" _ Scenario.documentMeta
           "https://reg/doc/1/content" _ "https://s3/abc"
           eq_refl eq_refl eq_refl eq_refl eq_refl eq_refl).
  - simpl. lia.
  - reflexivity.
  - discriminate.
Defined.

(** C3 (counterexample). The document endpoint answers 302 with an
    empty [Location]: the middleware asks the document URL again and
    sends no request to the (empty) location; and the second request
    of the middleware, the one that was redirected, is the
    authenticated one. *)
Lemma empty_location_not_followed :
  let t := fst (ch_pdf_proxy (Scenario.redirecting (Some ""))
                             Scenario.proxyHeaders) in
  requests t
  = [metaRequest "https://reg/doc/1" "secret";
     docRequest "https://reg/doc/1/content" "secret";
     s3Request "https://reg/doc/1/content"]
  /\ (forall r, In r (requests t) -> url r <> "")
  /\ authorized (docRequest "https://reg/doc/1/content" "secret") = true.
Proof.
  vm_compute. repeat split.
  intros r [<-|[<-|[<-|[]]]]; discriminate.
Qed.

(** C4 (as amended). When the document endpoint answers 3xx without a
    usable [Location], the middleware does not fail for that: it asks
    again, without credentials, the document URL it had taken from the
    metadata (the URL of the redirected request), and if that request
    and the reading of its body complete it replies with the body in
    base64, whatever the status. *)
Theorem missing_location_retries_document_url
        (w : World) (h : Headers) (targetUrl apiKey : string)
        (r : Response Meta) (meta : Meta) (docUrlLocal : string)
        (docRes : Response unit) (s3Res : Response string) (buffer : string) :
  nonempty (x_target_url h) = Some targetUrl ->
  nonempty (x_api_key h) = Some apiKey ->
  fetchMetadata w (metaRequest targetUrl apiKey) = Responded r ->
  payload r = Ok meta ->
  documentLink meta = Some docUrlLocal ->
  fetchDocument w (docRequest docUrlLocal apiKey) = Responded docRes ->
  (300 <= status docRes < 400)%Z ->
  nonempty (location docRes) = None ->
  fetchStorage w (s3Request docUrlLocal) = Responded s3Res ->
  payload s3Res = Ok buffer ->
  ch_pdf_proxy w h
  = ([EvFetch MetadataLookup (metaRequest targetUrl apiKey);
      EvFetch DocumentRequest (docRequest docUrlLocal apiKey);
      EvFetch StorageDownload (s3Request docUrlLocal)],
     {| statusCode := 200;
        written := JObj [("success", JBool true);
                         ("base64", JStr (Base64.encode buffer))] |}).
Proof.
  intros Ht Hk Hm Hp Hl Hd Hs Hloc Hs3 Hb.
  unfold ch_pdf_proxy. rewrite Ht, Hk.
  rewrite (chain_after_document w _ _ _ _ _ _ Hm Hp Hl Hd).
  assert (Hu : s3Url docUrlLocal docRes = docUrlLocal).
  { unfold s3Url. rewrite Hloc.
    now destruct ((300 <=? status docRes) && (status docRes <? 400))%Z. }
  rewrite Hu, Hs3. simpl. rewrite Hb. reflexivity.
Qed.

Lemma missing_location_retries_document_url_witness :
  ch_pdf_proxy (Scenario.redirecting None) Scenario.proxyHeaders
  = ([EvFetch MetadataLookup (metaRequest "https://reg/doc/1" "secret");
      EvFetch DocumentRequest (docRequest "https://reg/doc/1/content" "secret");
      EvFetch StorageDownload (s3Request "https://reg/doc/1/content")],
     {| statusCode := 200;
        written := JObj [("success", JBool true);
                         ("base64", JStr (Base64.encode "PDF"))] |}).
Proof.
  apply (missing_location_retries_document_url
           (Scenario.redirecting None) Scenario.proxyHeaders
           "https://reg/doc/1" "secret" _ Scenario.documentMeta
           "https://reg/doc/1/content" _ (Scenario.okResponse "PDF") "PDF"
           eq_refl eq_refl eq_refl eq_refl eq_refl eq_refl).
  - simpl. lia.
  - reflexivity.
  - reflexivity.
  - reflexivity.
Defined.

(** C4 (counterexample). The caller supplies the metadata URL
    [https://reg/doc/1]; after a 302 without [Location] the retry goes
    to the document URL named by the metadata, and no unauthenticated
    request goes to the URL the caller supplied. *)
Lemma retry_is_not_to_the_supplied_url :
  let t := fst (ch_pdf_proxy (Scenario.redirecting None)
                             Scenario.proxyHeaders) in
  PdfProxy.x_target_url Scenario.proxyHeaders = Some "https://reg/doc/1"
  /\ nth_error (requests t) 2 = Some (s3Request "https://reg/doc/1/content")
  /\ ~ In (s3Request "https://reg/doc/1") (requests t)
  /\ length (requests t) = 3%nat.
Proof.
  vm_compute. repeat split.
  intros [H|[H|[H|[]]]]; discriminate H.
Qed.

End PdfProxyProofs.

(* ================================================================== *)
(** * src/App.tsx: no statement of affairs *)
(* ================================================================== *)

Module BrowserProofs.
Import Browser.

(** The selection loop of lines 62-68 ends empty-handed exactly when no
    item both matches and carries a document link. *)
Lemma soaMeta_none_iff history :
  soaMeta history = None
  <-> forall item, In item history ->
                   matches item = false \/ document_metadata_of item = None.
Proof.
  induction history as [|a l IH]; simpl.
  - split; auto. intros _ item [].
  - destruct (matches a) eqn:Hm.
    + destruct (document_metadata_of a) as [link|] eqn:Hl.
      * split; [discriminate|]. intros H.
        destruct (H a (or_introl eq_refl)); congruence.
      * rewrite IH. split.
        -- intros H item [<-|Hin]; auto.
        -- intros H item Hin. apply H. now right.
    + rewrite IH. split.
      * intros H item [<-|Hin]; auto.
      * intros H item Hin. apply H. now right.
Qed.

(** Otherwise it ends with the link of the first item that both matches
    and carries one. *)
Lemma soaMeta_first_linked_match history link :
  soaMeta history = Some link ->
  exists before item after,
    history = before ++ item :: after
    /\ matches item = true
    /\ document_metadata_of item = Some link
    /\ (forall x, In x before ->
                  matches x = false \/ document_metadata_of x = None).
Proof.
  induction history as [|a l IH]; simpl; [discriminate|].
  assert (Hrest : soaMeta l = Some link ->
                  matches a = false \/ document_metadata_of a = None ->
                  exists before item after,
                    a :: l = before ++ item :: after
                    /\ matches item = true
                    /\ document_metadata_of item = Some link
                    /\ (forall x, In x before ->
                                  matches x = false
                                  \/ document_metadata_of x = None)).
  { intros H Ha. destruct (IH H) as (before & item & after & -> & Hm & Hl & Hb).
    exists (a :: before), item, after. repeat split; auto.
    intros x [<-|Hx]; auto. }
  destruct (matches a) eqn:Hm.
  - destruct (document_metadata_of a) as [l0|] eqn:Hl.
    + intros [= ->]. exists [], a, l. repeat split; auto. intros x [].
    + intros H. apply Hrest; auto.
  - intros H. apply Hrest; auto.
Qed.

(** When its selection loop finds no linked candidate, [handleExtract]
    stops with an error: no row is added and neither the PDF proxy nor
    the AI is called.  The run gets that far when [btoa] accepted the
    key, the profile answered 2xx and both bodies were JSON. *)
Lemma handleExtract_without_candidate
      w s auth detailsRes details historyRes history :
  chApiKey s <> "" -> geminiApiKey s <> "" -> companyNumber s <> "" ->
  authHeader s = Some auth ->
  fetchDetails w (detailsRequest s auth) = Responded detailsRes ->
  ok detailsRes = true ->
  payload detailsRes = Ok details ->
  fetchHistory w (historyRequest s auth) = Responded historyRes ->
  payload historyRes = Ok history ->
  soaMeta (historyItems history) = None ->
  let run := handleExtract w s in
  error_text (snd run)
  = "Extraction Failed: No Statement of Affairs found in the filing history."
  /\ rows (snd run) = rows s
  /\ fst run = [EvStep 1; EvFetch Details (detailsRequest s auth);
                EvStep 2; EvFetch History (historyRequest s auth)].
Proof.
  destruct s as [ck gk cn lo st er rs].
  intros Hc Hg Hn Ha Hd Hok Hp Hh Hph Hsoa.
  unfold handleExtract.
  apply String.eqb_neq in Hc, Hg, Hn.
  unfold extraction, step, Eff.bind, Eff.call, Eff.throw, Eff.lift, Eff.ret.
  unfold detailsRequest, historyRequest, authHeader in *.
  cbn [chApiKey geminiApiKey companyNumber rows activeStep error_text loading
       setError setLoading setActiveStep setResults] in *.
  rewrite Hc, Hg, Hn. cbn [orb]. rewrite Ha.
  rewrite Hd. cbn [settle]. rewrite Hok. cbn [negb]. rewrite Hp.
  rewrite Hh. cbn [settle]. rewrite Hph. rewrite Hsoa.
  repeat split.
Qed.

(** C8 (counterexample). A history of accounts filings only: no item
    matches the insolvency predicate, and [handleExtract] aborts with
    "No Statement of Affairs found in the filing history." instead of
    producing a row. *)
Lemma browser_aborts_without_statement_of_affairs :
  (forall item, In item Scenario.jonesHistory ->
                Server.isStatementOfAffairs item = false)
  /\ (let run := handleExtract Scenario.browserWorld Scenario.browserState in
      error_text (snd run)
      = "Extraction Failed: No Statement of Affairs found in the filing history."
      /\ rows (snd run) = []
      /\ fst run
         = [EvStep 1;
            EvFetch Details
                    {| url := "/api/ch/company/11969947";
                       headers := [("Authorization", "Basic c2VjcmV0Og==")];
                       redirect := RedirectFollow |};
            EvStep 2;
            EvFetch History
                    {| url := "/api/ch/company/11969947/filing-history";
                       headers := [("Authorization", "Basic c2VjcmV0Og==")];
                       redirect := RedirectFollow |}]).
Proof.
  split.
  - intros item [<-|[<-|[<-|[]]]]; reflexivity.
  - vm_compute. repeat split.
Qed.

(** C8 (as amended). A filing history without any insolvency item is
    not an error for the server pipeline: once its registry lookups have
    completed, the handler makes no call of the primary pass and replies
    with a row whose seven statement-of-affairs fields are empty and
    whose [accountantFirmName] is empty or the value a fallback
    extraction returned.  The browser caller is the exception: when its
    selection finds no linked candidate, [handleExtract] stops after the
    two registry requests with "No Statement of Affairs found in the
    filing history." and adds no row.  (The run reaches the selection
    when [btoa] accepted the key, the profile answered 2xx and both
    bodies were JSON.) *)
Theorem no_statement_of_affairs_outcome :
  (forall (w : Server.World) (body : Server.Body) (number key : string)
          (t0 : list Server.Event) (c : CompanyData) (fd : FilingData)
          (d : option string),
      nonempty (Server.companyNumber body) = Some number ->
      nonempty (Server.chApiKey body) = Some key ->
      Server.lookups w number (Server.authHeader key) = (t0, Ok (c, fd, d)) ->
      (forall item, In item (Server.itemsOf fd) ->
                    Server.isStatementOfAffairs item = false) ->
      exists t reply,
        Server.extract w body = (t0 ++ t, reply)
        /\ Server.isRow reply = true
        /\ Server.quiet (t0 ++ t)
        /\ Forall (fun k => Server.field reply k = JStr "") Server.soaOnlyFields
        /\ (Server.field reply "accountantFirmName" = JStr ""
            \/ (Js.truthy (Server.field reply "accountantFirmName") = true
                /\ exists j, In j (Server.extractions t))))
  /\ (forall (w : World) (s : State) auth detailsRes details
             historyRes history,
        chApiKey s <> "" -> geminiApiKey s <> "" -> companyNumber s <> "" ->
        authHeader s = Some auth ->
        fetchDetails w (detailsRequest s auth) = Responded detailsRes ->
        ok detailsRes = true ->
        payload detailsRes = Ok details ->
        fetchHistory w (historyRequest s auth) = Responded historyRes ->
        payload historyRes = Ok history ->
        soaMeta (historyItems history) = None ->
        let run := handleExtract w s in
        error_text (snd run)
        = "Extraction Failed: No Statement of Affairs found in the filing history."
        /\ rows (snd run) = rows s
        /\ fst run = [EvStep 1; EvFetch Details (detailsRequest s auth);
                      EvStep 2; EvFetch History (historyRequest s auth)]).
Proof.
  split.
  - exact ServerProofs.server_without_statement_of_affairs.
  - intros w s auth detailsRes details historyRes history
           Hc Hg Hn Ha Hd Hok Hp Hh Hph Hsoa.
    exact (handleExtract_without_candidate w s auth detailsRes details
                                           historyRes history
                                           Hc Hg Hn Ha Hd Hok Hp Hh Hph Hsoa).
Qed.

Lemma no_statement_of_affairs_outcome_witness :
  (exists t reply,
      Server.extract Scenario.jonesWorld Scenario.request
      = (fst (Server.lookups Scenario.jonesWorld "11969947"
                             (Server.authHeader "secret")) ++ t, reply)
      /\ Server.isRow reply = true
      /\ Server.quiet (fst (Server.lookups Scenario.jonesWorld "11969947"
                                           (Server.authHeader "secret")) ++ t)
      /\ Forall (fun k => Server.field reply k = JStr "") Server.soaOnlyFields
      /\ (Server.field reply "accountantFirmName" = JStr ""
          \/ (Js.truthy (Server.field reply "accountantFirmName") = true
              /\ exists j, In j (Server.extractions t))))
  /\ (let run := handleExtract Scenario.browserWorld Scenario.browserState in
      error_text (snd run)
      = "Extraction Failed: No Statement of Affairs found in the filing history."
      /\ rows (snd run) = []
      /\ fst run
         = [EvStep 1;
            EvFetch Details
                    (detailsRequest Scenario.browserState
                                    [("Authorization", "Basic c2VjcmV0Og==")]);
            EvStep 2;
            EvFetch History
                    (historyRequest Scenario.browserState
                                    [("Authorization", "Basic c2VjcmV0Og==")])]).
Proof.
  split.
  - apply (proj1 no_statement_of_affairs_outcome
                 Scenario.jonesWorld Scenario.request "11969947" "secret"
                 (fst (Server.lookups Scenario.jonesWorld "11969947"
                                      (Server.authHeader "secret")))
                 Scenario.acme {| items := Some Scenario.jonesHistory |}
                 (Some ""));
      try reflexivity.
    intros item Hin. simpl in Hin.
    destruct Hin as [<-|[<-|[<-|[]]]]; reflexivity.
  - apply (proj2 no_statement_of_affairs_outcome
                 Scenario.browserWorld Scenario.browserState
                 [("Authorization", "Basic c2VjcmV0Og==")]
                 (Scenario.okResponse Scenario.acme) Scenario.acme
                 (Scenario.okResponse {| items := Some Scenario.jonesHistory |})
                 {| items := Some Scenario.jonesHistory |});
      try reflexivity; discriminate.
Defined.

End BrowserProofs.

(* ================================================================== *)
(** * server.ts: the steps around the claims *)
(* ================================================================== *)

Module ServerCoverage.
Import Server ServerLog ServerProofs.

(** ** Logs of sequenced steps *)

Lemma bind_events {E A B} (m : @Eff.M E A) (f : A -> @Eff.M E B) :
  fst (Eff.bind m f)
  = fst m ++ match snd m with
             | Ok a => fst (f a)
             | Thrown _ => []
             end.
Proof.
  destruct m as [t [a|e]]; simpl.
  - now destruct (f a).
  - now rewrite app_nil_r.
Qed.

Lemma bind_ok {E A B} (m : @Eff.M E A) (f : A -> @Eff.M E B) t a :
  m = (t, Ok a) ->
  Eff.bind m f = (t ++ fst (f a), snd (f a)).
Proof. intros ->. simpl. now destruct (f a). Qed.

Lemma bind_thrown {E A B} (m : @Eff.M E A) (f : A -> @Eff.M E B) t e :
  m = (t, Thrown e) -> Eff.bind m f = (t, Thrown e).
Proof. now intros ->. Qed.

(** ** The registry lookups (lines 19-50) *)

(** The lookups either all complete, or stop with an error at the first
    one that fails. *)
Lemma lookups_shape w number auth :
  (exists c fd d,
      lookups w number auth = (registryLookups number auth, Ok (c, fd, d)))
  \/ (exists n m,
         (1 <= n <= 3)%nat
         /\ lookups w number auth
            = (firstn n (registryLookups number auth), Thrown m)).
Proof.
  unfold lookups, companyDetails, filingHistory, director, registryLookups.
  unfold Eff.bind, Eff.call, Eff.throw, Eff.lift, Eff.ret.
  destruct (settle (fetchCompany w _)) as [r1|m];
    [|right; exists 1%nat, m; split; [lia|reflexivity]]. simpl.
  destruct (ok r1); simpl;
    [|right; eexists 1%nat, _; split; [lia|reflexivity]].
  destruct (payload r1) as [c|m]; simpl;
    [|right; exists 1%nat, m; split; [lia|reflexivity]].
  destruct (settle (fetchFilingHistory w _)) as [r2|m]; simpl;
    [|right; exists 2%nat, m; split; [lia|reflexivity]].
  destruct (ok r2); simpl;
    [|right; eexists 2%nat, _; split; [lia|reflexivity]].
  destruct (payload r2) as [f|m]; simpl;
    [|right; exists 2%nat, m; split; [lia|reflexivity]].
  destruct (settle (fetchOfficers w _)) as [r3|m]; simpl;
    [|right; exists 3%nat, m; split; [lia|reflexivity]].
  destruct (ok r3); simpl; [|left; eexists _, _, _; reflexivity].
  destruct (payload r3) as [o|m]; simpl;
    [|right; exists 3%nat, m; split; [lia|reflexivity]].
  destruct (officer_items o) as [l|]; [|left; eexists _, _, _; reflexivity].
  destruct (find isDirector l); left; eexists _, _, _; reflexivity.
Qed.

(** ** The logs of the later steps *)

Lemma primaryPass_shape w auth soa :
  exists ed,
    snd (primaryPass w auth soa) = Ok ed
    /\ (fst (primaryPass w auth soa) = [] /\ ed = JObj [] /\ soaLink soa = None
        \/ exists link,
            soaLink soa = Some link
            /\ ((fst (primaryPass w auth soa)
                 = [EvFetch (Download Primary) (pdfRequest auth link)]
                 /\ ed = JObj []
                 /\ exists m, snd (downloadPdf w auth Primary link) = Thrown m)
                \/ exists pdf,
                    snd (downloadPdf w auth Primary link) = Ok pdf
                    /\ fst (primaryPass w auth soa)
                       = [EvFetch (Download Primary) (pdfRequest auth link);
                          EvGenerate Primary (soaRequest pdf)]
                    /\ (ed = JObj []
                        \/ generateContent w Primary (soaRequest pdf)
                           = Ok (Json ed)))).
Proof.
  unfold primaryPass.
  destruct (soaLink soa) as [link|];
    [|exists (JObj []); simpl; split; [reflexivity|left; repeat split]].
  pose proof (downloadPdf_events w auth Primary link) as Hd.
  unfold Eff.catch, Eff.bind, generate, Eff.call, Eff.lift, Eff.ret.
  destruct (downloadPdf w auth Primary link) as [t [pdf|m]] eqn:Hdl;
    simpl in Hd; subst t; simpl.
  - destruct (generateContent w Primary (soaRequest pdf)) as [txt|m] eqn:Hg;
      simpl.
    + destruct txt as [|m|v]; simpl.
      * exists (JObj []). split; auto. right. exists link. split; auto.
        right. exists pdf. rewrite Hdl. repeat split; auto.
      * exists (JObj []). split; auto. right. exists link. split; auto.
        right. exists pdf. rewrite Hdl. repeat split; auto.
      * exists v. split; auto. right. exists link. split; auto.
        right. exists pdf. rewrite Hdl. repeat split; auto.
    + exists (JObj []). split; auto. right. exists link. split; auto.
      right. exists pdf. rewrite Hdl. repeat split; auto.
  - exists (JObj []). split; auto. right. exists link. split; auto.
    left. rewrite Hdl. repeat split; auto. now exists m.
Qed.

Lemma ethnicityStep_shape w d :
  exists eth,
    snd (ethnicityStep w d) = Ok eth
    /\ ((nonempty d = None /\ fst (ethnicityStep w d) = [] /\ eth = JStr "")
        \/ (exists n,
               nonempty d = Some n
               /\ fst (ethnicityStep w d)
                  = [EvGenerate Ethnicity (ethnicityRequest n)])).
Proof.
  unfold ethnicityStep.
  destruct (nonempty d) as [n|] eqn:E.
  - unfold Eff.catch, Eff.bind, generate, Eff.call, Eff.lift, Eff.ret.
    destruct (generateContent w Ethnicity (ethnicityRequest n)) as [txt|m];
      simpl; [|eexists; split; [reflexivity|right; now exists n]].
    destruct (parse_or_empty txt) as [parsed|m]; simpl;
      [|eexists; split; [reflexivity|right; now exists n]].
    destruct (Js.get parsed "ethnicity") as [e|m]; simpl;
      eexists; split; try reflexivity; right; now exists n.
  - exists (JStr ""). simpl. auto.
Qed.

Lemma webSearch_run_general w extractedData :
  webSearch w extractedData
  = match Js.get extractedData firmName with
    | Ok v =>
        if Js.truthy v then ([EvSearch v], Ok (urlOf (search w v)))
        else ([], Ok (Some ""))
    | Thrown m => ([], Thrown m)
    end.
Proof.
  unfold webSearch, firmName, Eff.catch, Eff.bind, Eff.call, Eff.lift, Eff.ret.
  destruct (Js.get extractedData "accountantFirmName") as [v|m]; simpl; auto.
  destruct (Js.truthy v); auto.
  destruct (search w v) as [r|m]; simpl; auto.
  destruct (results r) as [[|first rest]|]; reflexivity.
Qed.

Lemma fallbackPass_run w auth l extractedData :
  fallbackPass w auth l extractedData
  = match Js.get extractedData firmName with
    | Ok v =>
        if negb (Js.truthy v) && (0 <? length l)%nat then
          (fst (fallbackLoop w auth 0 l extractedData),
           Ok (snd (fallbackLoop w auth 0 l extractedData)))
        else ([], Ok extractedData)
    | Thrown m => ([], Thrown m)
    end.
Proof.
  unfold fallbackPass, firmName, Eff.bind, Eff.lift, Eff.ret.
  destruct (Js.get extractedData "accountantFirmName") as [v|m]; simpl; auto.
  destruct (negb (Js.truthy v) && (0 <? length l)%nat); auto.
  now destruct (fallbackLoop w auth 0 l extractedData).
Qed.

Lemma accountItems_length fd : (length (accountItems fd) <= 3)%nat.
Proof. unfold accountItems. rewrite length_firstn. lia. Qed.

(** Every event of the loop is the download or the AI call of a
    candidate that has a link. *)
Lemma fallbackLoop_events w auth l :
  forall i extractedData e,
    In e (fst (fallbackLoop w auth i l extractedData)) ->
    exists j item link,
      nth_error l j = Some item
      /\ document_metadata_of item = Some link
      /\ (e = EvFetch (Download (Fallback (i + j))) (pdfRequest auth link)
          \/ exists pdf, e = EvGenerate (Fallback (i + j)) (accRequest pdf)).
Proof.
  induction l as [|a l IH]; intros i ed e Hin; [destruct Hin|].
  assert (Hrest : In e (fst (fallbackLoop w auth (S i) l ed)) ->
                  exists j item link,
                    nth_error (a :: l) j = Some item
                    /\ document_metadata_of item = Some link
                    /\ (e = EvFetch (Download (Fallback (i + j)))
                                    (pdfRequest auth link)
                        \/ exists pdf,
                            e = EvGenerate (Fallback (i + j)) (accRequest pdf))).
  { intros H. destruct (IH _ _ _ H) as (j & item & link & Hj & Hl & He).
    exists (S j), item, link. rewrite Nat.add_succ_r. auto. }
  destruct (document_metadata_of a) as [link|] eqn:Hl.
  - rewrite (fallbackLoop_linked _ _ _ _ _ _ _ Hl) in Hin.
    assert (Hhere : In e (fst (extractFirmName w auth i link)) ->
                    exists j item link,
                      nth_error (a :: l) j = Some item
                      /\ document_metadata_of item = Some link
                      /\ (e = EvFetch (Download (Fallback (i + j)))
                                      (pdfRequest auth link)
                          \/ exists pdf,
                              e = EvGenerate (Fallback (i + j)) (accRequest pdf))).
    { intros H. exists 0%nat, a, link. rewrite Nat.add_0_r.
      repeat split; auto.
      destruct (extractFirmName_events w auth i link) as [[Ht _]|[pdf Ht]];
        rewrite Ht in H; simpl in H.
      - destruct H as [<-|[]]. now left.
      - destruct H as [<-|[<-|[]]]; [now left|right; now exists pdf]. }
    destruct (stored w auth i link ed); simpl in Hin; auto.
    apply in_app_or in Hin. destruct Hin; auto.
  - rewrite (fallbackLoop_unlinked _ _ _ _ _ _ Hl) in Hin. auto.
Qed.

Lemma fallbackLoop_length w auth l :
  forall i extractedData,
    (length (fst (fallbackLoop w auth i l extractedData)) <= 2 * length l)%nat.
Proof.
  induction l as [|a l IH]; intros i ed; [simpl; lia|].
  destruct (document_metadata_of a) as [link|] eqn:Hl.
  - rewrite (fallbackLoop_linked _ _ _ _ _ _ _ Hl).
    assert (Hone : (length (fst (extractFirmName w auth i link)) <= 2)%nat).
    { destruct (extractFirmName_events w auth i link) as [[-> _]|[pdf ->]];
        simpl; lia. }
    specialize (IH (S i) ed).
    destruct (stored w auth i link ed); simpl; rewrite ?length_app; simpl; lia.
  - rewrite (fallbackLoop_unlinked _ _ _ _ _ _ Hl).
    specialize (IH (S i) ed). simpl. lia.
Qed.

Lemma linked_length i l : (length (linked i l) <= length l)%nat.
Proof.
  revert i. induction l as [|a l IH]; intros i; simpl; [lia|].
  specialize (IH (S i)). destruct (document_metadata_of a); simpl; lia.
Qed.

Lemma linked_NoDup i l : NoDup (linked i l).
Proof.
  revert i. induction l as [|a l IH]; intros i; simpl; [constructor|].
  destruct (document_metadata_of a); auto.
  constructor; auto.
  intros Hin. apply linked_In in Hin. destruct Hin as (k & _ & Hk & _). lia.
Qed.

(** ** The log of a whole request *)

(** The grammar of a log: a prefix of the three lookups; then, only if
    all three completed, the calls of the primary pass, of the fallback
    loop, of the ethnicity step and of the search, in that order. *)
Lemma pipeline_log w number key :
  exists n t1 t2 t3 t4,
    fst (pipeline w number key)
    = firstn n (registryLookups number (authHeader key))
        ++ t1 ++ t2 ++ t3 ++ t4
    /\ (1 <= n <= 3)%nat
    /\ ((n < 3)%nat -> t1 = [] /\ t2 = [] /\ t3 = [] /\ t4 = [])
    /\ (t1 = []
        \/ exists link,
            t1 = [EvFetch (Download Primary) (pdfRequest (authHeader key) link)]
            \/ exists pdf,
                t1 = [EvFetch (Download Primary)
                              (pdfRequest (authHeader key) link);
                      EvGenerate Primary (soaRequest pdf)])
    /\ (t2 = []
        \/ exists l ed,
            (length l <= 3)%nat
            /\ t2 = fst (fallbackLoop w (authHeader key) 0 l ed))
    /\ (t3 = [] \/ exists d, t3 = [EvGenerate Ethnicity (ethnicityRequest d)])
    /\ (t4 = [] \/ exists v, t4 = [EvSearch v]).
Proof.
  unfold pipeline.
  destruct (lookups_shape w number (authHeader key))
    as [(c & fd & d & Hl)|(n & m & Hn & Hl)].
  2:{ rewrite (bind_thrown _ _ _ _ Hl). simpl fst.
      exists n, [], [], [], []. rewrite !app_nil_r. repeat split; auto; lia. }
  rewrite (bind_ok _ _ _ _ Hl). simpl fst.
  unfold afterLookups.
  destruct (primaryPass_shape w (authHeader key) (soaItem fd)) as (ed & Hed & Ht1).
  assert (Hp : primaryPass w (authHeader key) (soaItem fd)
               = (fst (primaryPass w (authHeader key) (soaItem fd)), Ok ed))
    by (rewrite <- Hed; now destruct (primaryPass w (authHeader key) (soaItem fd))).
  rewrite (bind_ok _ _ _ _ Hp). simpl fst.
  set (t1 := fst (primaryPass w (authHeader key) (soaItem fd))) in *.
  unfold afterPrimary.
  rewrite fallbackPass_run.
  assert (Hshape1 :
            t1 = []
            \/ exists link,
                t1 = [EvFetch (Download Primary) (pdfRequest (authHeader key) link)]
                \/ exists pdf,
                    t1 = [EvFetch (Download Primary)
                                  (pdfRequest (authHeader key) link);
                          EvGenerate Primary (soaRequest pdf)]).
  { destruct Ht1 as [(H & _)|(link & _ & [(H & _)|(pdf & _ & H & _)])];
      [now left|right; exists link; now left|].
    right. exists link. right. now exists pdf. }
  destruct (Js.get ed firmName) as [v|m] eqn:Hget.
  2:{ simpl. exists 3%nat, t1, [], [], []. rewrite !app_nil_r.
      repeat split; auto; lia. }
  set (pass := if negb (Js.truthy v) && (0 <? length (accountItems fd))%nat
               then (fst (fallbackLoop w (authHeader key) 0 (accountItems fd) ed),
                     Ok (snd (fallbackLoop w (authHeader key) 0 (accountItems fd) ed)))
               else ([], Ok ed)).
  assert (Hpass : exists t2 final,
             pass = (t2, Ok final)
             /\ (t2 = []
                 \/ exists l ed',
                     (length l <= 3)%nat
                     /\ t2 = fst (fallbackLoop w (authHeader key) 0 l ed'))).
  { unfold pass.
    destruct (negb (Js.truthy v) && (0 <? length (accountItems fd))%nat).
    - eexists _, _. split; [reflexivity|]. right.
      exists (accountItems fd), ed. split; auto. apply accountItems_length.
    - eexists _, _. split; [reflexivity|]. now left. }
  destruct Hpass as (t2 & final & Hpass & Hshape2).
  fold pass. rewrite (bind_ok _ _ _ _ Hpass). simpl fst.
  destruct (ethnicityStep_shape w d) as (eth & Heth & Ht3).
  assert (He : ethnicityStep w d = (fst (ethnicityStep w d), Ok eth))
    by (rewrite <- Heth; now destruct (ethnicityStep w d)).
  rewrite (bind_ok _ _ _ _ He). simpl fst.
  set (t3 := fst (ethnicityStep w d)) in *.
  assert (Hshape3 : t3 = []
                    \/ exists d', t3 = [EvGenerate Ethnicity (ethnicityRequest d')]).
  { destruct Ht3 as [(_ & H & _)|(n' & _ & H)]; [now left|right; now exists n']. }
  rewrite webSearch_run_general.
  destruct (Js.get final firmName) as [x|m].
  2:{ simpl. exists 3%nat, t1, t2, t3, []. rewrite !app_nil_r.
      repeat split; auto; lia. }
  destruct (Js.truthy x).
  - simpl. rewrite combined_run.
    exists 3%nat, t1, t2, t3, [EvSearch x].
    destruct (Js.get final "totalAssets"); simpl; rewrite ?app_nil_r;
      repeat split; eauto; lia.
  - simpl. rewrite combined_run.
    exists 3%nat, t1, t2, t3, [].
    destruct (Js.get final "totalAssets"); simpl; rewrite ?app_nil_r;
      repeat split; auto; lia.
Qed.

(** ** Projections of a log *)

Lemma fetched_In t r : In r (fetched t) <-> exists c, In (EvFetch c r) t.
Proof.
  induction t as [|e t IH]; simpl.
  - split; [intros []|intros [c []]].
  - destruct e as [c' r'|s' r'|f]; simpl; rewrite ?IH.
    + split.
      * intros [<-|[c H]]; [exists c'; now left|exists c; now right].
      * intros [c [[= <- <-]|H]]; [now left|right; now exists c].
    + split; intros [c H]; exists c; [now right|].
      destruct H as [H|H]; [discriminate|exact H].
    + split; intros [c H]; exists c; [now right|].
      destruct H as [H|H]; [discriminate|exact H].
Qed.

Lemma searches_app t t' : searches (t ++ t') = searches t ++ searches t'.
Proof.
  induction t as [|e t IH]; simpl; auto.
  destruct e; simpl; now rewrite IH.
Qed.

Lemma ethnicityCalls_app t t' :
  ethnicityCalls (t ++ t') = ethnicityCalls t ++ ethnicityCalls t'.
Proof.
  induction t as [|e t IH]; simpl; auto.
  destruct e as [c r|[|i|] r|f]; simpl; now rewrite IH.
Qed.

(** The loop makes no call but its own downloads and extractions. *)
Lemma fallbackLoop_only_fallback w auth l i ed :
  let t := fst (fallbackLoop w auth i l ed) in
  searches t = [] /\ ethnicityCalls t = []
  /\ forallb (fun e => negb (isLookup e)) t = true
  /\ forallb (fun e => negb (isPrimaryEvent e)) t = true.
Proof.
  intros t.
  assert (H : forall e, In e t ->
                        exists j, (exists r, e = EvFetch (Download (Fallback j)) r)
                                  \/ exists r, e = EvGenerate (Fallback j) r).
  { intros e He. destruct (fallbackLoop_events _ _ _ _ _ _ He)
      as (j & item & link & _ & _ & [->|[pdf ->]]); exists (i + j)%nat; eauto. }
  clearbody t. induction t as [|e t IH]; [repeat split|].
  destruct IH as (H1 & H2 & H3 & H4); [intros e' He'; apply H; now right|].
  destruct (H e (or_introl eq_refl)) as [j [[r ->]|[r ->]]]; simpl;
    rewrite ?H1, ?H2, ?H3, ?H4; repeat split.
Qed.

Lemma fallbackLoop_counts w auth l :
  forall i ed,
    (length (downloads (fst (fallbackLoop w auth i l ed))) <= length l)%nat
    /\ (length (extractions (fst (fallbackLoop w auth i l ed))) <= length l)%nat.
Proof.
  induction l as [|a l IH]; intros i ed; [simpl; lia|].
  destruct (IH (S i) ed) as [IHd IHe].
  destruct (document_metadata_of a) as [link|] eqn:Hl.
  - rewrite (fallbackLoop_linked _ _ _ _ _ _ _ Hl).
    assert (Hone : (length (downloads (fst (extractFirmName w auth i link))) <= 1
                    /\ length (extractions (fst (extractFirmName w auth i link))) <= 1)%nat).
    { destruct (extractFirmName_events w auth i link) as [[-> _]|[pdf ->]];
        simpl; lia. }
    destruct (stored w auth i link ed); simpl;
      rewrite ?downloads_app, ?extractions_app, ?length_app; simpl; lia.
  - rewrite (fallbackLoop_unlinked _ _ _ _ _ _ Hl). simpl. lia.
Qed.

(** ** Properties of every request *)

(** A request costs at most thirteen outside calls, among them at most
    three downloads and three AI extractions of accounts documents, one
    ethnicity question and one web search. *)
Theorem call_budget (w : World) (body : Body) :
  let t := fst (extract w body) in
  (length t <= 13)%nat
  /\ (length (downloads t) <= 3)%nat
  /\ (length (extractions t) <= 3)%nat
  /\ (length (ethnicityCalls t) <= 1)%nat
  /\ (length (searches t) <= 1)%nat.
Proof.
  unfold extract.
  destruct (nonempty (companyNumber body)) as [number|]; [|simpl; lia].
  destruct (nonempty (chApiKey body)) as [key|]; [|simpl; lia].
  assert (Hfst : fst (match pipeline w number key with
                      | (t, Ok row) => (t, success row)
                      | (t, Thrown message) => (t, serverError message)
                      end) = fst (pipeline w number key))
    by (destruct (pipeline w number key) as [t [row|m]]; reflexivity).
  cbv zeta. rewrite Hfst.
  destruct (pipeline_log w number key)
    as (n & t1 & t2 & t3 & t4 & -> & Hn & _ & H1 & H2 & H3 & H4).
  assert (Hl0 : (length (firstn n (registryLookups number (authHeader key))) <= 3)%nat)
    by (rewrite length_firstn; simpl; lia).
  assert (Hp0 : downloads (firstn n (registryLookups number (authHeader key))) = []
                /\ extractions (firstn n (registryLookups number (authHeader key))) = []
                /\ ethnicityCalls (firstn n (registryLookups number (authHeader key))) = []
                /\ searches (firstn n (registryLookups number (authHeader key))) = []).
  { destruct n as [|[|[|[|n]]]]; simpl; auto. }
  destruct Hp0 as (Hd0 & He0 & Hy0 & Hs0).
  assert (Hb1 : (length t1 <= 2)%nat /\ downloads t1 = [] /\ extractions t1 = []
                /\ ethnicityCalls t1 = [] /\ searches t1 = []).
  { destruct H1 as [->|(link & [->|(pdf & ->)])]; simpl; repeat split; lia. }
  assert (Hb2 : (length t2 <= 6)%nat /\ (length (downloads t2) <= 3)%nat
                /\ (length (extractions t2) <= 3)%nat
                /\ ethnicityCalls t2 = [] /\ searches t2 = []).
  { destruct H2 as [->|(l & ed & Hlen & ->)]; [simpl; repeat split; lia|].
    pose proof (fallbackLoop_length w (authHeader key) l 0 ed).
    destruct (fallbackLoop_counts w (authHeader key) l 0 ed).
    destruct (fallbackLoop_only_fallback w (authHeader key) l 0 ed)
      as (Hs & Hy & _).
    repeat split; auto; lia. }
  assert (Hb3 : (length t3 <= 1)%nat /\ downloads t3 = [] /\ extractions t3 = []
                /\ (length (ethnicityCalls t3) <= 1)%nat /\ searches t3 = []).
  { destruct H3 as [->|(d & ->)]; simpl; repeat split; lia. }
  assert (Hb4 : (length t4 <= 1)%nat /\ downloads t4 = [] /\ extractions t4 = []
                /\ ethnicityCalls t4 = [] /\ (length (searches t4) <= 1)%nat).
  { destruct H4 as [->|(v & ->)]; simpl; repeat split; lia. }
  destruct Hb1 as (L1 & D1 & E1 & Y1 & S1).
  destruct Hb2 as (L2 & D2 & E2 & Y2 & S2).
  destruct Hb3 as (L3 & D3 & E3 & Y3 & S3).
  destruct Hb4 as (L4 & D4 & E4 & Y4 & S4).
  rewrite !downloads_app, !extractions_app, !ethnicityCalls_app, !searches_app,
    !length_app.
  rewrite Hd0, He0, Hy0, Hs0, D1, E1, Y1, S1, Y2, S2, D3, E3, S3, D4, E4, Y4.
  simpl. repeat split; lia.
Qed.

(** With both inputs present, the log opens with a non-empty prefix of
    the three registry lookups, in the order profile, history, officers;
    when a lookup is missing from it nothing else was called; and no
    registry lookup is ever repeated later. *)
Theorem registry_lookups_come_first
        (w : World) (body : Body) (number key : string) :
  nonempty (companyNumber body) = Some number ->
  nonempty (chApiKey body) = Some key ->
  exists n rest,
    fst (extract w body)
    = firstn n (registryLookups number (authHeader key)) ++ rest
    /\ (1 <= n <= 3)%nat
    /\ ((n < 3)%nat -> rest = [])
    /\ forallb (fun e => negb (isLookup e)) rest = true.
Proof.
  intros Hn Hk. unfold extract. rewrite Hn, Hk.
  assert (Hfst : fst (match pipeline w number key with
                      | (t, Ok row) => (t, success row)
                      | (t, Thrown message) => (t, serverError message)
                      end) = fst (pipeline w number key))
    by (destruct (pipeline w number key) as [t [row|m]]; reflexivity).
  rewrite Hfst.
  destruct (pipeline_log w number key)
    as (n & t1 & t2 & t3 & t4 & -> & Hbound & Hstop & H1 & H2 & H3 & H4).
  exists n, (t1 ++ t2 ++ t3 ++ t4). repeat split; try lia.
  - intros Hlt. destruct (Hstop Hlt) as (-> & -> & -> & ->). reflexivity.
  - rewrite !forallb_app.
    assert (Q1 : forallb (fun e => negb (isLookup e)) t1 = true)
      by (destruct H1 as [->|(link & [->|(pdf & ->)])]; reflexivity).
    assert (Q2 : forallb (fun e => negb (isLookup e)) t2 = true).
    { destruct H2 as [->|(l & ed & _ & ->)]; [reflexivity|].
      apply (fallbackLoop_only_fallback w (authHeader key) l 0 ed). }
    assert (Q3 : forallb (fun e => negb (isLookup e)) t3 = true)
      by (destruct H3 as [->|(d & ->)]; reflexivity).
    assert (Q4 : forallb (fun e => negb (isLookup e)) t4 = true)
      by (destruct H4 as [->|(v & ->)]; reflexivity).
    now rewrite Q1, Q2, Q3, Q4.
Qed.

Lemma registry_lookups_come_first_witness :
  exists n rest,
    fst (extract Cases.officersDownWorld Scenario.request)
    = firstn n (registryLookups "11969947" (authHeader "secret")) ++ rest
    /\ (1 <= n <= 3)%nat
    /\ ((n < 3)%nat -> rest = [])
    /\ forallb (fun e => negb (isLookup e)) rest = true.
Proof.
  exact (registry_lookups_come_first Cases.officersDownWorld Scenario.request
                                     "11969947" "secret" eq_refl eq_refl).
Defined.

(** Every [fetch] of the handler, registry lookup or document download,
    carries the [Authorization] header derived from the key of the
    request, and follows redirects. *)
Theorem every_fetch_is_authenticated
        (w : World) (body : Body) (number key : string) (r : Request) :
  nonempty (companyNumber body) = Some number ->
  nonempty (chApiKey body) = Some key ->
  In r (fetched (fst (extract w body))) ->
  In ("Authorization", ("Basic " ++ Base64.encode (key ++ ":"))%string)
     (headers r)
  /\ redirect r = RedirectFollow.
Proof.
  intros Hn Hk. unfold extract. rewrite Hn, Hk.
  assert (Hfst : fst (match pipeline w number key with
                      | (t, Ok row) => (t, success row)
                      | (t, Thrown message) => (t, serverError message)
                      end) = fst (pipeline w number key))
    by (destruct (pipeline w number key) as [t [row|m]]; reflexivity).
  rewrite Hfst.
  destruct (pipeline_log w number key)
    as (n & t1 & t2 & t3 & t4 & -> & Hbound & _ & H1 & H2 & H3 & H4).
  intros Hin. apply fetched_In in Hin. destruct Hin as [c Hin].
  apply in_app_or in Hin. destruct Hin as [Hin|Hin].
  { assert (Hall : In (EvFetch c r) (registryLookups number (authHeader key))).
    { rewrite <- (firstn_skipn n (registryLookups number (authHeader key))).
      apply in_or_app. now left. }
    simpl in Hall.
    destruct Hall as [[= _ <-]|[[= _ <-]|[[= _ <-]|[]]]]; simpl; auto. }
  apply in_app_or in Hin. destruct Hin as [Hin|Hin].
  { destruct H1 as [->|(link & [->|(pdf & ->)])]; simpl in Hin.
    - destruct Hin.
    - destruct Hin as [[= _ <-]|[]]. simpl. auto.
    - destruct Hin as [[= _ <-]|[[=]|[]]]. simpl. auto. }
  apply in_app_or in Hin. destruct Hin as [Hin|Hin].
  { destruct H2 as [->|(l & ed & _ & ->)]; [destruct Hin|].
    destruct (fallbackLoop_events _ _ _ _ _ _ Hin)
      as (j & item & link & _ & _ & [[= _ ->]|[pdf [=]]]).
    simpl. auto. }
  apply in_app_or in Hin. destruct Hin as [Hin|Hin].
  - destruct H3 as [->|(d & ->)]; simpl in Hin; [destruct Hin|].
    destruct Hin as [[=]|[]].
  - destruct H4 as [->|(v & ->)]; simpl in Hin; [destruct Hin|].
    destruct Hin as [[=]|[]].
Qed.

Lemma every_fetch_is_authenticated_witness :
  In ("Authorization", ("Basic " ++ Base64.encode ("secret" ++ ":"))%string)
     (headers (pdfRequest (authHeader "secret") "https://reg/acc/2"))
  /\ redirect (pdfRequest (authHeader "secret") "https://reg/acc/2")
     = RedirectFollow.
Proof.
  apply (every_fetch_is_authenticated Scenario.jonesWorld Scenario.request
                                      "11969947" "secret" _ eq_refl eq_refl).
  vm_compute. auto 10.
Defined.

(** ** Requests that end in a row *)

(** A request ends in a row exactly when every step returned: the row
    and the log are then those of the steps, in order. *)
Lemma extract_run w body t reply :
  extract w body = (t, reply) ->
  isRow reply = true ->
  exists number key c fd d t1 ed t2 final t3 eth t4 url,
    nonempty (companyNumber body) = Some number
    /\ nonempty (chApiKey body) = Some key
    /\ lookups w number (authHeader key)
       = (registryLookups number (authHeader key), Ok (c, fd, d))
    /\ primaryPass w (authHeader key) (soaItem fd) = (t1, Ok ed)
    /\ fallbackPass w (authHeader key) (accountItems fd) ed = (t2, Ok final)
    /\ ethnicityStep w d = (t3, Ok eth)
    /\ webSearch w final = (t4, Ok url)
    /\ t = registryLookups number (authHeader key) ++ t1 ++ t2 ++ t3 ++ t4
    /\ reply = success (rowOf c d eth final url).
Proof.
  unfold extract.
  destruct (nonempty (companyNumber body)) as [number|] eqn:Hn;
    [|intros [= _ <-]; discriminate].
  destruct (nonempty (chApiKey body)) as [key|] eqn:Hk;
    [|intros [= _ <-]; discriminate].
  destruct (pipeline w number key) as [t' [row|m]] eqn:Hp;
    [|intros [= _ <-]; discriminate].
  intros [= <- <-] _.
  unfold pipeline in Hp.
  destruct (lookups_shape w number (authHeader key))
    as [(c & fd & d & Hl)|(n & m & _ & Hl)];
    [|rewrite (bind_thrown _ _ _ _ Hl) in Hp; discriminate].
  rewrite (bind_ok _ _ _ _ Hl) in Hp.
  unfold afterLookups in Hp.
  destruct (primaryPass w (authHeader key) (soaItem fd)) as [t1 [ed|m]] eqn:H1;
    [|simpl in Hp; discriminate].
  rewrite (bind_ok _ _ _ _ eq_refl) in Hp.
  unfold afterPrimary in Hp.
  destruct (fallbackPass w (authHeader key) (accountItems fd) ed)
    as [t2 [final|m]] eqn:H2; [|simpl in Hp; discriminate].
  rewrite (bind_ok _ _ _ _ eq_refl) in Hp.
  destruct (ethnicityStep w d) as [t3 [eth|m]] eqn:H3;
    [|simpl in Hp; discriminate].
  rewrite (bind_ok _ _ _ _ eq_refl) in Hp.
  destruct (webSearch w final) as [t4 [url|m]] eqn:H4;
    [|simpl in Hp; discriminate].
  rewrite (bind_ok _ _ _ _ eq_refl) in Hp.
  rewrite combined_run in Hp.
  destruct (Js.get final "totalAssets"); [|simpl in Hp; discriminate].
  simpl in Hp. injection Hp as <- <-.
  exists number, key, c, fd, d, t1, ed, t2, final, t3, eth, t4, url.
  rewrite !app_nil_r. repeat split; auto.
Qed.

Lemma keys_kept_defined k v ps :
  v <> JUndefined ->
  map fst (Js.kept Js.wire ((k, v) :: ps)) = k :: map fst (Js.kept Js.wire ps).
Proof. intros H. now rewrite kept_defined. Qed.

Lemma keys_kept k v ps :
  map fst (Js.kept Js.wire ((k, v) :: ps))
  = match v with JUndefined => [] | _ => [k] end
      ++ map fst (Js.kept Js.wire ps).
Proof. destruct v; reflexivity. Qed.

(** The keys of a row: those of the literal, less the unguarded ones
    whose value is [undefined]. *)
Lemma row_keys c d eth final url :
  exists missing,
    incl missing unguardedKeys
    /\ keysOf (success (rowOf c d eth final url)) = without missing rowKeys.
Proof.
  assert (Hrest : forall tail,
    map fst (Js.kept Js.wire
               (("totalAssets", read final "totalAssets")
                :: ("odla", read final "odla")
                :: ("totalDeficiency", read final "totalDeficiency")
                :: ("bblCbils", read final "bblCbils")
                :: ("hmrcPreferential", read final "hmrcPreferential")
                :: ("hmrcUnsecured", read final "hmrcUnsecured")
                :: ("tradeCreditors", read final "tradeCreditors")
                :: ("accountantFirmName", read final "accountantFirmName")
                :: tail))
    = "totalAssets" :: "odla" :: "totalDeficiency" :: "bblCbils"
      :: "hmrcPreferential" :: "hmrcUnsecured" :: "tradeCreditors"
      :: "accountantFirmName" :: map fst (Js.kept Js.wire tail)).
  { intros tail.
    do 8 (rewrite keys_kept_defined by apply read_defined; apply f_equal).
    reflexivity. }
  exists (match company_name c with None => ["companyName"] | Some _ => [] end
            ++ match company_number c with
               | None => ["companyNumber"] | Some _ => []
               end
            ++ match d with None => ["directorName"] | Some _ => [] end
            ++ match eth with JUndefined => ["ethnicity"] | _ => [] end
            ++ match url with None => ["accountantUrl"] | Some _ => [] end).
  split.
  - unfold unguardedKeys. intros k Hk.
    repeat (apply in_app_or in Hk; destruct Hk as [Hk|Hk]).
    + destruct (company_name c); simpl in Hk |- *; tauto.
    + destruct (company_number c); simpl in Hk |- *; tauto.
    + destruct d; simpl in Hk |- *; tauto.
    + destruct eth; simpl in Hk |- *; tauto.
    + destruct url; simpl in Hk |- *; tauto.
  - change (keysOf (success (rowOf c d eth final url)))
      with (map fst (Js.kept Js.wire
              (("companyName", Js.str (company_name c))
               :: ("companyNumber", Js.str (company_number c))
               :: ("directorName", Js.str d)
               :: ("ethnicity", eth)
               :: ("totalAssets", read final "totalAssets")
                  :: ("odla", read final "odla")
                  :: ("totalDeficiency", read final "totalDeficiency")
                  :: ("bblCbils", read final "bblCbils")
                  :: ("hmrcPreferential", read final "hmrcPreferential")
                  :: ("hmrcUnsecured", read final "hmrcUnsecured")
                  :: ("tradeCreditors", read final "tradeCreditors")
                  :: ("accountantFirmName", read final "accountantFirmName")
                  :: [("accountantUrl", Js.str url)]))).
    rewrite !(keys_kept "companyName"), !(keys_kept "companyNumber"),
      !(keys_kept "directorName"), !(keys_kept "ethnicity"), Hrest,
      !(keys_kept "accountantUrl").
    destruct (company_name c), (company_number c), d, url, eth; reflexivity.
Qed.

(** The handler has three kinds of reply: status 400 with the fixed
    message, exactly when an input is missing or empty; status 500 with
    [{error: message}]; status 200 with an object whose keys are those
    of the row literal, in order, less some of the five keys written
    without [|| ""] (the eight other keys are always there). *)
Theorem reply_shapes (w : World) (body : Body) :
  let reply := snd (extract w body) in
  (reply_status reply = 400%Z
   /\ reply_json reply
      = JObj [("error",
               JStr "Company Number and Companies House API Key are required.")]
   /\ (nonempty (companyNumber body) = None \/ nonempty (chApiKey body) = None))
  \/ (nonempty (companyNumber body) <> None
      /\ nonempty (chApiKey body) <> None
      /\ ((exists m, reply_status reply = 500%Z
                     /\ reply_json reply = JObj [("error", JStr m)])
          \/ (reply_status reply = 200%Z
              /\ exists missing,
                   incl missing unguardedKeys
                   /\ keysOf reply = without missing rowKeys))).
Proof.
  cbv zeta.
  destruct (extract w body) as [t r] eqn:He. cbn [snd].
  destruct (isRow r) eqn:Hrow.
  - destruct (extract_run w body t r He Hrow)
      as (number & key & c & fd & d & t1 & ed & t2 & final & t3 & eth & t4 & url
          & Hn & Hk & _ & _ & _ & _ & _ & _ & ->).
    right. rewrite Hn, Hk. split; [discriminate|]. split; [discriminate|].
    right. split; [reflexivity|]. apply row_keys.
  - unfold extract in He.
    destruct (nonempty (companyNumber body)) as [number|];
      [|injection He as _ <-; left; auto].
    destruct (nonempty (chApiKey body)) as [key|];
      [|injection He as _ <-; left; auto].
    right. split; [discriminate|]. split; [discriminate|].
    destruct (pipeline w number key) as [t' [row|m]]; injection He as _ <-.
    + discriminate Hrow.
    + left. now exists m.
Qed.

(** The ethnicity question is asked exactly when a director was found
    and has a non-empty name, once, about that name; otherwise (no
    director, or a name that is empty or missing) the row's [ethnicity]
    is the empty string. *)
Theorem ethnicity_asked_only_for_a_director
        (w : World) (body : Body) (t : list Event) (reply : Reply) :
  extract w body = (t, reply) ->
  isRow reply = true ->
  exists d : option string,
    field reply "directorName" = Js.str d
    /\ ethnicityCalls t
       = match nonempty d with
         | Some n =>
             [{| model := "gemini-2.5-flash";
                 inlineData := None;
                 text := "Guess the broad ethnicity based on onomastics for the name: "
                           ++ n
                           ++ ". Return as JSON with a single property 'ethnicity'.";
                 responseSchema := ["ethnicity"] |}]
         | None => []
         end
    /\ (nonempty d = None -> field reply "ethnicity" = JStr "").
Proof.
  intros He Hrow.
  destruct (extract_run w body t reply He Hrow)
    as (number & key & c & fd & d & t1 & ed & t2 & final & t3 & eth & t4 & url
        & _ & _ & Hl & H1 & H2 & H3 & H4 & -> & ->).
  exists d. split; [rewrite field_success; now destruct d|].
  assert (Hy0 : ethnicityCalls (registryLookups number (authHeader key)) = [])
    by reflexivity.
  assert (Hy1 : ethnicityCalls t1 = []).
  { destruct (primaryPass_shape w (authHeader key) (soaItem fd)) as (ed' & _ & Hs).
    rewrite H1 in Hs. simpl in Hs.
    destruct Hs as [(-> & _)|(link & _ & [(-> & _)|(pdf & _ & -> & _)])];
      reflexivity. }
  assert (Hy2 : ethnicityCalls t2 = []).
  { rewrite fallbackPass_run in H2.
    destruct (Js.get ed firmName) as [v|m]; [|discriminate].
    destruct (negb (Js.truthy v) && (0 <? length (accountItems fd))%nat);
      injection H2 as <- _; [|reflexivity].
    apply (fallbackLoop_only_fallback w (authHeader key) (accountItems fd) 0 ed). }
  assert (Hy4 : ethnicityCalls t4 = []).
  { rewrite webSearch_run_general in H4.
    destruct (Js.get final firmName) as [v|m]; [|discriminate].
    destruct (Js.truthy v); injection H4 as <- _; reflexivity. }
  rewrite !ethnicityCalls_app, Hy0, Hy1, Hy2, Hy4, app_nil_r. simpl.
  destruct (ethnicityStep_shape w d) as (eth' & Heth & Hs).
  rewrite H3 in Heth, Hs. simpl in Heth, Hs. injection Heth as <-.
  destruct Hs as [(Hd & -> & ->)|(n & Hd & ->)]; rewrite Hd.
  - split; [reflexivity|]. intros _. now rewrite row_ethnicity.
  - split; [reflexivity|]. discriminate.
Qed.

Lemma ethnicity_asked_only_for_a_director_witness :
  exists d : option string,
    field (snd (extract Cases.boardWorld Scenario.request)) "directorName"
    = Js.str d
    /\ ethnicityCalls (fst (extract Cases.boardWorld Scenario.request))
       = match nonempty d with
         | Some n =>
             [{| model := "gemini-2.5-flash";
                 inlineData := None;
                 text := "Guess the broad ethnicity based on onomastics for the name: "
                           ++ n
                           ++ ". Return as JSON with a single property 'ethnicity'.";
                 responseSchema := ["ethnicity"] |}]
         | None => []
         end
    /\ (nonempty d = None ->
        field (snd (extract Cases.boardWorld Scenario.request)) "ethnicity"
        = JStr "").
Proof.
  apply (ethnicity_asked_only_for_a_director
           Cases.boardWorld Scenario.request
           (fst (extract Cases.boardWorld Scenario.request))
           (snd (extract Cases.boardWorld Scenario.request)));
    reflexivity.
Defined.

(** The web search is made exactly when the record holds a non-empty
    firm name, once, for that name, and [accountantUrl] is what the
    first result has for its URL (the empty string when the search
    fails or finds nothing); a row without a firm name has an empty
    URL. *)
Theorem search_follows_the_firm_name
        (w : World) (body : Body) (t : list Event) (reply : Reply) :
  extract w body = (t, reply) ->
  isRow reply = true ->
  (searches t = []
   /\ field reply "accountantFirmName" = JStr ""
   /\ field reply "accountantUrl" = JStr "")
  \/ exists v,
      searches t = [v]
      /\ Js.truthy v = true
      /\ field reply "accountantFirmName" = Js.wire v
      /\ field reply "accountantUrl" = Js.str (urlOf (search w v)).
Proof.
  intros He Hrow.
  destruct (extract_run w body t reply He Hrow)
    as (number & key & c & fd & d & t1 & ed & t2 & final & t3 & eth & t4 & url
        & _ & _ & Hl & H1 & H2 & H3 & H4 & -> & ->).
  assert (Hs0 : searches (registryLookups number (authHeader key)) = [])
    by reflexivity.
  assert (Hs1 : searches t1 = []).
  { destruct (primaryPass_shape w (authHeader key) (soaItem fd)) as (ed' & _ & Hs).
    rewrite H1 in Hs. simpl in Hs.
    destruct Hs as [(-> & _)|(link & _ & [(-> & _)|(pdf & _ & -> & _)])];
      reflexivity. }
  assert (Hs2 : searches t2 = []).
  { rewrite fallbackPass_run in H2.
    destruct (Js.get ed firmName) as [v|m]; [|discriminate].
    destruct (negb (Js.truthy v) && (0 <? length (accountItems fd))%nat);
      injection H2 as <- _; [|reflexivity].
    apply (fallbackLoop_only_fallback w (authHeader key) (accountItems fd) 0 ed). }
  assert (Hs3 : searches t3 = []).
  { destruct (ethnicityStep_shape w d) as (eth' & _ & Hs).
    rewrite H3 in Hs. simpl in Hs.
    destruct Hs as [(_ & -> & _)|(n & _ & ->)]; reflexivity. }
  rewrite !searches_app, Hs0, Hs1, Hs2, Hs3. simpl.
  rewrite !field_success. cbn [rowOf Js.lookup String.eqb Ascii.eqb Bool.eqb].
  rewrite webSearch_run_general in H4. unfold read.
  unfold firmName in H4.
  destruct (Js.get final "accountantFirmName") as [v|m]; [|discriminate].
  unfold Js.or.
  destruct (Js.truthy v) eqn:Htr; injection H4 as <- <-.
  - right. exists v. repeat split; auto.
    now destruct (urlOf (search w v)).
  - left. auto.
Qed.

Lemma search_follows_the_firm_name_witness :
  (searches (fst (extract Cases.namedWorld Scenario.request)) = []
   /\ field (snd (extract Cases.namedWorld Scenario.request)) "accountantFirmName"
      = JStr ""
   /\ field (snd (extract Cases.namedWorld Scenario.request)) "accountantUrl"
      = JStr "")
  \/ exists v,
      searches (fst (extract Cases.namedWorld Scenario.request)) = [v]
      /\ Js.truthy v = true
      /\ field (snd (extract Cases.namedWorld Scenario.request)) "accountantFirmName"
         = Js.wire v
      /\ field (snd (extract Cases.namedWorld Scenario.request)) "accountantUrl"
         = Js.str (urlOf (search Cases.namedWorld v)).
Proof.
  apply (search_follows_the_firm_name
           Cases.namedWorld Scenario.request
           (fst (extract Cases.namedWorld Scenario.request))
           (snd (extract Cases.namedWorld Scenario.request)));
    reflexivity.
Defined.

(** ** The officers step (lines 39-50) *)

(** The officers step is guarded against a refusal only: when the
    request itself is rejected, or the body of a 2xx answer cannot be
    read, the whole request ends after the three lookups with status
    500 and the body [{error: message}], which is no row, even though
    the profile and the filing history were obtained. *)
Theorem officers_failure_aborts
        (w : World) (body : Body) (number key : string)
        (r1 : Response CompanyData) (c : CompanyData)
        (r2 : Response FilingData) (fd : FilingData) (m : string) :
  nonempty (companyNumber body) = Some number ->
  nonempty (chApiKey body) = Some key ->
  fetchCompany w (companyRequest number (authHeader key)) = Responded r1 ->
  ok r1 = true -> payload r1 = Ok c ->
  fetchFilingHistory w (filingRequest number (authHeader key)) = Responded r2 ->
  ok r2 = true -> payload r2 = Ok fd ->
  (fetchOfficers w (officersRequest number (authHeader key)) = Rejected m
   \/ exists r3,
       fetchOfficers w (officersRequest number (authHeader key)) = Responded r3
       /\ ok r3 = true /\ payload r3 = Thrown m) ->
  let run := extract w body in
  fst run = registryLookups number (authHeader key)
  /\ reply_status (snd run) = 500%Z
  /\ reply_json (snd run) = JObj [("error", JStr m)]
  /\ isRow (snd run) = false.
Proof.
  intros Hn Hk H1 Hok1 Hp1 H2 Hok2 Hp2 H3.
  assert (Hrun : extract w body
                 = (registryLookups number (authHeader key), serverError m));
    [|cbv zeta; rewrite Hrun; repeat split].
  unfold extract. rewrite Hn, Hk.
  unfold pipeline, lookups, companyDetails, filingHistory, director.
  unfold Eff.bind, Eff.call, Eff.throw, Eff.lift, Eff.ret.
  rewrite H1. simpl. rewrite Hok1, Hp1. simpl.
  rewrite H2. simpl. rewrite Hok2, Hp2. simpl.
  destruct H3 as [H3|(r3 & H3 & Hok3 & Hp3)]; rewrite H3; simpl.
  - reflexivity.
  - rewrite Hok3, Hp3. reflexivity.
Qed.

Lemma officers_failure_aborts_witness :
  let run := extract Cases.officersDownWorld Scenario.request in
  fst run = registryLookups "11969947" (authHeader "secret")
  /\ reply_status (snd run) = 500%Z
  /\ reply_json (snd run) = JObj [("error", JStr "fetch failed")]
  /\ isRow (snd run) = false.
Proof.
  apply (officers_failure_aborts
           Cases.officersDownWorld Scenario.request "11969947" "secret"
           (Scenario.okResponse Scenario.acme) Scenario.acme
           (Scenario.okResponse {| items := Some Scenario.jonesHistory |})
           {| items := Some Scenario.jonesHistory |} "fetch failed");
    try reflexivity.
  left. reflexivity.
Defined.

(** The director's name is what the first officer whose role is
    "director" has for a name, missing if that officer has none; it is
    the empty string, without any error, when the lookup is refused,
    when the answer has no [items], and when no officer is a
    director. *)
Theorem director_is_the_first_director
        (w : World) (number auth : string) (r : Response OfficersData) :
  fetchOfficers w (officersRequest number auth) = Responded r ->
  (ok r = true -> exists o, payload r = Ok o) ->
  exists d,
    director w number auth
    = ([EvFetch OfficersLookup (officersRequest number auth)], Ok d)
    /\ ((ok r = false /\ d = Some "")
        \/ exists o,
            ok r = true /\ payload r = Ok o
            /\ ((officer_items o = None /\ d = Some "")
                \/ exists l,
                    officer_items o = Some l
                    /\ (((forall x, In x l -> officer_role x <> "director")
                         /\ d = Some "")
                        \/ exists before x after,
                            l = before ++ x :: after
                            /\ officer_role x = "director"
                            /\ (forall y, In y before ->
                                          officer_role y <> "director")
                            /\ d = name x))).
Proof.
  intros Hf Hbody.
  unfold director, Eff.bind, Eff.call, Eff.lift, Eff.ret. rewrite Hf. simpl.
  destruct (ok r) eqn:Hok; [|exists (Some ""); split; [reflexivity|now left]].
  destruct (Hbody eq_refl) as [o Ho]. rewrite Ho. simpl.
  destruct (officer_items o) as [l|] eqn:Hitems.
  2:{ exists (Some ""). split; [reflexivity|]. right. exists o.
      repeat split; auto. }
  destruct (find isDirector l) as [x|] eqn:Hfind.
  - exists (name x). split; [reflexivity|]. right. exists o.
    repeat split; auto. right. exists l. split; auto. right.
    destruct (find_first _ _ _ Hfind) as (before & after & -> & Hx & Hb).
    exists before, x, after. repeat split; auto.
    + now apply String.eqb_eq.
    + intros y Hy. apply String.eqb_neq. now apply Hb.
  - exists (Some ""). split; [reflexivity|]. right. exists o.
    repeat split; auto. right. exists l. split; auto. left. split; auto.
    intros x Hx. apply String.eqb_neq.
    exact (proj1 (find_none_iff _ _) Hfind x Hx).
Qed.

Lemma director_is_the_first_director_witness :
  director Cases.boardWorld "11969947" (authHeader "secret")
  = ([EvFetch OfficersLookup (officersRequest "11969947" (authHeader "secret"))],
     Ok (Some "DOE, Jane")).
Proof.
  destruct (director_is_the_first_director
              Cases.boardWorld "11969947" (authHeader "secret")
              (Scenario.okResponse {| officer_items := Some Cases.board |})
              eq_refl
              (fun _ => ex_intro _ {| officer_items := Some Cases.board |} eq_refl))
    as (d & Hrun & _).
  rewrite Hrun. vm_compute in Hrun. injection Hrun as <-. reflexivity.
Defined.

(** ** The primary pass (lines 71-114) *)

(** The primary pass never throws.  The AI is consulted only after the
    statement of affairs was downloaded, and the record it leaves is the
    empty object unless the AI answered with parseable JSON, in which
    case it is that JSON value, whatever it is. *)
Theorem primary_pass_is_best_effort
        (w : World) (auth : string) (soa : option FilingItem) :
  exists t ed,
    primaryPass w auth soa = (t, Ok ed)
    /\ (length t <= 2)%nat
    /\ (forall r, In (EvGenerate Primary r) t ->
                  exists link pdf,
                    soaLink soa = Some link
                    /\ snd (downloadPdf w auth Primary link) = Ok pdf
                    /\ r = soaRequest pdf)
    /\ (ed <> JObj [] ->
        exists link pdf,
          soaLink soa = Some link
          /\ snd (downloadPdf w auth Primary link) = Ok pdf
          /\ generateContent w Primary (soaRequest pdf) = Ok (Json ed)).
Proof.
  destruct (primaryPass_shape w auth soa) as (ed & Hed & Hs).
  exists (fst (primaryPass w auth soa)), ed.
  split; [rewrite <- Hed; now destruct (primaryPass w auth soa)|].
  destruct Hs as [(-> & -> & _)|(link & Hl & [(-> & -> & _)|(pdf & Hd & -> & He)])].
  - repeat split; [simpl; lia|intros r []|congruence].
  - repeat split; [simpl; lia| |congruence].
    intros r [H|[]]. discriminate H.
  - repeat split; [simpl; lia| |].
    + intros r [H|[[= <-]|[]]]; [discriminate H|]. exists link, pdf. auto.
    + intros Hne. destruct He as [->|He]; [congruence|].
      exists link, pdf. auto.
Qed.

(** When the AI answers the statement of affairs with the JSON text
    [null], the request is not degraded but aborted: the test of line 117
    reads a property of [null], and the handler replies 500 without
    making any call after the primary pass. *)
Theorem null_answer_aborts
        (w : World) (body : Body) (number key : string)
        (c : CompanyData) (fd : FilingData) (d : option string) :
  nonempty (companyNumber body) = Some number ->
  nonempty (chApiKey body) = Some key ->
  lookups w number (authHeader key)
  = (registryLookups number (authHeader key), Ok (c, fd, d)) ->
  snd (primaryPass w (authHeader key) (soaItem fd)) = Ok JNull ->
  exists m,
    extract w body
    = (registryLookups number (authHeader key)
         ++ fst (primaryPass w (authHeader key) (soaItem fd)),
       serverError m)
    /\ isRow (snd (extract w body)) = false.
Proof.
  intros Hn Hk Hl Hp.
  unfold extract. rewrite Hn, Hk. unfold pipeline.
  rewrite (bind_ok _ _ _ _ Hl). unfold afterLookups.
  assert (Hp' : primaryPass w (authHeader key) (soaItem fd)
                = (fst (primaryPass w (authHeader key) (soaItem fd)), Ok JNull))
    by (rewrite <- Hp; now destruct (primaryPass w (authHeader key) (soaItem fd))).
  rewrite (bind_ok _ _ _ _ Hp').
  unfold afterPrimary. rewrite fallbackPass_run. simpl.
  rewrite app_nil_r. eexists. split; reflexivity.
Qed.

Lemma null_answer_aborts_witness :
  exists m,
    extract Cases.nullWorld Scenario.request
    = (registryLookups "11969947" (authHeader "secret")
         ++ fst (primaryPass Cases.nullWorld (authHeader "secret")
                             (Some Scenario.statementOfAffairs)),
       serverError m)
    /\ isRow (snd (extract Cases.nullWorld Scenario.request)) = false.
Proof.
  apply (null_answer_aborts
           Cases.nullWorld Scenario.request "11969947" "secret" Scenario.acme
           {| items := Some (Scenario.statementOfAffairs :: Scenario.jonesHistory) |}
           (Some ""));
    reflexivity.
Defined.

(** ** The guard of the fallback pass (line 117) *)

(** When the primary pass left a non-empty firm name, no accounts
    document is downloaded or submitted, however many are on file: the
    row carries that name and the only later calls are the ethnicity
    question and the search for that name. *)
Theorem firm_name_found_skips_fallback
        (w : World) (body : Body) (number key : string)
        (c : CompanyData) (fd : FilingData) (d : option string)
        (t1 : list Event) (ed v : JsVal) :
  nonempty (companyNumber body) = Some number ->
  nonempty (chApiKey body) = Some key ->
  lookups w number (authHeader key)
  = (registryLookups number (authHeader key), Ok (c, fd, d)) ->
  primaryPass w (authHeader key) (soaItem fd) = (t1, Ok ed) ->
  Js.get ed firmName = Ok v ->
  Js.truthy v = true ->
  let run := extract w body in
  isRow (snd run) = true
  /\ field (snd run) "accountantFirmName" = Js.wire v
  /\ downloads (fst run) = []
  /\ extractions (fst run) = []
  /\ searches (fst run) = [v].
Proof.
  intros Hn Hk Hl Hp Hget Htr.
  unfold extract. rewrite Hn, Hk. unfold pipeline.
  rewrite (bind_ok _ _ _ _ Hl). unfold afterLookups.
  rewrite (bind_ok _ _ _ _ Hp). unfold afterPrimary.
  rewrite fallbackPass_run, Hget, Htr. cbn [negb andb].
  rewrite (bind_ok _ _ _ _ eq_refl).
  destruct (ethnicityStep_shape w d) as (eth & Heth & Hs).
  assert (He : ethnicityStep w d = (fst (ethnicityStep w d), Ok eth))
    by (rewrite <- Heth; now destruct (ethnicityStep w d)).
  rewrite (bind_ok _ _ _ _ He).
  rewrite webSearch_run_general, Hget, Htr.
  rewrite (bind_ok _ _ _ _ eq_refl), combined_run.
  assert (Hta : exists x, Js.get ed "totalAssets" = Ok x).
  { destruct ed; simpl in *; try discriminate; eauto. }
  destruct Hta as [x ->]. cbv zeta. simpl fst. simpl snd.
  assert (Hd1 : downloads t1 = [] /\ extractions t1 = [] /\ searches t1 = []).
  { destruct (primaryPass_shape w (authHeader key) (soaItem fd)) as (ed' & _ & Hs1).
    rewrite Hp in Hs1. simpl in Hs1.
    destruct Hs1 as [(-> & _)|(link & _ & [(-> & _)|(pdf & _ & -> & _)])];
      repeat split. }
  destruct Hd1 as (D1 & E1 & S1).
  assert (Hd3 : downloads (fst (ethnicityStep w d)) = []
                /\ extractions (fst (ethnicityStep w d)) = []
                /\ searches (fst (ethnicityStep w d)) = []).
  { destruct Hs as [(_ & -> & _)|(n & _ & ->)]; repeat split. }
  destruct Hd3 as (D3 & E3 & S3).
  cbn [downloads extractions searches].
  rewrite !downloads_app, !extractions_app, !searches_app.
  rewrite D1, E1, S1, D3, E3, S3.
  split; [reflexivity|]. split; [|repeat split].
  rewrite field_success. cbn [rowOf Js.lookup String.eqb Ascii.eqb Bool.eqb].
  unfold read. unfold firmName in Hget. rewrite Hget. unfold Js.or.
  now rewrite Htr.
Qed.

Lemma firm_name_found_skips_fallback_witness :
  let run := extract Cases.namedWorld Scenario.request in
  isRow (snd run) = true
  /\ field (snd run) "accountantFirmName" = Js.wire (JStr "Smith & Co")
  /\ downloads (fst run) = []
  /\ extractions (fst run) = []
  /\ searches (fst run) = [JStr "Smith & Co"].
Proof.
  apply (firm_name_found_skips_fallback
           Cases.namedWorld Scenario.request "11969947" "secret" Scenario.acme
           {| items := Some (Scenario.statementOfAffairs :: Scenario.jonesHistory) |}
           (Some "")
           (fst (primaryPass Cases.namedWorld (authHeader "secret")
                             (Some Scenario.statementOfAffairs)))
           (JObj [("accountantFirmName", JStr "Smith & Co")])
           (JStr "Smith & Co"));
    reflexivity.
Defined.

(** ** Witnesses for two properties proved with the claims *)

Lemma conforming_rows_hold_strings_witness :
  (forall k, In k soaFields ->
             Js.is_string
               (field (snd (extract Scenario.acmeWorld Scenario.request)) k)
             = true)
  /\ (field (snd (extract Scenario.acmeWorld Scenario.request)) "ethnicity"
      = JUndefined
      \/ Js.is_string
           (field (snd (extract Scenario.acmeWorld Scenario.request)) "ethnicity")
         = true).
Proof.
  apply (conforming_rows_hold_strings
           Scenario.acmeWorld Scenario.request
           (fst (extract Scenario.acmeWorld Scenario.request))
           (snd (extract Scenario.acmeWorld Scenario.request))).
  - intros s r v H. injection H as <-. reflexivity.
  - reflexivity.
  - reflexivity.
Defined.

Lemma failures_yield_nothing_witness :
  yield Scenario.failingWorld (authHeader "secret") 0 (Scenario.accounts "1")
  = None
  /\ yield Scenario.failingWorld (authHeader "secret") 1 (Scenario.accounts "2")
     = None.
Proof.
  split.
  - apply (failures_yield_nothing
             Scenario.failingWorld (authHeader "secret") 0
             (Scenario.accounts "1") "https://reg/acc/1" eq_refl).
    left. exists "fetch failed". reflexivity.
  - apply (failures_yield_nothing
             Scenario.failingWorld (authHeader "secret") 1
             (Scenario.accounts "2") "https://reg/acc/2" eq_refl).
    right. exists (Scenario.okResponse "PDF"). split; [reflexivity|].
    right. right. exists "PDF". split; [reflexivity|].
    right. left. exists "Unexpected token". reflexivity.
Defined.

End ServerCoverage.

(* ================================================================== *)
(** * The selection predicates (server.ts line 54, App.tsx line 64) *)
(* ================================================================== *)

Module PredicateCoverage.

Lemma prefix_iff (s1 s2 : string) :
  String.prefix s1 s2 = true <-> exists rest, s2 = (s1 ++ rest)%string.
Proof.
  revert s2. induction s1 as [|c s1 IH]; intros s2.
  - split; [intros _; now exists s2|intros _; now destruct s2].
  - destruct s2 as [|c' s2]; simpl.
    + split; [discriminate|intros [rest H]; discriminate H].
    + destruct (Ascii.ascii_dec c c') as [->|Hne].
      * rewrite IH. split; intros [rest H]; exists rest.
        -- now rewrite H.
        -- now injection H.
      * split; [discriminate|].
        intros [rest H]. injection H as H _. congruence.
Qed.

(** [hay.includes(needle)] holds exactly when [needle] occurs somewhere
    in [hay]. *)
Lemma includes_iff (needle hay : string) :
  includes needle hay = true
  <-> exists before rest, hay = (before ++ needle ++ rest)%string.
Proof.
  induction hay as [|c hay IH].
  - cbn [includes]. rewrite orb_false_r, prefix_iff. split.
    + intros [rest H]. exists "", rest. exact H.
    + intros (before & rest & H). destruct before; [now exists rest|discriminate].
  - cbn [includes]. rewrite orb_true_iff, prefix_iff, IH. split.
    + intros [[rest H]|(before & rest & H)].
      * exists "", rest. exact H.
      * exists (String c before), rest. simpl. now rewrite H.
    + intros (before & rest & H). destruct before as [|c' before].
      * left. now exists rest.
      * right. simpl in H. injection H as _ H. now exists before, rest.
Qed.

(** The server takes a filing for a statement of affairs exactly when
    its category is "insolvency", letter for letter, and its description
    is present and contains "statement-of-affairs" somewhere. *)
Theorem statement_of_affairs_predicate (item : FilingItem) :
  Server.isStatementOfAffairs item = true
  <-> category item = "insolvency"
      /\ exists d before rest,
          description item = Some d
          /\ d = (before ++ "statement-of-affairs" ++ rest)%string.
Proof.
  unfold Server.isStatementOfAffairs.
  rewrite andb_true_iff, String.eqb_eq.
  destruct (description item) as [d|].
  - rewrite includes_iff. split.
    + intros [Hc (before & rest & H)]. split; auto. now exists d, before, rest.
    + intros [Hc (d' & before & rest & [= <-] & H)]. split; auto.
      now exists before, rest.
  - split; [intros [_ H]; discriminate H|].
    intros [_ (d & _ & _ & H & _)]. discriminate H.
Qed.

(** The browser takes a filing for the statement of affairs when its
    category is "statement-of-affairs" or its description contains
    "resolution": a predicate that no statement-of-affairs filing of
    category "insolvency" satisfies unless its description says
    "resolution". *)
Theorem browser_predicate (item : FilingItem) :
  Browser.matches item = true
  <-> category item = "statement-of-affairs"
      \/ exists d before rest,
          description item = Some d
          /\ d = (before ++ "resolution" ++ rest)%string.
Proof.
  unfold Browser.matches.
  rewrite orb_true_iff, String.eqb_eq.
  destruct (description item) as [d|].
  - rewrite andb_true_iff, includes_iff, negb_true_iff. split.
    + intros [Hc|[_ (before & rest & H)]]; [now left|].
      right. now exists d, before, rest.
    + intros [Hc|(d' & before & rest & [= <-] & H)]; [now left|].
      right. split; [|now exists before, rest].
      apply String.eqb_neq. intros ->.
      destruct before; discriminate H.
  - split.
    + intros [Hc|H]; [now left|discriminate H].
    + intros [Hc|(d & _ & _ & H & _)]; [now left|discriminate H].
Qed.

End PredicateCoverage.

(* ================================================================== *)
(** * vite.config.ts: the middleware as a whole *)
(* ================================================================== *)

Module PdfProxyCoverage.
Import PdfProxy ProxyLog.

(** Every run of the promise chain, by the place where it ends. *)
Lemma chain_cases w targetUrl apiKey :
  let metaReq := metaRequest targetUrl apiKey in
  (exists m,
      chain w targetUrl apiKey = ([EvFetch MetadataLookup metaReq], Thrown m)
      /\ (fetchMetadata w metaReq = Rejected m
          \/ (exists r, fetchMetadata w metaReq = Responded r
                        /\ payload r = Thrown m)
          \/ (exists r meta, fetchMetadata w metaReq = Responded r
                             /\ payload r = Ok meta
                             /\ documentLink meta = None
                             /\ m = "No document link found in Companies House.")))
  \/ (exists link,
         named w targetUrl apiKey link
         /\ let docReq := docRequest link apiKey in
            (exists m,
                fetchDocument w docReq = Rejected m
                /\ chain w targetUrl apiKey
                   = ([EvFetch MetadataLookup metaReq;
                       EvFetch DocumentRequest docReq], Thrown m))
            \/ (exists docRes,
                   fetchDocument w docReq = Responded docRes
                   /\ let s3Req := s3Request (s3Url link docRes) in
                      chain w targetUrl apiKey
                      = ([EvFetch MetadataLookup metaReq;
                          EvFetch DocumentRequest docReq;
                          EvFetch StorageDownload s3Req],
                         match fetchStorage w s3Req with
                         | Rejected m => Thrown m
                         | Responded s3Res =>
                             match payload s3Res with
                             | Ok buffer => Ok (Base64.encode buffer)
                             | Thrown m => Thrown m
                             end
                         end))).
Proof.
  cbv zeta.
  unfold chain, Eff.bind, Eff.call, Eff.lift, Eff.ret, Eff.throw.
  destruct (fetchMetadata w (metaRequest targetUrl apiKey)) as [m|r] eqn:Hm;
    simpl.
  { left. exists m. auto. }
  destruct (payload r) as [meta|m] eqn:Hp; simpl.
  2:{ left. exists m. split; auto. right. left. now exists r. }
  destruct (documentLink meta) as [link|] eqn:Hl; simpl.
  2:{ left. eexists. split; [reflexivity|]. right. right. now exists r, meta. }
  right. exists link. split; [now exists r, meta|].
  destruct (fetchDocument w (docRequest link apiKey)) as [m|docRes] eqn:Hd;
    simpl.
  { left. now exists m. }
  right. exists docRes. split; [reflexivity|].
  destruct (fetchStorage w (s3Request (s3Url link docRes))) as [m|s3Res];
    simpl; [reflexivity|].
  destruct (payload s3Res); reflexivity.
Qed.

Lemma named_unique w targetUrl apiKey link link' :
  named w targetUrl apiKey link -> named w targetUrl apiKey link' ->
  link = link'.
Proof.
  intros (r & meta & Hr & Hp & Hl) (r' & meta' & Hr' & Hp' & Hl').
  congruence.
Qed.

Lemma reply_cases w h :
  snd (ch_pdf_proxy w h) = missingHeaders
  \/ (exists m, snd (ch_pdf_proxy w h) = failed m)
  \/ (exists base64, snd (ch_pdf_proxy w h) = delivered base64).
Proof.
  unfold ch_pdf_proxy.
  destruct (nonempty (x_target_url h)) as [targetUrl|]; [|now left].
  destruct (nonempty (x_api_key h)) as [apiKey|]; [|now left].
  destruct (chain w targetUrl apiKey) as [t [base64|m]]; right.
  - right. now exists base64.
  - left. now exists m.
Qed.

(** The middleware has three replies: 400 "Missing headers", made
    without any request and exactly when a header is missing or empty;
    500 with the message of the error, after one to three requests; 200
    with [success: true] and the base64 text, after exactly three
    requests. *)
Theorem proxy_reply_shapes (w : World) (h : Headers) :
  let run := ch_pdf_proxy w h in
  (snd run = missingHeaders /\ fst run = []
   /\ (nonempty (x_target_url h) = None \/ nonempty (x_api_key h) = None))
  \/ (nonempty (x_target_url h) <> None /\ nonempty (x_api_key h) <> None
      /\ ((exists m, snd run = failed m /\ 1 <= length (fst run) <= 3)
          \/ (exists base64, snd run = delivered base64
                             /\ length (fst run) = 3))).
Proof.
  cbv zeta. unfold ch_pdf_proxy.
  destruct (nonempty (x_target_url h)) as [targetUrl|]; [|left; auto].
  destruct (nonempty (x_api_key h)) as [apiKey|]; [|left; auto].
  right. split; [discriminate|]. split; [discriminate|].
  destruct (chain_cases w targetUrl apiKey)
    as [(m & -> & _)|(link & _ & [(m & _ & ->)|(docRes & _ & ->)])];
    cbv zeta.
  - left. exists m. simpl. split; [reflexivity|lia].
  - left. exists m. simpl. split; [reflexivity|lia].
  - destruct (fetchStorage w _) as [m|s3Res].
    + left. exists m. simpl. split; [reflexivity|lia].
    + destruct (payload s3Res) as [buffer|m].
      * right. exists (Base64.encode buffer). simpl. auto.
      * left. exists m. simpl. split; [reflexivity|lia].
Qed.

(** The API key goes to the registry only: a request of the middleware
    either carries no header at all, or is the metadata request to the
    caller's URL, or is the request to the document link the metadata
    names; both of these carry the [Authorization] header made of the
    trimmed key. *)
Theorem credential_stays_with_the_registry
        (w : World) (h : Headers) (targetUrl apiKey : string) (r : Request) :
  nonempty (x_target_url h) = Some targetUrl ->
  nonempty (x_api_key h) = Some apiKey ->
  In r (requests (fst (ch_pdf_proxy w h))) ->
  (headers r = [] /\ authorized r = false)
  \/ (headers r = authorization apiKey
      /\ (r = metaRequest targetUrl apiKey
          \/ exists link, named w targetUrl apiKey link
                          /\ r = docRequest link apiKey)).
Proof.
  intros Ht Hk. unfold ch_pdf_proxy. rewrite Ht, Hk.
  destruct (chain_cases w targetUrl apiKey)
    as [(m & -> & _)|(link & Hn & [(m & _ & ->)|(docRes & _ & ->)])];
    cbv zeta.
  - simpl. intros [<-|[]]. right. auto.
  - simpl. intros [<-|[<-|[]]]; right; split; auto.
    right. now exists link.
  - destruct (fetchStorage w _) as [m|s3Res]; [|destruct (payload s3Res)];
      simpl; (intros [<-|[<-|[<-|[]]]];
              [right; split; auto
              |right; split; auto; right; now exists link
              |left; split; reflexivity]).
Qed.

Lemma credential_stays_with_the_registry_witness :
  let r := s3Request "https://s3/abc" in
  (headers r = [] /\ authorized r = false)
  \/ (headers r = authorization "secret"
      /\ (r = metaRequest "https://reg/doc/1" "secret"
          \/ exists link,
               named (Scenario.redirecting (Some "https://s3/abc"))
                     "https://reg/doc/1" "secret" link
               /\ r = docRequest link "secret")).
Proof.
  apply (credential_stays_with_the_registry
           (Scenario.redirecting (Some "https://s3/abc"))
           Scenario.proxyHeaders "https://reg/doc/1" "secret"
           (s3Request "https://s3/abc") eq_refl eq_refl).
  vm_compute. right. right. left. reflexivity.
Defined.

(** No status is ever looked at, except the 3xx test on the document
    answer: when the three requests are answered and the last body can
    be read, the middleware replies 200 with [success: true] and the
    base64 of that body, whatever the status of each answer. *)
Theorem statuses_are_never_checked
        (w : World) (h : Headers) (targetUrl apiKey link : string)
        (docRes : Response unit) (s3Res : Response string) (buffer : string) :
  nonempty (x_target_url h) = Some targetUrl ->
  nonempty (x_api_key h) = Some apiKey ->
  named w targetUrl apiKey link ->
  fetchDocument w (docRequest link apiKey) = Responded docRes ->
  fetchStorage w (s3Request (s3Url link docRes)) = Responded s3Res ->
  payload s3Res = Ok buffer ->
  snd (ch_pdf_proxy w h) = delivered (Base64.encode buffer).
Proof.
  intros Ht Hk Hn Hd Hs Hb. unfold ch_pdf_proxy. rewrite Ht, Hk.
  destruct (chain_cases w targetUrl apiKey)
    as [(m & _ & [Hm|[(r & Hm & Hp)|(r & meta & Hm & Hp & Hl & _)]])
       |(link' & Hn' & H)];
    try (destruct Hn as (r0 & meta0 & Hr0 & Hp0 & Hl0); congruence).
  rewrite <- (named_unique _ _ _ _ _ Hn Hn') in H. cbv zeta in H.
  destruct H as [(m & Hd' & _)|(docRes' & Hd' & ->)]; [congruence|].
  assert (docRes' = docRes) by congruence. subst docRes'.
  rewrite Hs, Hb. reflexivity.
Qed.

Lemma statuses_are_never_checked_witness :
  snd (ch_pdf_proxy Cases.errorStatusWorld Scenario.proxyHeaders)
  = delivered (Base64.encode "AccessDenied").
Proof.
  apply (statuses_are_never_checked
           Cases.errorStatusWorld Scenario.proxyHeaders
           "https://reg/doc/1" "secret" "https://reg/doc/1/content"
           {| status := 401; statusText := "Unauthorized";
              location := None; payload := Ok tt |}
           {| status := 403; statusText := "Forbidden";
              location := None; payload := Ok "AccessDenied" |}
           "AccessDenied" eq_refl eq_refl).
  - exists {| status := 404; statusText := "Not Found";
              location := None; payload := Ok Scenario.documentMeta |},
           Scenario.documentMeta.
    repeat split.
  - reflexivity.
  - reflexivity.
  - reflexivity.
Defined.

(** When the document endpoint answers anything but a 3xx, its answer
    is dropped and the document link is requested a second time, now
    without any header. *)
Theorem direct_answer_is_fetched_again
        (w : World) (h : Headers) (targetUrl apiKey link : string)
        (docRes : Response unit) :
  nonempty (x_target_url h) = Some targetUrl ->
  nonempty (x_api_key h) = Some apiKey ->
  named w targetUrl apiKey link ->
  fetchDocument w (docRequest link apiKey) = Responded docRes ->
  (status docRes < 300 \/ 400 <= status docRes)%Z ->
  requests (fst (ch_pdf_proxy w h))
  = [metaRequest targetUrl apiKey; docRequest link apiKey; s3Request link]
  /\ url (s3Request link) = url (docRequest link apiKey)
  /\ headers (s3Request link) = [].
Proof.
  intros Ht Hk (r & meta & Hm & Hp & Hl) Hd Hs.
  split; [|split; reflexivity].
  unfold ch_pdf_proxy. rewrite Ht, Hk.
  rewrite (PdfProxyProofs.chain_after_document w _ _ _ _ _ _ Hm Hp Hl Hd).
  assert (Hs3 : s3Url link docRes = link).
  { unfold s3Url.
    replace ((300 <=? status docRes) && (status docRes <? 400))%Z with false;
      [reflexivity|].
    symmetry. apply andb_false_iff.
    destruct Hs; [left; apply Z.leb_gt|right; apply Z.ltb_ge]; lia. }
  rewrite Hs3.
  destruct (settle (fetchStorage w (s3Request link))) as [s3Res|m];
    [destruct (payload s3Res)|]; reflexivity.
Qed.

Lemma direct_answer_is_fetched_again_witness :
  requests (fst (ch_pdf_proxy Cases.errorStatusWorld Scenario.proxyHeaders))
  = [metaRequest "https://reg/doc/1" "secret";
     docRequest "https://reg/doc/1/content" "secret";
     s3Request "https://reg/doc/1/content"]
  /\ url (s3Request "https://reg/doc/1/content")
     = url (docRequest "https://reg/doc/1/content" "secret")
  /\ headers (s3Request "https://reg/doc/1/content") = [].
Proof.
  apply (direct_answer_is_fetched_again
           Cases.errorStatusWorld Scenario.proxyHeaders
           "https://reg/doc/1" "secret" "https://reg/doc/1/content"
           {| status := 401; statusText := "Unauthorized";
              location := None; payload := Ok tt |}
           eq_refl eq_refl).
  - exists {| status := 404; statusText := "Not Found";
              location := None; payload := Ok Scenario.documentMeta |},
           Scenario.documentMeta.
    repeat split.
  - reflexivity.
  - right. simpl. lia.
Defined.

(** The reply is 500 with message [m] after [n] requests exactly when
    the chain broke at its [n]-th request with [m]: the metadata request
    was rejected, its body was not JSON, or it named no document (the
    error of line 30); the document request was rejected; the storage
    request was rejected or its body could not be read. *)
Theorem failure_stops_the_chain
        (w : World) (h : Headers) (targetUrl apiKey m : string) (n : nat) :
  nonempty (x_target_url h) = Some targetUrl ->
  nonempty (x_api_key h) = Some apiKey ->
  let metaReq := metaRequest targetUrl apiKey in
  (snd (ch_pdf_proxy w h) = failed m /\ length (fst (ch_pdf_proxy w h)) = n)
  <->
  (n = 1
   /\ (fetchMetadata w metaReq = Rejected m
       \/ (exists r, fetchMetadata w metaReq = Responded r
                     /\ payload r = Thrown m)
       \/ (exists r meta, fetchMetadata w metaReq = Responded r
                          /\ payload r = Ok meta
                          /\ documentLink meta = None
                          /\ m = "No document link found in Companies House.")))
  \/ (exists link,
         named w targetUrl apiKey link
         /\ ((n = 2 /\ fetchDocument w (docRequest link apiKey) = Rejected m)
             \/ (n = 3
                 /\ exists docRes,
                      fetchDocument w (docRequest link apiKey)
                      = Responded docRes
                      /\ let s3Req := s3Request (s3Url link docRes) in
                         fetchStorage w s3Req = Rejected m
                         \/ exists s3Res,
                              fetchStorage w s3Req = Responded s3Res
                              /\ payload s3Res = Thrown m))).
Proof.
  intros Ht Hk. cbv zeta. unfold ch_pdf_proxy, failed. rewrite Ht, Hk.
  destruct (chain_cases w targetUrl apiKey)
    as [(m0 & -> & Hc)|(link & Hn & [(m0 & Hd & ->)|(docRes & Hd & ->)])];
    cbv zeta; simpl.
  - split.
    + intros [[= <-] <-]. left. auto.
    + intros [[-> Hc']|(link & (r & meta & Hr & Hp & Hl) & _)].
      * split; [|reflexivity].
        destruct Hc as [Hc|[(r & Hr & Hp)|(r & meta & Hr & Hp & Hl & ->)]];
          destruct Hc' as [Hc'|[(r' & Hr' & Hp')|(r' & meta' & Hr' & Hp' & Hl' & ->)]];
          congruence.
      * destruct Hc as [Hc|[(r' & Hr' & Hp')|(r' & meta' & Hr' & Hp' & Hl' & _)]];
          congruence.
  - split.
    + intros [[= <-] <-]. right. exists link. auto.
    + intros [[-> Hc']|(link' & Hn' & H)].
      * destruct Hn as (r & meta & Hr & Hp & Hl).
        destruct Hc' as [Hc'|[(r' & Hr' & Hp')|(r' & meta' & Hr' & Hp' & Hl' & _)]];
          congruence.
      * rewrite <- (named_unique _ _ _ _ _ Hn Hn') in H.
        destruct H as [[-> Hd']|[-> (docRes & Hd' & _)]]; [|congruence].
        split; [|reflexivity]. congruence.
  - destruct (fetchStorage w (s3Request (s3Url link docRes))) as [m0|s3Res] eqn:Hs;
      [|destruct (payload s3Res) as [buffer|m0] eqn:Hb]; simpl.
    + split.
      * intros [[= <-] <-]. right. exists link. split; auto.
        right. split; auto. exists docRes. split; auto.
      * intros [[-> Hc']|(link' & Hn' & H)].
        -- destruct Hn as (r & meta & Hr & Hp & Hl).
           destruct Hc' as [Hc'|[(r' & Hr' & Hp')|(r' & meta' & Hr' & Hp' & Hl' & _)]];
             congruence.
        -- rewrite <- (named_unique _ _ _ _ _ Hn Hn') in H.
           destruct H as [[-> Hd']|[-> (docRes' & Hd' & H)]]; [congruence|].
           assert (docRes' = docRes) by congruence. subst docRes'.
           cbv zeta in H. rewrite Hs in H.
           destruct H as [H|(s3Res & H & _)]; [|discriminate H].
           split; [|reflexivity]. congruence.
    + split.
      * intros [H _]. discriminate H.
      * intros [[-> Hc']|(link' & Hn' & H)].
        -- destruct Hn as (r & meta & Hr & Hp & Hl).
           destruct Hc' as [Hc'|[(r' & Hr' & Hp')|(r' & meta' & Hr' & Hp' & Hl' & _)]];
             congruence.
        -- rewrite <- (named_unique _ _ _ _ _ Hn Hn') in H.
           destruct H as [[-> Hd']|[-> (docRes' & Hd' & H)]]; [congruence|].
           assert (docRes' = docRes) by congruence. subst docRes'.
           cbv zeta in H. rewrite Hs in H.
           destruct H as [H|(s3Res' & H & Hb')]; [discriminate H|].
           congruence.
    + split.
      * intros [[= <-] <-]. right. exists link. split; auto.
        right. split; auto. exists docRes. split; auto.
        right. now exists s3Res.
      * intros [[-> Hc']|(link' & Hn' & H)].
        -- destruct Hn as (r & meta & Hr & Hp & Hl).
           destruct Hc' as [Hc'|[(r' & Hr' & Hp')|(r' & meta' & Hr' & Hp' & Hl' & _)]];
             congruence.
        -- rewrite <- (named_unique _ _ _ _ _ Hn Hn') in H.
           destruct H as [[-> Hd']|[-> (docRes' & Hd' & H)]]; [congruence|].
           assert (docRes' = docRes) by congruence. subst docRes'.
           cbv zeta in H. rewrite Hs in H.
           destruct H as [H|(s3Res' & H & Hb')]; [discriminate H|].
           split; [|reflexivity]. congruence.
Qed.

Lemma failure_stops_the_chain_witness :
  (snd (ch_pdf_proxy Cases.noLinkWorld Scenario.proxyHeaders)
   = failed "No document link found in Companies House."
   /\ length (fst (ch_pdf_proxy Cases.noLinkWorld Scenario.proxyHeaders)) = 1)
  /\ (snd (ch_pdf_proxy Cases.storageDownWorld Scenario.proxyHeaders)
      = failed "fetch failed"
      /\ length (fst (ch_pdf_proxy Cases.storageDownWorld
                                   Scenario.proxyHeaders)) = 3).
Proof.
  split.
  - apply (failure_stops_the_chain
             Cases.noLinkWorld Scenario.proxyHeaders
             "https://reg/doc/1" "secret"
             "No document link found in Companies House." 1
             eq_refl eq_refl).
    left. split; [reflexivity|]. right. right.
    exists (Scenario.okResponse
              {| meta_links := Some {| document := None |} |}),
           {| meta_links := Some {| document := None |} |}.
    repeat split.
  - apply (failure_stops_the_chain
             Cases.storageDownWorld Scenario.proxyHeaders
             "https://reg/doc/1" "secret" "fetch failed" 3
             eq_refl eq_refl).
    right. exists "https://reg/doc/1/content". split.
    + exists (Scenario.okResponse Scenario.documentMeta),
             Scenario.documentMeta.
      repeat split.
    + right. split; [reflexivity|].
      exists {| status := 302; statusText := "Found";
                location := Some "https://s3/abc"; payload := Ok tt |}.
      split; [reflexivity|]. left. reflexivity.
Defined.

End PdfProxyCoverage.

(* ================================================================== *)
(** * src/App.tsx: [handleExtract] as a whole, and the dev server *)
(* ================================================================== *)

Module BrowserCoverage.
Import Browser BrowserLog.

Ltac run_extraction :=
  unfold extraction, step, Eff.bind, Eff.call, Eff.throw, Eff.lift, Eff.ret.

Ltac ends_at n :=
  exists n; simpl; repeat split; try lia; try (intros ? [=]).

(** The log of line 47 and of the [try] block: step [n] is announced
    before the [n]-th outside call, and the calls come in the order
    details, history, PDF, AI; when [btoa] throws, step 1 is all there
    is. *)
Lemma extraction_log w s current :
  exists m,
    1 <= m <= 5
    /\ steps (fst (extraction w s)) = seq 1 m
    /\ match authHeader s with
       | Some _ =>
           outside (fst (extraction w s))
           = firstn m [ToDetails; ToHistory; ToPdf; ToGemini]
       | None =>
           extraction w s = ([EvStep 1], Thrown (btoaError w)) /\ m = 1
       end
    /\ lastStep (fst (extraction w s)) current = m
    /\ (forall row, snd (extraction w s) = Ok row -> m = 5).
Proof.
  run_extraction.
  destruct (authHeader s) as [auth|]; simpl; [|ends_at 1].
  destruct (fetchDetails w (detailsRequest s auth)) as [m|detailsRes]; simpl;
    [ends_at 1|].
  destruct (ok detailsRes); simpl; [|ends_at 1].
  destruct (payload detailsRes) as [details|m]; simpl; [|ends_at 1].
  destruct (fetchHistory w (historyRequest s auth)) as [m|historyRes]; simpl;
    [ends_at 2|].
  destruct (payload historyRes) as [history|m]; simpl; [|ends_at 2].
  destruct (soaMeta (historyItems history)) as [link|]; simpl; [|ends_at 2].
  destruct (fetchPdf w _) as [m|pdfRes]; simpl; [ends_at 3|].
  destruct (payload pdfRes) as [pdfData|m]; simpl; [|ends_at 3].
  destruct (success pdfData); simpl; [|ends_at 3].
  destruct (fetchGemini w _ _ _) as [m|aiResponse]; simpl; [ends_at 4|].
  destruct (payload aiResponse) as [aiData|m]; simpl; [|ends_at 4].
  destruct (ok aiResponse); simpl; [|ends_at 4].
  destruct (table aiData) as [extractedData|m]; simpl; ends_at 5.
Qed.

Lemma steps_app t t' : steps (t ++ t') = steps t ++ steps t'.
Proof.
  induction t as [|[c r|u p d|n] t IH]; simpl; auto. now rewrite IH.
Qed.

Lemma outside_app t t' : outside (t ++ t') = outside t ++ outside t'.
Proof.
  induction t as [|[[] r|u p d|n] t IH]; simpl; auto; now rewrite IH.
Qed.


(** A run of [handleExtract] announces its steps in order from 1; no
    step is announced when an input is missing, and step 6 is reached
    exactly when a row was added.  When [btoa] accepts the key, each
    step up to 4 is followed by the outside call of the same rank, in
    the order details, history, PDF, AI, at most one of each.  When
    [btoa] throws, the run ends at step 1 without any outside call, with
    the message of that error. *)
Theorem browser_call_order (w : World) (s : State) :
  let run := handleExtract w s in
  exists m,
    m <= 6
    /\ steps (fst run) = seq 1 m
    /\ (m = 0 <-> chApiKey s = "" \/ geminiApiKey s = "" \/ companyNumber s = "")
    /\ (m = 6 <-> exists row, rows (snd run) = row :: rows s)
    /\ match authHeader s with
       | Some _ =>
           outside (fst run)
           = firstn m [ToDetails; ToHistory; ToPdf; ToGemini]
       | None =>
           outside (fst run) = []
           /\ (m = 0
               \/ (m = 1
                   /\ error_text (snd run)
                      = ("Extraction Failed: " ++ btoaError w)%string))
       end.
Proof.
  cbv zeta. unfold handleExtract.
  assert (Hnil : forall (row : JsVal) (l : list JsVal), l <> row :: l).
  { intros row l H. apply (f_equal (@length _)) in H. simpl in H. lia. }
  destruct (chApiKey s =? "") eqn:Ec; cbn [orb].
  { apply String.eqb_eq in Ec. exists 0. repeat split; auto; try lia.
    - intros [row H]. now apply Hnil in H.
    - destruct (authHeader s); simpl; auto. }
  destruct (geminiApiKey s =? "") eqn:Eg.
  { apply String.eqb_eq in Eg. exists 0. repeat split; auto; try lia.
    - intros [row H]. now apply Hnil in H.
    - destruct (authHeader s); simpl; auto. }
  destruct (companyNumber s =? "") eqn:En.
  { apply String.eqb_eq in En. exists 0. repeat split; auto; try lia.
    - intros [row H]. now apply Hnil in H.
    - destruct (authHeader s); simpl; auto. }
  apply String.eqb_neq in Ec, Eg, En.
  destruct (extraction_log w (setError (setLoading s true) "") (activeStep s))
    as (m & Hm & Hs & Ho & _ & Hok).
  change (authHeader (setError (setLoading s true) "")) with (authHeader s) in Ho.
  destruct (extraction w (setError (setLoading s true) "")) as [t [row|msg]];
    cbn [fst snd] in *.
  - assert (m = 5) by (apply (Hok row); reflexivity). subst m.
    exists 6. rewrite steps_app, outside_app, Hs.
    repeat split; auto; try lia.
    + intros [H|[H|H]]; contradiction.
    + intros _. now exists row.
    + destruct (authHeader s); [now rewrite Ho|].
      destruct Ho as [H _]. discriminate H.
  - exists m. repeat split; auto; try lia.
    + intros [H|[H|H]]; contradiction.
    + intros [row H]. now apply Hnil in H.
    + destruct (authHeader s); [exact Ho|].
      destruct Ho as [[= -> ->] ->]. split; [reflexivity|]. right.
      split; reflexivity.
Qed.

(** What a run of [handleExtract] does to the state: it never touches
    the keys or the company number; with an input missing it only sets
    one of the two validation messages; otherwise it ends with [loading]
    off and either a row prepended, no error and step 6, or the rows as
    they were, an error that starts with "Extraction Failed: " and a
    step between 1 and 5. *)
Theorem handleExtract_state (w : World) (s : State) :
  let s' := snd (handleExtract w s) in
  chApiKey s' = chApiKey s
  /\ geminiApiKey s' = geminiApiKey s
  /\ companyNumber s' = companyNumber s
  /\ (((chApiKey s = "" \/ geminiApiKey s = "" \/ companyNumber s = "")
       /\ fst (handleExtract w s) = []
       /\ (s' = setError s "Please set both API Keys in the sidebar."
           \/ s' = setError s "Please enter a valid Company Number."))
      \/ (loading s' = false
          /\ ((exists row, rows s' = row :: rows s
                           /\ error_text s' = ""
                           /\ activeStep s' = 6)
              \/ (exists message,
                     rows s' = rows s
                     /\ error_text s' = ("Extraction Failed: " ++ message)%string
                     /\ 1 <= activeStep s' <= 5)))).
Proof.
  cbv zeta. unfold handleExtract.
  destruct (chApiKey s =? "") eqn:Ec; simpl.
  { apply String.eqb_eq in Ec. repeat split; auto; left; auto. }
  destruct (geminiApiKey s =? "") eqn:Eg; simpl.
  { apply String.eqb_eq in Eg. repeat split; auto; left; auto. }
  destruct (companyNumber s =? "") eqn:En; simpl.
  { apply String.eqb_eq in En. repeat split; auto; left; auto. }
  destruct (extraction_log w (setError (setLoading s true) "") (activeStep s))
    as (m & Hm & _ & _ & Hl & _).
  destruct (extraction w (setError (setLoading s true) "")) as [t [row|msg]];
    simpl in *.
  - repeat split; auto. right. split; auto. left. now exists row.
  - repeat split; auto. right. split; auto. right. exists msg.
    rewrite Hl. repeat split; auto; lia.
Qed.


(** Only the status of the profile answer is looked at: whatever the
    status of the filing-history answer, if its body is JSON and holds a
    linked candidate, the run goes on to request that document from
    [/api/pdf], with the link and the trimmed key as headers.  (The run
    gets that far when [btoa] accepted the key, the profile answered 2xx
    and its body was JSON.) *)
Theorem history_status_is_not_checked
        (w : World) (s : State) (auth : list (string * string))
        (detailsRes : Response CompanyData)
        (details : CompanyData) (historyRes : Response FilingData)
        (history : FilingData) (link : string) :
  chApiKey s <> "" -> geminiApiKey s <> "" -> companyNumber s <> "" ->
  authHeader s = Some auth ->
  fetchDetails w (detailsRequest s auth) = Responded detailsRes ->
  ok detailsRes = true ->
  payload detailsRes = Ok details ->
  fetchHistory w (historyRequest s auth) = Responded historyRes ->
  payload historyRes = Ok history ->
  soaMeta (historyItems history) = Some link ->
  exists rest,
    fst (handleExtract w s)
    = [EvStep 1; EvFetch Details (detailsRequest s auth);
       EvStep 2; EvFetch History (historyRequest s auth);
       EvStep 3; EvFetch Pdf (pdfRequest s link)] ++ rest.
Proof.
  destruct s as [ck gk cn lo st er rs].
  intros Hc Hg Hn Ha Hd Hok Hp Hh Hph Hsoa.
  unfold handleExtract.
  apply String.eqb_neq in Hc, Hg, Hn.
  run_extraction.
  unfold detailsRequest, historyRequest, pdfRequest, authHeader in *.
  cbn [chApiKey geminiApiKey companyNumber rows activeStep error_text loading
       setError setLoading setActiveStep setResults] in *.
  rewrite Hc, Hg, Hn. cbn [orb]. rewrite Ha.
  rewrite Hd. cbn [settle]. rewrite Hok. cbn [negb]. rewrite Hp.
  rewrite Hh. cbn [settle]. rewrite Hph. rewrite Hsoa.
  destruct (fetchPdf w _) as [m|pdfRes]; simpl; [now eexists|].
  destruct (payload pdfRes) as [pdfData|m]; simpl; [|now eexists].
  destruct (success pdfData); simpl; [|now eexists].
  destruct (fetchGemini w _ _ _) as [m|aiResponse]; simpl; [now eexists|].
  destruct (payload aiResponse) as [aiData|m]; simpl; [|now eexists].
  destruct (ok aiResponse); simpl; [|now eexists].
  destruct (table aiData) as [extractedData|m]; simpl; now eexists.
Qed.

Lemma history_status_is_not_checked_witness :
  exists rest,
    fst (handleExtract Cases.pageWorld Scenario.browserState)
    = [EvStep 1;
       EvFetch Details
               (detailsRequest Scenario.browserState
                               [("Authorization", "Basic c2VjcmV0Og==")]);
       EvStep 2;
       EvFetch History
               (historyRequest Scenario.browserState
                               [("Authorization", "Basic c2VjcmV0Og==")]);
       EvStep 3;
       EvFetch Pdf (pdfRequest Scenario.browserState "https://reg/doc/1")]
      ++ rest.
Proof.
  apply (history_status_is_not_checked
           Cases.pageWorld Scenario.browserState
           [("Authorization", "Basic c2VjcmV0Og==")]
           (Scenario.okResponse Scenario.acme) Scenario.acme
           {| status := 416; statusText := "Range Not Satisfiable";
              location := None;
              payload := Ok {| items := Some [Scenario.accounts "1";
                                              Cases.resolution] |} |}
           {| items := Some [Scenario.accounts "1"; Cases.resolution] |}
           "https://reg/doc/1");
    try discriminate; reflexivity.
Defined.

Lemma soaMeta_first_linked_match_witness :
  exists before item after,
    [Scenario.filing "statement-of-affairs" "liquidation" None;
     Scenario.accounts "1"; Cases.resolution]
    = before ++ item :: after
    /\ matches item = true
    /\ document_metadata_of item = Some "https://reg/doc/1"
    /\ (forall x, In x before ->
                  matches x = false \/ document_metadata_of x = None).
Proof.
  apply (BrowserProofs.soaMeta_first_linked_match
           [Scenario.filing "statement-of-affairs" "liquidation" None;
            Scenario.accounts "1"; Cases.resolution]
           "https://reg/doc/1").
  reflexivity.
Defined.

(** The run from the PDF step on, when [/api/pdf] answers. *)
Lemma handleExtract_pdf_step
      w s auth detailsRes details historyRes history link pdfRes pdfData :
  chApiKey s <> "" -> geminiApiKey s <> "" -> companyNumber s <> "" ->
  authHeader s = Some auth ->
  fetchDetails w (detailsRequest s auth) = Responded detailsRes ->
  ok detailsRes = true ->
  payload detailsRes = Ok details ->
  fetchHistory w (historyRequest s auth) = Responded historyRes ->
  payload historyRes = Ok history ->
  soaMeta (historyItems history) = Some link ->
  fetchPdf w (pdfRequest s link) = Responded pdfRes ->
  payload pdfRes = Ok pdfData ->
  let run := handleExtract w s in
  if success pdfData then
    In (EvGemini (geminiUrl s) geminiPrompt (base64 pdfData)) (fst run)
  else
    error_text (snd run)
    = ("Extraction Failed: PDF Download failed: " ++ shown (error pdfData))%string
    /\ outside (fst run) = [ToDetails; ToHistory; ToPdf]
    /\ rows (snd run) = rows s.
Proof.
  destruct s as [ck gk cn lo st er rs].
  intros Hc Hg Hn Ha Hd Hok Hp Hh Hph Hsoa Hpdf Hpp.
  unfold handleExtract.
  apply String.eqb_neq in Hc, Hg, Hn.
  run_extraction.
  unfold detailsRequest, historyRequest, pdfRequest, geminiUrl, authHeader in *.
  cbn [chApiKey geminiApiKey companyNumber rows activeStep error_text loading
       setError setLoading setActiveStep setResults] in *.
  rewrite Hc, Hg, Hn. cbn [orb]. rewrite Ha.
  rewrite Hd. cbn [settle]. rewrite Hok. cbn [negb]. rewrite Hp.
  rewrite Hh. cbn [settle]. rewrite Hph. rewrite Hsoa.
  rewrite Hpdf. cbn [settle]. rewrite Hpp.
  destruct (success pdfData); simpl; [|repeat split].
  destruct (fetchGemini w _ _ _) as [m|aiResponse]; simpl; [tauto|].
  destruct (payload aiResponse) as [aiData|m]; simpl; [|tauto].
  destruct (ok aiResponse); simpl; [|tauto].
  destruct (table aiData) as [extractedData|m]; simpl; tauto.
Qed.

(** The page behind the dev server: once the registry has named a
    document, the PDF step does what the middleware's reply says,
    whatever its status.  A reply that carries an error, the 400 for a
    key of white space included, ends the run with that error after the
    third call and without a row; a 200 reply hands its base64 text to
    the AI call.  (The run gets to the PDF step when [btoa] accepted the
    key, the profile answered 2xx and both bodies were JSON; the link
    and the trimmed key reach the middleware as they are when they are
    made of visible ASCII characters.) *)
Theorem pdf_step_follows_the_proxy
        (pw : PdfProxy.World) (bw : World) (s : State)
        (auth : list (string * string))
        (detailsRes : Response CompanyData) (details : CompanyData)
        (historyRes : Response FilingData) (history : FilingData)
        (link : string) :
  chApiKey s <> "" -> geminiApiKey s <> "" -> companyNumber s <> "" ->
  authHeader s = Some auth ->
  fetchDetails bw (detailsRequest s auth) = Responded detailsRes ->
  ok detailsRes = true ->
  payload detailsRes = Ok details ->
  fetchHistory bw (historyRequest s auth) = Responded historyRes ->
  payload historyRes = Ok history ->
  soaMeta (historyItems history) = Some link ->
  isVisible link = true ->
  isVisible (trim (chApiKey s)) = true ->
  let reply :=
    snd (PdfProxy.ch_pdf_proxy
           pw {| PdfProxy.x_target_url := Some link;
                 PdfProxy.x_api_key := Some (trim (chApiKey s)) |}) in
  let run := handleExtract (DevServer.page pw bw) s in
  (exists message,
      PdfProxy.written reply = JObj [("error", JStr message)]
      /\ error_text (snd run)
         = ("Extraction Failed: PDF Download failed: " ++ message)%string
      /\ outside (fst run) = [ToDetails; ToHistory; ToPdf]
      /\ rows (snd run) = rows s)
  \/ (exists base64,
         reply = ProxyLog.delivered base64
         /\ In (EvGemini (geminiUrl s) geminiPrompt (Some base64)) (fst run)).
Proof.
  intros Hc Hg Hn Ha Hd Hok Hp Hh Hph Hsoa Hvl Hvk. cbv zeta.
  set (reply := snd (PdfProxy.ch_pdf_proxy
                       pw {| PdfProxy.x_target_url := Some link;
                             PdfProxy.x_api_key := Some (trim (chApiKey s)) |})).
  assert (Hserve : fetchPdf (DevServer.page pw bw) (pdfRequest s link)
                   = Responded {| status := PdfProxy.statusCode reply;
                                  statusText := "";
                                  location := None;
                                  payload := DevServer.pdfData reply |}).
  { unfold DevServer.page, pdfRequest.
    cbn [fetchPdf headers forallb snd]. rewrite Hvl, Hvk. reflexivity. }
  assert (Hrun : forall pdfData,
             DevServer.pdfData reply = Ok pdfData ->
             let run := handleExtract (DevServer.page pw bw) s in
             if success pdfData then
               In (EvGemini (geminiUrl s) geminiPrompt (base64 pdfData)) (fst run)
             else
               error_text (snd run)
               = ("Extraction Failed: PDF Download failed: "
                    ++ shown (error pdfData))%string
               /\ outside (fst run) = [ToDetails; ToHistory; ToPdf]
               /\ rows (snd run) = rows s).
  { intros pdfData Hpd.
    exact (handleExtract_pdf_step
             (DevServer.page pw bw) s auth detailsRes details historyRes
             history link _ pdfData Hc Hg Hn Ha Hd Hok Hp Hh Hph Hsoa
             Hserve Hpd). }
  clear Hserve.
  destruct (PdfProxyCoverage.reply_cases
              pw {| PdfProxy.x_target_url := Some link;
                    PdfProxy.x_api_key := Some (trim (chApiKey s)) |})
    as [H|[(m & H)|(b & H)]]; fold reply in H; rewrite H in *.
  - left. exists "Missing headers". split; [reflexivity|].
    exact (Hrun _ eq_refl).
  - left. exists m. split; [reflexivity|].
    exact (Hrun _ eq_refl).
  - right. exists b. split; [reflexivity|].
    exact (Hrun _ eq_refl).
Qed.

Lemma pdf_step_follows_the_proxy_witness :
  let reply :=
    snd (PdfProxy.ch_pdf_proxy
           (Scenario.redirecting (Some "https://s3/abc"))
           {| PdfProxy.x_target_url := Some "https://reg/doc/1";
              PdfProxy.x_api_key := Some (trim "secret") |}) in
  let run := handleExtract
               (DevServer.page (Scenario.redirecting (Some "https://s3/abc"))
                               Cases.pageWorld)
               Scenario.browserState in
  (exists message,
      PdfProxy.written reply = JObj [("error", JStr message)]
      /\ error_text (snd run)
         = ("Extraction Failed: PDF Download failed: " ++ message)%string
      /\ outside (fst run) = [ToDetails; ToHistory; ToPdf]
      /\ rows (snd run) = rows Scenario.browserState)
  \/ (exists base64,
         reply = ProxyLog.delivered base64
         /\ In (EvGemini (geminiUrl Scenario.browserState) geminiPrompt
                         (Some base64)) (fst run)).
Proof.
  apply (pdf_step_follows_the_proxy
           (Scenario.redirecting (Some "https://s3/abc")) Cases.pageWorld
           Scenario.browserState
           [("Authorization", "Basic c2VjcmV0Og==")]
           (Scenario.okResponse Scenario.acme) Scenario.acme
           {| status := 416; statusText := "Range Not Satisfiable";
              location := None;
              payload := Ok {| items := Some [Scenario.accounts "1";
                                              Cases.resolution] |} |}
           {| items := Some [Scenario.accounts "1"; Cases.resolution] |}
           "https://reg/doc/1");
    try discriminate; reflexivity.
Defined.

(** Saving the keys and loading them on the next start gives back the
    two keys as they were typed, untrimmed, into the initial state; the
    storage changes at the two entries of the keys and nowhere else. *)
Theorem saved_keys_come_back (s : State) (store : Storage) (k : string) :
  loadApiKeys (saveApiKeys s store) initial
  = setGeminiApiKey (setChApiKey initial (chApiKey s)) (geminiApiKey s)
  /\ getItem (saveApiKeys s store) k
     = if k =? "GEMINI_API_KEY" then Some (geminiApiKey s)
       else if k =? "CH_API_KEY" then Some (chApiKey s)
       else getItem store k.
Proof.
  split; [|reflexivity].
  unfold loadApiKeys, saveApiKeys, getItem, setItem, nonempty. simpl.
  destruct (chApiKey s =? "") eqn:Ec; destruct (geminiApiKey s =? "") eqn:Eg;
    try apply String.eqb_eq in Ec; try apply String.eqb_eq in Eg;
    unfold setGeminiApiKey, setChApiKey, initial; simpl;
    try rewrite Ec; try rewrite Eg; reflexivity.
Qed.

Lemma append_assoc (a b c : string) :
  ((a ++ b) ++ c = a ++ (b ++ c))%string.
Proof. induction a as [|x a IH]; simpl; [reflexivity|]. now rewrite IH. Qed.

Lemma isAscii_app a b :
  Base64.isAscii (a ++ b) = Base64.isAscii a && Base64.isAscii b.
Proof.
  unfold Base64.isAscii.
  induction a as [|x a IH]; simpl; [reflexivity|]. now rewrite IH, andb_assoc.
Qed.

(** On ASCII, [btoa] is the base64 of the UTF-8 bytes. *)
Lemma btoa_ascii s :
  Base64.isAscii s = true -> Base64.btoa s = Some (Base64.encode s).
Proof.
  unfold Base64.btoa, Base64.encode, Base64.isAscii. intros H.
  assert (Hl : Base64.latin1 s = Some (map N_of_ascii (list_ascii_of_string s))).
  { induction s as [|c s IH]; [reflexivity|].
    cbn [list_ascii_of_string forallb] in H. apply andb_prop in H.
    destruct H as [Hc Hs].
    cbn [Base64.latin1 list_ascii_of_string map]. cbv zeta.
    rewrite Hc, (IH Hs). reflexivity. }
  now rewrite Hl.
Qed.

(** Through the dev server the page asks the registry for the profile
    at the URL the server asks, and for the filing history at the
    server's URL without its [items_per_page=100]; this for a company
    number of letters and digits, which URL parsing leaves alone.  For a
    key that is ASCII once trimmed, [btoa] does not throw and the page
    sends the credential the server makes of the trimmed key. *)
Theorem dev_proxy_reaches_the_registry (s : State) :
  isAlphanumeric (companyNumber s) = true ->
  Base64.isAscii (trim (chApiKey s)) = true ->
  let credential := Server.authHeader (trim (chApiKey s)) in
  let profile := Server.companyRequest (companyNumber s) credential in
  let filings := Server.filingRequest (companyNumber s) credential in
  exists auth,
    authHeader s = Some auth
    /\ DevServer.upstream (url (detailsRequest s auth)) = Some (url profile)
    /\ headers (detailsRequest s auth) = headers profile
    /\ option_map (fun u => (u ++ "?items_per_page=100")%string)
                  (DevServer.upstream (url (historyRequest s auth)))
       = Some (url filings)
    /\ headers (historyRequest s auth) = headers filings.
Proof.
  intros _ Hascii. cbv zeta.
  assert (Hb : Base64.btoa (trim (chApiKey s) ++ ":")
               = Some (Base64.encode (trim (chApiKey s) ++ ":"))).
  { apply btoa_ascii. rewrite isAscii_app, Hascii. reflexivity. }
  exists [("Authorization",
           ("Basic " ++ Base64.encode (trim (chApiKey s) ++ ":"))%string)].
  split; [unfold authHeader; now rewrite Hb|].
  unfold DevServer.upstream, DevServer.rewrite.
  repeat split.
  cbn [url historyRequest Server.filingRequest Server.registryRequest
       DevServer.stripPrefix].
  simpl. rewrite append_assoc. reflexivity.
Qed.

Lemma dev_proxy_reaches_the_registry_witness :
  exists auth,
    authHeader Scenario.browserState = Some auth
    /\ DevServer.upstream (url (detailsRequest Scenario.browserState auth))
       = Some (url (Server.companyRequest "11969947"
                                          (Server.authHeader "secret")))
    /\ headers (detailsRequest Scenario.browserState auth)
       = headers (Server.companyRequest "11969947" (Server.authHeader "secret"))
    /\ option_map (fun u => (u ++ "?items_per_page=100")%string)
                  (DevServer.upstream
                     (url (historyRequest Scenario.browserState auth)))
       = Some (url (Server.filingRequest "11969947"
                                         (Server.authHeader "secret")))
    /\ headers (historyRequest Scenario.browserState auth)
       = headers (Server.filingRequest "11969947" (Server.authHeader "secret")).
Proof.
  exact (dev_proxy_reaches_the_registry Scenario.browserState eq_refl eq_refl).
Defined.

(** A key outside ASCII: for U+00E9, [btoa] encodes the one byte E9
    where the server encodes the two bytes of its UTF-8, and for U+20AC
    [btoa] throws. *)
Example credentials_beyond_ascii :
  Base64.btoa (String (ascii_of_nat 195) (String (ascii_of_nat 169) ":"))
  = Some "6To="
  /\ Base64.encode (String (ascii_of_nat 195) (String (ascii_of_nat 169) ":"))
     = "w6k6"
  /\ Base64.btoa (String (ascii_of_nat 226)
                         (String (ascii_of_nat 130)
                                 (String (ascii_of_nat 172) ":")))
     = None.
Proof. vm_compute. repeat split. Qed.

End BrowserCoverage.
